(** * eeschema/dialogs/dialog_netlist.cpp: the netlist dialog

    A shallow embedding of the dialog that creates netlists in Eeschema
    (classes [NETLIST_PAGE_DIALOG], [NETLIST_DIALOG],
    [NETLIST_DIALOG_ADD_GENERATOR] and the function [InvokeDialogNetList]),
    with the properties of its event handlers.

    - [wxString] is [string]; [_( ... )] (translation) is the identity.
    - Widgets are their values: a check box is a [bool], a text control is a
      [string]; a widget pointer that may be NULL is an [option].
    - Notebook pages are objects shared between the notebook and the array
      [m_PanelNetType]: the notebook owns them and a page pointer is the
      position of the page in the notebook.
    - A handler is a computation in a state and error monad; dereferencing a
      NULL pointer is the error.
    - Calls to the parent frame and to the windowing toolkit that have an
      outside effect are recorded, in order, in a list of effects. *)

From Stdlib Require Import ZArith Ascii String List.
From stdpp Require Import base option list gmap strings pretty.

Local Open Scope string_scope.
Local Open Scope Z_scope.

(** ** Declarations used from other headers *)

(** The enumerators of [NETLIST_TYPE_ID] and the option flag (netlist.h), the
    file extension and wildcards (wildcards_and_files_ext.h), the dialog
    return codes (wx, invoke_sch_dialog.h). *)
Class Headers := {
  NET_TYPE_PCBNEW : Z;
  NET_TYPE_ORCADPCB2 : Z;
  NET_TYPE_CADSTAR : Z;
  NET_TYPE_SPICE : Z;
  NET_TYPE_CUSTOM1 : Z;
  NET_ADJUST_PASSIVE_VALS : Z;
  NET_PLUGIN_CHANGE : Z;
  wxID_OK : Z;
  wxID_CANCEL : Z;
  NetlistFileExtension : string;
  SpiceNetlistFileWildcard : string;
  CadstarNetlistFileWildcard : string;
  NetlistFileWildcard : string;
  AllFilesWildcard : string
}.

(** A [switch] needs pairwise distinct case labels. *)
Definition case_labels_distinct `{Headers} : Prop :=
  NoDup [NET_TYPE_SPICE; NET_TYPE_CADSTAR; NET_TYPE_PCBNEW; NET_TYPE_ORCADPCB2].

(** One valuation of the declarations, used to run the model. *)
Definition sample_headers : Headers := {|
  NET_TYPE_PCBNEW := 1;
  NET_TYPE_ORCADPCB2 := 2;
  NET_TYPE_CADSTAR := 3;
  NET_TYPE_SPICE := 4;
  NET_TYPE_CUSTOM1 := 5;
  NET_ADJUST_PASSIVE_VALS := 16;
  NET_PLUGIN_CHANGE := 1;
  wxID_OK := 5100;
  wxID_CANCEL := 5101;
  NetlistFileExtension := "net";
  SpiceNetlistFileWildcard := "SPICE netlist file (.cir)|*.cir";
  CadstarNetlistFileWildcard := "CadStar netlist file (.frp)|*.frp";
  NetlistFileWildcard := "KiCad netlist files (*.net)|*.net";
  AllFilesWildcard := "All files (*)|*"
|}.

Definition CUSTOMPANEL_COUNTMAX : nat := 8.

(** [enum panel_netlist_index] *)
Definition PANELPCBNEW : nat := 0.
Definition PANELORCADPCB2 : nat := 1.
Definition PANELCADSTAR : nat := 2.
Definition PANELSPICE : nat := 3.
Definition PANELCUSTOMBASE : nat := 4.

Definition CUSTOM_NETLIST_TITLE : string := "CustomNetlistTitle".
Definition CUSTOM_NETLIST_COMMAND : string := "CustomNetlistCommand".

(** ** wxString operations *)

Definition IsEmpty (s : string) : bool := bool_decide (s = "").

(** [msg << n]: append the decimal digits of [n]. *)
Definition shl_int (msg : string) (n : nat) : string := msg +:+ pretty n.

Fixpoint TrimLeft (s : string) : string :=
  match s with
  | String c s' => if Ascii.is_space c then TrimLeft s' else s
  | EmptyString => EmptyString
  end.

Fixpoint TrimRight (s : string) : string :=
  match s with
  | String c s' =>
      let r := TrimRight s' in
      if Ascii.is_space c && IsEmpty r then EmptyString else String c r
  | EmptyString => EmptyString
  end.

(** [Trim( bFromRight )] *)
Definition Trim (bFromRight : bool) (s : string) : string :=
  if bFromRight then TrimRight s else TrimLeft s.

(** The whole string when [ch] does not occur. *)
Fixpoint BeforeFirst (ch : ascii) (s : string) : string :=
  match s with
  | String c s' => if bool_decide (c = ch) then EmptyString else String c (BeforeFirst ch s')
  | EmptyString => EmptyString
  end.

(** The empty string when [ch] does not occur. *)
Fixpoint AfterFirst (ch : ascii) (s : string) : string :=
  match s with
  | String c s' => if bool_decide (c = ch) then s' else AfterFirst ch s'
  | EmptyString => EmptyString
  end.

Fixpoint contains (ch : ascii) (s : string) : bool :=
  match s with
  | String c s' => bool_decide (c = ch) || contains ch s'
  | EmptyString => false
  end.

(** ** wxRegEx: the fragment of extended regular expressions of [extRE]

    A pattern is a sequence of one-character items, each with a repetition,
    and of the parentheses of the capturing group.  Matching is greedy with
    backtracking; on such patterns this gives the leftmost match whose items
    are, from left to right, as long as possible. *)

Inductive cclass :=
| CAny                  (* .           *)
| CLit (c : ascii)      (* c  or  \c   *)
| CAlnum.               (* [[:alnum:]] *)

Inductive quant :=
| QOne
| QOpt                  (* ? *)
| QStar.                (* * *)

Inductive item :=
| Item (c : cclass) (q : quant)
| GOpen                 (* ( *)
| GClose.               (* ) *)

Definition is_alnum (x : ascii) : bool :=
  let n := nat_of_ascii x in
  ((48 <=? n) && (n <=? 57) || (65 <=? n) && (n <=? 90) || (97 <=? n) && (n <=? 122))%nat.

Definition accepts (c : cclass) (x : ascii) : bool :=
  match c with
  | CAny => true
  | CLit y => bool_decide (x = y)
  | CAlnum => is_alnum x
  end.

(** The state of group 1: the text of the group while it is open, and the
    text it matched once it is closed. *)
Record caps := { cur : option string; grp : option string }.

Definition no_caps : caps := {| cur := None; grp := None |}.

Definition feed (x : ascii) (k : caps) : caps :=
  match cur k with
  | Some g => {| cur := Some (g +:+ String x ""); grp := grp k |}
  | None => k
  end.

Definition gopen (k : caps) : caps := {| cur := Some ""; grp := grp k |}.
Definition gclose (k : caps) : caps := {| cur := None; grp := cur k |}.

(** Match a prefix of [s] against [p]. *)
Fixpoint match_here (p : list item) (s : string) (k : caps) {struct p} : option caps :=
  match p with
  | [] => Some k
  | GOpen :: p' => match_here p' s (gopen k)
  | GClose :: p' => match_here p' s (gclose k)
  | Item c QOne :: p' =>
      match s with
      | String x s' => if accepts c x then match_here p' s' (feed x k) else None
      | EmptyString => None
      end
  | Item c QOpt :: p' =>
      match s with
      | String x s' =>
          if accepts c x then
            match match_here p' s' (feed x k) with
            | Some r => Some r
            | None => match_here p' s k
            end
          else match_here p' s k
      | EmptyString => match_here p' s k
      end
  | Item c QStar :: p' =>
      (fix star (s : string) (k : caps) {struct s} : option caps :=
         match s with
         | String x s' =>
             if accepts c x then
               match star s' (feed x k) with
               | Some r => Some r
               | None => match_here p' s k
               end
             else match_here p' s k
         | EmptyString => match_here p' s k
         end) s k
  end.

(** What it means for a pattern to match a whole string: [matches p s k k']
    when [s] is made of the characters taken by the items of [p], in order,
    and the group state goes from [k] to [k']. *)
Inductive matches : list item → string → caps → caps → Prop :=
| m_nil k : matches [] "" k k
| m_open p s k k' : matches p s (gopen k) k' → matches (GOpen :: p) s k k'
| m_close p s k k' : matches p s (gclose k) k' → matches (GClose :: p) s k k'
| m_one c p x s k k' :
    accepts c x = true → matches p s (feed x k) k' →
    matches (Item c QOne :: p) (String x s) k k'
| m_opt_take c p x s k k' :
    accepts c x = true → matches p s (feed x k) k' →
    matches (Item c QOpt :: p) (String x s) k k'
| m_opt_skip c p s k k' :
    matches p s k k' → matches (Item c QOpt :: p) s k k'
| m_star_more c p x s k k' :
    accepts c x = true → matches (Item c QStar :: p) s (feed x k) k' →
    matches (Item c QStar :: p) (String x s) k k'
| m_star_stop c p s k k' :
    matches p s k k' → matches (Item c QStar :: p) s k k'.

(** The leftmost position of [text] at which the pattern matches. *)
Fixpoint search (p : list item) (text : string) : option caps :=
  match match_here p text no_caps with
  | Some r => Some r
  | None =>
      match text with
      | String _ text' => search p text'
      | EmptyString => None
      end
  end.

Definition Matches (re : list item) (text : string) : bool :=
  bool_decide (is_Some (search re text)).

(** [GetMatch( text, 1 )] after a successful [Matches( text )]. *)
Definition GetMatch1 (re : list item) (text : string) : string :=
  match search re text with
  | Some r => default "" (grp r)
  | None => ""
  end.

Definition lit (c : ascii) : item := Item (CLit c) QOne.

(** The double quote character. *)
Definition dquote : ascii := "034"%char.

(** The pattern  .*\.([[:alnum:]][[:alnum:]][[:alnum:]][[:alnum:]]?)\.xslt?Q.*
    where Q stands for the double quote. *)
Definition extRE : list item :=
  [ Item CAny QStar; lit ".";
    GOpen; Item CAlnum QOne; Item CAlnum QOne; Item CAlnum QOne; Item CAlnum QOpt; GClose;
    lit "."; lit "x"; lit "s"; lit "l"; Item (CLit "t") QOpt; lit dquote; Item CAny QStar ].

(** ** wxFileName: a directory, a base name and an extension *)

Record wxFileName := {
  fn_path : string;
  fn_name : string;
  fn_ext : string;
  fn_hasExt : bool
}.

Definition SetExt (ext : string) (fn : wxFileName) : wxFileName :=
  {| fn_path := fn_path fn; fn_name := fn_name fn;
     fn_ext := ext; fn_hasExt := negb (IsEmpty ext) |}.

Definition SetPath (path : string) (fn : wxFileName) : wxFileName :=
  {| fn_path := path; fn_name := fn_name fn;
     fn_ext := fn_ext fn; fn_hasExt := fn_hasExt fn |}.

Definition GetPath (fn : wxFileName) : string := fn_path fn.
Definition GetExt (fn : wxFileName) : string := fn_ext fn.

Definition GetFullName (fn : wxFileName) : string :=
  if fn_hasExt fn then fn_name fn +:+ "." +:+ fn_ext fn else fn_name fn.

Definition GetFullPath (fn : wxFileName) : string :=
  if IsEmpty (fn_path fn) then GetFullName fn
  else fn_path fn +:+ "/" +:+ GetFullName fn.

(** ** The objects of the dialog *)

(** [class NETLIST_PAGE_DIALOG].  The check box [m_IsCurrentFormat] is
    created by the constructor, the other widgets are NULL until a page of
    the matching kind installs them. *)
Record NETLIST_PAGE_DIALOG := {
  m_IdNetType : Z;
  m_IsCurrentFormat : bool;
  m_SpiceAjustPassiveValues : option bool;
  m_CommandStringCtrl : option string;
  m_TitleStringCtrl : option string;
  m_pageNetFmtName : string
}.

Definition GetPageNetFmtName (pg : NETLIST_PAGE_DIALOG) : string := m_pageNetFmtName pg.

Definition set_IsCurrentFormat (v : bool) (pg : NETLIST_PAGE_DIALOG) : NETLIST_PAGE_DIALOG :=
  {| m_IdNetType := m_IdNetType pg; m_IsCurrentFormat := v;
     m_SpiceAjustPassiveValues := m_SpiceAjustPassiveValues pg;
     m_CommandStringCtrl := m_CommandStringCtrl pg;
     m_TitleStringCtrl := m_TitleStringCtrl pg;
     m_pageNetFmtName := m_pageNetFmtName pg |}.

Definition set_SpiceAjustPassiveValues (v : option bool) (pg : NETLIST_PAGE_DIALOG) : NETLIST_PAGE_DIALOG :=
  {| m_IdNetType := m_IdNetType pg; m_IsCurrentFormat := m_IsCurrentFormat pg;
     m_SpiceAjustPassiveValues := v;
     m_CommandStringCtrl := m_CommandStringCtrl pg;
     m_TitleStringCtrl := m_TitleStringCtrl pg;
     m_pageNetFmtName := m_pageNetFmtName pg |}.

Definition set_CommandStringCtrl (v : option string) (pg : NETLIST_PAGE_DIALOG) : NETLIST_PAGE_DIALOG :=
  {| m_IdNetType := m_IdNetType pg; m_IsCurrentFormat := m_IsCurrentFormat pg;
     m_SpiceAjustPassiveValues := m_SpiceAjustPassiveValues pg;
     m_CommandStringCtrl := v;
     m_TitleStringCtrl := m_TitleStringCtrl pg;
     m_pageNetFmtName := m_pageNetFmtName pg |}.

Definition set_TitleStringCtrl (v : option string) (pg : NETLIST_PAGE_DIALOG) : NETLIST_PAGE_DIALOG :=
  {| m_IdNetType := m_IdNetType pg; m_IsCurrentFormat := m_IsCurrentFormat pg;
     m_SpiceAjustPassiveValues := m_SpiceAjustPassiveValues pg;
     m_CommandStringCtrl := m_CommandStringCtrl pg;
     m_TitleStringCtrl := v;
     m_pageNetFmtName := m_pageNetFmtName pg |}.

(** The settings of [SCH_EDIT_FRAME] that the dialog reads and writes. *)
Record SCH_EDIT_FRAME := {
  NetListFormatName : string;
  SimulatorCommand : string;
  SpiceAjustPassiveValues : bool;
  NetListerCommand : string
}.

Definition SetNetListFormatName (v : string) (f : SCH_EDIT_FRAME) : SCH_EDIT_FRAME :=
  {| NetListFormatName := v; SimulatorCommand := SimulatorCommand f;
     SpiceAjustPassiveValues := SpiceAjustPassiveValues f;
     NetListerCommand := NetListerCommand f |}.

Definition SetSimulatorCommand (v : string) (f : SCH_EDIT_FRAME) : SCH_EDIT_FRAME :=
  {| NetListFormatName := NetListFormatName f; SimulatorCommand := v;
     SpiceAjustPassiveValues := SpiceAjustPassiveValues f;
     NetListerCommand := NetListerCommand f |}.

Definition SetSpiceAjustPassiveValues (v : bool) (f : SCH_EDIT_FRAME) : SCH_EDIT_FRAME :=
  {| NetListFormatName := NetListFormatName f; SimulatorCommand := SimulatorCommand f;
     SpiceAjustPassiveValues := v;
     NetListerCommand := NetListerCommand f |}.

Definition SetNetListerCommand (v : string) (f : SCH_EDIT_FRAME) : SCH_EDIT_FRAME :=
  {| NetListFormatName := NetListFormatName f; SimulatorCommand := SimulatorCommand f;
     SpiceAjustPassiveValues := SpiceAjustPassiveValues f;
     NetListerCommand := v |}.

(** [class NETLIST_DIALOG_ADD_GENERATOR]: the two text controls, the code
    given to [EndModal] and the message boxes shown so far. *)
Record NETLIST_DIALOG_ADD_GENERATOR := {
  m_textCtrlName : string;
  m_textCtrlCommand : string;
  add_EndModal : option Z;
  add_messages : list string
}.

Definition GetGeneratorTitle (d : NETLIST_DIALOG_ADD_GENERATOR) : string := m_textCtrlName d.
Definition GetGeneratorTCommandLine (d : NETLIST_DIALOG_ADD_GENERATOR) : string := m_textCtrlCommand d.

(** What the user does in the add-generator dialog. *)
Inductive add_event :=
| AddTypeName (s : string)
| AddTypeCommand (s : string)
| AddBrowse (FullFileName : string)     (* the file chosen, empty when none *)
| AddClickOK
| AddClickCancel.

(** What the user does in the netlist dialog.  [EvGenNetlist] carries the
    answer to the file dialog ([None]: cancelled), [EvAddGenerator] what
    happens in the add-generator dialog. *)
Inductive event :=
| EvChangePage (n : nat)
| EvTypeCommand (s : string)
| EvTypeTitle (s : string)
| EvToggleSpiceOption
| EvSelectDefault
| EvGenNetlist (answer : option string)
| EvRunSimulator
| EvAddGenerator (sub : list add_event)
| EvDelGenerator
| EvClose.

(** The parent frame and the toolkit: the netlist object built by the
    parent frame and the parent's two operations on it; [wxFileName( name )]
    and [wxPathOnly( name )]; [g_RootSheet->GetScreen()->GetFileName()] and
    [Prj().GetProjectFullName()]. *)
Class Host := {
  NETLIST_OBJECT_LIST : Type;
  CreateNetlist : SCH_EDIT_FRAME -> option NETLIST_OBJECT_LIST;
  WriteNetListFile :
    SCH_EDIT_FRAME -> option NETLIST_OBJECT_LIST -> Z -> string -> Z -> bool;
  wxFileName_of : string -> wxFileName;
  wxPathOnly : string -> string;
  RootFileName : string;
  ProjectFullName : string
}.

(** One host, used to run the model: a netlist is always available and
    always written. *)
Definition sample_host : Host := {|
  NETLIST_OBJECT_LIST := unit;
  CreateNetlist := fun _ => Some tt;
  WriteNetListFile := fun _ _ _ _ _ => true;
  wxFileName_of := fun name =>
    {| fn_path := "/home/user/project"; fn_name := name; fn_ext := "sch"; fn_hasExt := true |};
  wxPathOnly := fun _ => "/home/user/project";
  RootFileName := "board";
  ProjectFullName := "/home/user/project/board.pro"
|}.

Section Dialog.

Context `{Headers, Host}.

(** The calls with an effect outside the dialog. *)
Inductive effect :=
| wxMessageBox (msg : string)
| wxFileDialog (title path fullname wildcard : string)
| ClearMsgPanel
| CallCreateNetlist
| CallWriteNetListFile (netlist : option NETLIST_OBJECT_LIST) (id : Z) (fullpath : string) (opt : Z)
| ExecuteFile (ExecFile CommandLine : string)
| SaveProjectSettings.

(** [class NETLIST_DIALOG] with the objects it points to: [frame] is
    [*m_Parent], [config] is [*m_config], [pages] and [selection] are
    [*m_NoteBook]; [index] is the static variable of [UserNetlistTypeName];
    [EndModal_code] is the code given to [EndModal]. *)
#[projections(primitive)] Record state := {
  frame : SCH_EDIT_FRAME;
  config : gmap string string;
  pages : list NETLIST_PAGE_DIALOG;
  selection : option nat;
  m_DefaultNetFmtName : string;
  m_PanelNetType : list (option nat);
  m_asFormatSelected : bool;
  m_buttonDelGenerator : bool;
  index : nat;
  EndModal_code : option Z;
  effects : list effect
}.

Definition set_frame (v : SCH_EDIT_FRAME) (s : state) : state :=
  {| frame := v; config := config s; pages := pages s; selection := selection s;
     m_DefaultNetFmtName := m_DefaultNetFmtName s; m_PanelNetType := m_PanelNetType s;
     m_asFormatSelected := m_asFormatSelected s; m_buttonDelGenerator := m_buttonDelGenerator s;
     index := index s; EndModal_code := EndModal_code s; effects := effects s |}.

Definition set_config (v : gmap string string) (s : state) : state :=
  {| frame := frame s; config := v; pages := pages s; selection := selection s;
     m_DefaultNetFmtName := m_DefaultNetFmtName s; m_PanelNetType := m_PanelNetType s;
     m_asFormatSelected := m_asFormatSelected s; m_buttonDelGenerator := m_buttonDelGenerator s;
     index := index s; EndModal_code := EndModal_code s; effects := effects s |}.

Definition set_pages (v : list NETLIST_PAGE_DIALOG) (s : state) : state :=
  {| frame := frame s; config := config s; pages := v; selection := selection s;
     m_DefaultNetFmtName := m_DefaultNetFmtName s; m_PanelNetType := m_PanelNetType s;
     m_asFormatSelected := m_asFormatSelected s; m_buttonDelGenerator := m_buttonDelGenerator s;
     index := index s; EndModal_code := EndModal_code s; effects := effects s |}.

Definition set_selection (v : option nat) (s : state) : state :=
  {| frame := frame s; config := config s; pages := pages s; selection := v;
     m_DefaultNetFmtName := m_DefaultNetFmtName s; m_PanelNetType := m_PanelNetType s;
     m_asFormatSelected := m_asFormatSelected s; m_buttonDelGenerator := m_buttonDelGenerator s;
     index := index s; EndModal_code := EndModal_code s; effects := effects s |}.

Definition set_DefaultNetFmtName (v : string) (s : state) : state :=
  {| frame := frame s; config := config s; pages := pages s; selection := selection s;
     m_DefaultNetFmtName := v; m_PanelNetType := m_PanelNetType s;
     m_asFormatSelected := m_asFormatSelected s; m_buttonDelGenerator := m_buttonDelGenerator s;
     index := index s; EndModal_code := EndModal_code s; effects := effects s |}.

Definition set_PanelNetType (v : list (option nat)) (s : state) : state :=
  {| frame := frame s; config := config s; pages := pages s; selection := selection s;
     m_DefaultNetFmtName := m_DefaultNetFmtName s; m_PanelNetType := v;
     m_asFormatSelected := m_asFormatSelected s; m_buttonDelGenerator := m_buttonDelGenerator s;
     index := index s; EndModal_code := EndModal_code s; effects := effects s |}.

Definition set_asFormatSelected (v : bool) (s : state) : state :=
  {| frame := frame s; config := config s; pages := pages s; selection := selection s;
     m_DefaultNetFmtName := m_DefaultNetFmtName s; m_PanelNetType := m_PanelNetType s;
     m_asFormatSelected := v; m_buttonDelGenerator := m_buttonDelGenerator s;
     index := index s; EndModal_code := EndModal_code s; effects := effects s |}.

Definition set_buttonDelGenerator (v : bool) (s : state) : state :=
  {| frame := frame s; config := config s; pages := pages s; selection := selection s;
     m_DefaultNetFmtName := m_DefaultNetFmtName s; m_PanelNetType := m_PanelNetType s;
     m_asFormatSelected := m_asFormatSelected s; m_buttonDelGenerator := v;
     index := index s; EndModal_code := EndModal_code s; effects := effects s |}.

Definition set_index (v : nat) (s : state) : state :=
  {| frame := frame s; config := config s; pages := pages s; selection := selection s;
     m_DefaultNetFmtName := m_DefaultNetFmtName s; m_PanelNetType := m_PanelNetType s;
     m_asFormatSelected := m_asFormatSelected s; m_buttonDelGenerator := m_buttonDelGenerator s;
     index := v; EndModal_code := EndModal_code s; effects := effects s |}.

Definition set_EndModal_code (v : option Z) (s : state) : state :=
  {| frame := frame s; config := config s; pages := pages s; selection := selection s;
     m_DefaultNetFmtName := m_DefaultNetFmtName s; m_PanelNetType := m_PanelNetType s;
     m_asFormatSelected := m_asFormatSelected s; m_buttonDelGenerator := m_buttonDelGenerator s;
     index := index s; EndModal_code := v; effects := effects s |}.

Definition set_effects (v : list effect) (s : state) : state :=
  {| frame := frame s; config := config s; pages := pages s; selection := selection s;
     m_DefaultNetFmtName := m_DefaultNetFmtName s; m_PanelNetType := m_PanelNetType s;
     m_asFormatSelected := m_asFormatSelected s; m_buttonDelGenerator := m_buttonDelGenerator s;
     index := index s; EndModal_code := EndModal_code s; effects := v |}.

(** ** The monad of the handlers: state, and failure on a NULL pointer *)

Definition M (A : Type) : Type := state -> option (A * state).

Definition pure {A} (a : A) : M A := fun s => Some (a, s).

Definition bind {A B} (c : M A) (k : A -> M B) : M B :=
  fun s => match c s with
           | Some (a, s') => k a s'
           | None => None
           end.

Notation "'let*' x ':=' c 'in' k" := (bind c (fun x => k))
  (at level 10, x name, c at level 100, k at level 200, only parsing).
Notation "c >> k" := (bind c (fun _ => k))
  (at level 100, k at level 200, right associativity, only parsing).

Definition get : M state := fun s => Some (s, s).
Definition modify (f : state -> state) : M unit := fun s => Some (tt, f s).

(** [*p] for a pointer that may be NULL. *)
Definition deref {A} (p : option A) : M A :=
  fun s => match p with
           | Some a => Some (a, s)
           | None => None
           end.

Definition emit (e : effect) : M unit :=
  modify (fun s => set_effects (effects s ++ [e]) s).

Definition EndModal (code : Z) : M unit :=
  modify (set_EndModal_code (Some code)).

(** The page a pointer refers to. *)
Definition page_at (p : nat) : M NETLIST_PAGE_DIALOG :=
  let* s := get in deref (pages s !! p).

Definition update_page (p : nat) (f : NETLIST_PAGE_DIALOG -> NETLIST_PAGE_DIALOG) : M unit :=
  let* pg := page_at p in
  modify (fun s => set_pages (<[p := f pg]> (pages s)) s).

(** [m_PanelNetType[ii]] *)
Definition panel (ii : nat) : M (option nat) :=
  let* s := get in deref (m_PanelNetType s !! ii).

Definition set_panel (ii : nat) (p : option nat) : M unit :=
  modify (fun s => set_PanelNetType (<[ii := p]> (m_PanelNetType s)) s).

(** [m_NoteBook->GetCurrentPage()] *)
Definition GetCurrentPage : M (option nat) :=
  let* s := get in pure (selection s).

Definition config_Read (key : string) : M string :=
  let* s := get in pure (default "" (config s !! key)).

Definition config_Write (key value : string) : M unit :=
  modify (fun s => set_config (<[key := value]> (config s)) s).

Definition update_frame (f : SCH_EDIT_FRAME -> SCH_EDIT_FRAME) : M unit :=
  modify (fun s => set_frame (f (frame s)) s).

(** ** NETLIST_PAGE_DIALOG::NETLIST_PAGE_DIALOG *)

(** [parent->AddPage( this, title, selected )]: the page goes to the end of
    the notebook; it becomes the current page when [selected] is set, and
    the first page of a notebook is current whatever [selected] is. *)
Definition AddPage (pg : NETLIST_PAGE_DIALOG) (selected : bool) : M nat :=
  let* s := get in
  let p := length (pages s) in
  modify (fun s =>
    set_selection (if selected then Some p
                   else match selection s with
                        | Some c => Some c
                        | None => Some 0%nat
                        end)
      (set_pages (pages s ++ [pg]) s)) >>
  pure p.

(** The constructor returns the pointer to the new page. *)
Definition new_NETLIST_PAGE_DIALOG (title : string) (id_NetType : Z) : M nat :=
  let* s := get in
  let netfmtName := m_DefaultNetFmtName s in
  let selected := bool_decide (title = netfmtName) in
  let* p := AddPage {| m_IdNetType := id_NetType;
                       m_IsCurrentFormat := false;
                       m_SpiceAjustPassiveValues := None;
                       m_CommandStringCtrl := None;
                       m_TitleStringCtrl := None;
                       m_pageNetFmtName := title |} selected in
  update_page p (set_IsCurrentFormat selected) >>
  (if selected then modify (set_asFormatSelected true) else pure tt) >>
  pure p.

(** ** NETLIST_DIALOG *)

Definition UserNetlistTypeName (first_item : bool) : M string :=
  modify (fun s => set_index (if first_item then 0%nat else S (index s)) s) >>
  let* s := get in
  let msg := shl_int CUSTOM_NETLIST_TITLE (index s + 1) in
  let* name := config_Read msg in
  pure name.

Definition InstallPageSpice : M unit :=
  let title := "Spice" in
  let* page := new_NETLIST_PAGE_DIALOG title NET_TYPE_SPICE in
  set_panel PANELSPICE (Some page) >>
  let* s := get in
  update_page page (set_SpiceAjustPassiveValues (Some (SpiceAjustPassiveValues (frame s)))) >>
  update_page page (set_CommandStringCtrl (Some (SimulatorCommand (frame s)))).

Definition AddOneCustomPage (aTitle aCommandString : string) (aNetTypeId : Z) : M nat :=
  let* currPage := new_NETLIST_PAGE_DIALOG aTitle aNetTypeId in
  update_page currPage (set_CommandStringCtrl (Some aCommandString)) >>
  update_page currPage (set_TitleStringCtrl (Some aTitle)) >>
  pure currPage.

(** The body of the loop of [InstallCustomPages], for the values of [ii]
    that remain. *)
Fixpoint InstallCustomPages_loop (iis : list nat) : M unit :=
  match iis with
  | [] => pure tt
  | ii :: rest =>
      let* title := UserNetlistTypeName (bool_decide (ii = 0%nat)) in
      if IsEmpty title then pure tt      (* break *)
      else
        let msg := shl_int CUSTOM_NETLIST_COMMAND (ii + 1) in
        let* command := config_Read msg in
        let* currPage := AddOneCustomPage title command (NET_TYPE_CUSTOM1 + Z.of_nat ii) in
        set_panel (PANELCUSTOMBASE + ii) (Some currPage) >>
        InstallCustomPages_loop rest
  end.

Definition InstallCustomPages : M unit :=
  InstallCustomPages_loop (seq 0 CUSTOMPANEL_COUNTMAX).

Definition OnNetlistTypeSelection : M unit :=
  let* currPage := GetCurrentPage in
  match currPage with
  | None => pure tt
  | Some p =>
      let* pg := page_at p in
      modify (set_buttonDelGenerator (bool_decide (NET_TYPE_CUSTOM1 <= m_IdNetType pg)))
  end.

Fixpoint SelectDefaultNetlistType_loop (iis : list nat) : M unit :=
  match iis with
  | [] => pure tt
  | ii :: rest =>
      let* q := panel ii in
      match q with
      | Some p => update_page p (set_IsCurrentFormat false)
      | None => pure tt
      end >>
      SelectDefaultNetlistType_loop rest
  end.

Definition SelectDefaultNetlistType : M unit :=
  SelectDefaultNetlistType_loop (seq 0 (PANELCUSTOMBASE + CUSTOMPANEL_COUNTMAX)) >>
  let* currPage := GetCurrentPage in
  match currPage with
  | None => pure tt
  | Some p =>
      let* pg := page_at p in
      modify (set_DefaultNetFmtName (GetPageNetFmtName pg)) >>
      let* s := get in
      update_frame (SetNetListFormatName (m_DefaultNetFmtName s)) >>
      update_page p (set_IsCurrentFormat true)
  end.

Fixpoint NetlistUpdateOpt_loop (iis : list nat) : M unit :=
  match iis with
  | [] => pure tt
  | ii :: rest =>
      let* q := panel ii in
      match q with
      | None => pure tt                   (* break *)
      | Some p =>
          let* pg := page_at p in
          (if m_IsCurrentFormat pg
           then update_frame (SetNetListFormatName (GetPageNetFmtName pg))
           else pure tt) >>
          NetlistUpdateOpt_loop rest
      end
  end.

Definition NetlistUpdateOpt : M unit :=
  let* q := panel PANELSPICE in
  let* p := deref q in
  let* pg := page_at p in
  let* checked := deref (m_SpiceAjustPassiveValues pg) in
  update_frame (SetSpiceAjustPassiveValues checked) >>
  let* cmd := deref (m_CommandStringCtrl pg) in
  update_frame (SetSimulatorCommand cmd) >>
  update_frame (SetNetListFormatName "") >>
  NetlistUpdateOpt_loop (seq 0 (PANELCUSTOMBASE + CUSTOMPANEL_COUNTMAX)).

(** The out parameters [aExt] and [aWildCard] are [None] for a NULL pointer
    and hold the string pointed to otherwise. *)
Definition FilenamePrms (aNetTypeId : Z) (aExt aWildCard : option string)
  : bool * option string * option string :=
  let '(ret, fileExt, fileWildcard) :=
    if decide (aNetTypeId = NET_TYPE_SPICE) then
      (true, "cir", SpiceNetlistFileWildcard)
    else if decide (aNetTypeId = NET_TYPE_CADSTAR) then
      (true, "frp", CadstarNetlistFileWildcard)
    else if decide (aNetTypeId = NET_TYPE_PCBNEW ∨ aNetTypeId = NET_TYPE_ORCADPCB2) then
      (true, NetlistFileExtension, NetlistFileWildcard)
    else
      (false, "", AllFilesWildcard) in
  (ret, (fun _ => fileExt) <$> aExt, (fun _ => fileWildcard) <$> aWildCard).

(** The first loop of [WriteCurrentNetlistSetup]; the result is [jj]. *)
Fixpoint WriteCurrentNetlistSetup_pages (iis : list nat) (jj : nat) : M nat :=
  match iis with
  | [] => pure jj
  | ii :: rest =>
      let* currPage := panel (ii + PANELCUSTOMBASE) in
      match currPage with
      | None => pure jj                   (* break *)
      | Some p =>
          let* pg := page_at p in
          let* title := deref (m_TitleStringCtrl pg) in
          if IsEmpty title then WriteCurrentNetlistSetup_pages rest jj   (* continue *)
          else
            config_Write (shl_int CUSTOM_NETLIST_TITLE (jj + 1)) title >>
            let* Command := deref (m_CommandStringCtrl pg) in
            config_Write (shl_int CUSTOM_NETLIST_COMMAND (jj + 1)) Command >>
            WriteCurrentNetlistSetup_pages rest (S jj)
      end
  end.

(** The second loop, for the values of [jj] that remain. *)
Fixpoint WriteCurrentNetlistSetup_void (jjs : list nat) : M unit :=
  match jjs with
  | [] => pure tt
  | jj :: rest =>
      config_Write (shl_int CUSTOM_NETLIST_TITLE (jj + 1)) "" >>
      config_Write (shl_int CUSTOM_NETLIST_COMMAND (jj + 1)) "" >>
      WriteCurrentNetlistSetup_void rest
  end.

Definition WriteCurrentNetlistSetup : M unit :=
  NetlistUpdateOpt >>
  let* jj := WriteCurrentNetlistSetup_pages (seq 0 CUSTOMPANEL_COUNTMAX) 0%nat in
  WriteCurrentNetlistSetup_void (seq jj (CUSTOMPANEL_COUNTMAX - jj)).

(** The file extension and the title that [GenNetlist] computes in its
    [switch], with the netlist options. *)
Definition GenNetlist_switch (currPage : NETLIST_PAGE_DIALOG) (fileExt title : string)
  : M (Z * string * string) :=
  let id := m_IdNetType currPage in
  if decide (id = NET_TYPE_SPICE) then
    let* adjust := deref (m_SpiceAjustPassiveValues currPage) in
    pure (if adjust then Z.lor 0 NET_ADJUST_PASSIVE_VALS else 0, fileExt, title)
  else if decide (id = NET_TYPE_CADSTAR) then pure (0, fileExt, title)
  else if decide (id = NET_TYPE_PCBNEW) then pure (0, fileExt, title)
  else if decide (id = NET_TYPE_ORCADPCB2) then pure (0, fileExt, title)
  else
    let* command := deref (m_CommandStringCtrl currPage) in
    let fileExt := if Matches extRE command then GetMatch1 extRE command else fileExt in
    let* t := deref (m_TitleStringCtrl currPage) in
    pure (0, fileExt, t +:+ " Export").

Definition GenNetlist (answer : option string) : M unit :=
  let title := "Save Netlist File" in
  NetlistUpdateOpt >>
  let* cp := GetCurrentPage in
  let* p := deref cp in
  let* currPage := page_at p in
  let fn := wxFileName_of RootFileName in
  let '(_, aExt, aWildCard) := FilenamePrms (m_IdNetType currPage) (Some "") (Some "") in
  let fileExt := default "" aExt in
  let fileWildcard := default "" aWildCard in
  let* r := GenNetlist_switch currPage fileExt title in
  let '(netlist_opt, fileExt, title) := r in
  let fn := SetExt fileExt fn in
  let fn := if IsEmpty (GetPath fn) then SetPath (wxPathOnly ProjectFullName) fn else fn in
  let fullname := GetFullName fn in
  let path := GetPath fn in
  emit (wxFileDialog title path fullname fileWildcard) >>
  match answer with
  | None => pure tt                       (* wxID_CANCEL *)
  | Some fullpath =>
      emit ClearMsgPanel >>
      update_frame (SetNetListerCommand (default "" (m_CommandStringCtrl currPage))) >>
      let* s := get in
      let netlist := CreateNetlist (frame s) in
      emit CallCreateNetlist >>
      match netlist with
      | None => emit (wxMessageBox "Schematic netlist not available")
      | Some _ =>
          emit (CallWriteNetListFile netlist (m_IdNetType currPage) fullpath netlist_opt)
      end >>
      WriteCurrentNetlistSetup >>
      EndModal wxID_OK
  end.

Definition RunSimulator : M unit :=
  NetlistUpdateOpt >>
  let* q := panel PANELSPICE in
  let* sp := deref q in
  let* spice := page_at sp in
  let* tmp := deref (m_CommandStringCtrl spice) in
  let tmp := Trim false tmp in
  let tmp := Trim true tmp in
  update_frame (SetSimulatorCommand tmp) >>
  let ExecFile := BeforeFirst " " tmp in
  let CommandLine := AfterFirst " " tmp in
  let fn := wxFileName_of RootFileName in
  let fn := SetExt "cir" fn in
  let CommandLine :=
    CommandLine +:+ (" " +:+ String dquote "") +:+ GetFullPath fn +:+ String dquote "" in
  let* cp := GetCurrentPage in
  let* p := deref cp in
  let* currPage := page_at p in
  let netlist_opt :=
    match m_SpiceAjustPassiveValues currPage with
    | Some true => Z.lor 0 NET_ADJUST_PASSIVE_VALS
    | _ => 0
    end in
  let* s := get in
  let netlist := CreateNetlist (frame s) in
  emit CallCreateNetlist >>
  emit (CallWriteNetListFile netlist (m_IdNetType currPage) (GetFullPath fn) netlist_opt) >>
  if WriteNetListFile (frame s) netlist (m_IdNetType currPage) (GetFullPath fn) netlist_opt
  then emit (ExecuteFile ExecFile CommandLine)
  else pure tt.

Definition OnDelGenerator : M unit :=
  let* cp := GetCurrentPage in
  let* p := deref cp in
  let* currPage := page_at p in
  deref (m_CommandStringCtrl currPage) >>
  update_page p (set_CommandStringCtrl (Some "")) >>
  deref (m_TitleStringCtrl currPage) >>
  update_page p (set_TitleStringCtrl (Some "")) >>
  (if m_IsCurrentFormat currPage then
     update_page p (set_IsCurrentFormat false) >>
     let* q := panel PANELPCBNEW in
     let* pcbnew := deref q in
     update_page pcbnew (set_IsCurrentFormat true)
   else pure tt) >>
  WriteCurrentNetlistSetup >>
  EndModal NET_PLUGIN_CHANGE.

(** ** NETLIST_DIALOG_ADD_GENERATOR *)

(** The dialog when it opens; its text controls are empty. *)
Definition new_NETLIST_DIALOG_ADD_GENERATOR : NETLIST_DIALOG_ADD_GENERATOR :=
  {| m_textCtrlName := ""; m_textCtrlCommand := "";
     add_EndModal := None; add_messages := [] |}.

Definition add_set_Name (v : string) (d : NETLIST_DIALOG_ADD_GENERATOR) :=
  {| m_textCtrlName := v; m_textCtrlCommand := m_textCtrlCommand d;
     add_EndModal := add_EndModal d; add_messages := add_messages d |}.

Definition add_set_Command (v : string) (d : NETLIST_DIALOG_ADD_GENERATOR) :=
  {| m_textCtrlName := m_textCtrlName d; m_textCtrlCommand := v;
     add_EndModal := add_EndModal d; add_messages := add_messages d |}.

Definition add_do_EndModal (code : Z) (d : NETLIST_DIALOG_ADD_GENERATOR) :=
  {| m_textCtrlName := m_textCtrlName d; m_textCtrlCommand := m_textCtrlCommand d;
     add_EndModal := Some code; add_messages := add_messages d |}.

Definition add_MessageBox (msg : string) (d : NETLIST_DIALOG_ADD_GENERATOR) :=
  {| m_textCtrlName := m_textCtrlName d; m_textCtrlCommand := m_textCtrlCommand d;
     add_EndModal := add_EndModal d; add_messages := add_messages d ++ [msg] |}.

Definition OnOKClick (d : NETLIST_DIALOG_ADD_GENERATOR) : NETLIST_DIALOG_ADD_GENERATOR :=
  if bool_decide (m_textCtrlCommand d = "") then
    add_MessageBox "Error. You must provide a command String" d
  else if bool_decide (m_textCtrlName d = "") then
    add_MessageBox "Error. You must provide a Title" d
  else add_do_EndModal wxID_OK d.

(** A string between double quotes. *)
Definition quoted (s : string) : string := String dquote s +:+ String dquote "".

Definition OnBrowseGenerators (FullFileName : string) (d : NETLIST_DIALOG_ADD_GENERATOR)
  : NETLIST_DIALOG_ADD_GENERATOR :=
  if IsEmpty FullFileName then d
  else
    let fn := wxFileName_of FullFileName in
    let ext := GetExt fn in
    let cmdLine :=
      if bool_decide (ext = "xsl") then
        "xsltproc -o " +:+ quoted "%O" +:+ " " +:+ quoted FullFileName +:+ " " +:+ quoted "%I"
      else if bool_decide (ext = "exe") || IsEmpty ext then
        quoted FullFileName +:+ " > " +:+ quoted "%O" +:+ " < " +:+ quoted "%I"
      else if bool_decide (ext = "py") || IsEmpty ext then
        "python " +:+ quoted FullFileName +:+ " " +:+ quoted "%I" +:+ " " +:+ quoted "%O"
      else quoted FullFileName in
    let d := add_set_Command cmdLine d in
    let title := m_textCtrlName d in
    if IsEmpty title then
      add_MessageBox "Do not forget to choose a title for this netlist control page" d
    else d.

Definition add_dispatch (e : add_event) (d : NETLIST_DIALOG_ADD_GENERATOR)
  : NETLIST_DIALOG_ADD_GENERATOR :=
  match e with
  | AddTypeName v => add_set_Name v d
  | AddTypeCommand v => add_set_Command v d
  | AddBrowse f => OnBrowseGenerators f d
  | AddClickOK => OnOKClick d
  | AddClickCancel => add_do_EndModal wxID_CANCEL d
  end.

(** [dlg.ShowModal()]: the events are handled until one ends the dialog;
    a dialog left open is closed as by Cancel. *)
Fixpoint add_ShowModal (evs : list add_event) (d : NETLIST_DIALOG_ADD_GENERATOR)
  : NETLIST_DIALOG_ADD_GENERATOR :=
  match evs with
  | [] =>
      match add_EndModal d with
      | Some _ => d
      | None => add_do_EndModal wxID_CANCEL d
      end
  | e :: rest =>
      match add_EndModal d with
      | Some _ => d
      | None => add_ShowModal rest (add_dispatch e d)
      end
  end.

(** ** NETLIST_DIALOG::OnAddGenerator *)

Fixpoint emit_messages (msgs : list string) : M unit :=
  match msgs with
  | [] => pure tt
  | m :: rest => emit (wxMessageBox m) >> emit_messages rest
  end.

(** The loop that verifies that the title does not exist: [None] when the
    handler returns from inside the loop, the value of [netTypeId] after the
    loop otherwise. *)
Fixpoint OnAddGenerator_loop (iis : list nat) (title : string) (netTypeId : nat)
  : M (option nat) :=
  match iis with
  | [] => pure (Some netTypeId)
  | ii :: rest =>
      let netTypeId := (PANELCUSTOMBASE + ii)%nat in
      let* currPage := panel (ii + PANELCUSTOMBASE) in
      match currPage with
      | None => pure (Some netTypeId)    (* break *)
      | Some p =>
          let* pg := page_at p in
          if bool_decide (GetPageNetFmtName pg = title) then
            emit (wxMessageBox "This plugin already exists. Abort") >>
            pure None                    (* return *)
          else OnAddGenerator_loop rest title netTypeId
      end
  end.

Definition OnAddGenerator (sub : list add_event) : M unit :=
  let dlg := add_ShowModal sub new_NETLIST_DIALOG_ADD_GENERATOR in
  emit_messages (add_messages dlg) >>
  if bool_decide (add_EndModal dlg ≠ Some wxID_OK) then pure tt
  else
    let title := GetGeneratorTitle dlg in
    let* r := OnAddGenerator_loop (seq 0 CUSTOMPANEL_COUNTMAX) title PANELCUSTOMBASE in
    match r with
    | None => pure tt
    | Some netTypeId =>
        let cmd := GetGeneratorTCommandLine dlg in
        let* currPage := AddOneCustomPage title cmd (Z.of_nat netTypeId) in
        set_panel netTypeId (Some currPage) >>
        WriteCurrentNetlistSetup >>
        EndModal NET_PLUGIN_CHANGE
    end.

(** ** The constructor, the event loop and InvokeDialogNetList *)

Definition NETLIST_DIALOG_ctor : M unit :=
  let* s := get in
  modify (set_DefaultNetFmtName (NetListFormatName (frame s))) >>
  modify (set_PanelNetType (replicate (PANELCUSTOMBASE + CUSTOMPANEL_COUNTMAX) None)) >>
  modify (set_asFormatSelected false) >>
  let* p := new_NETLIST_PAGE_DIALOG "Pcbnew" NET_TYPE_PCBNEW in
  set_panel PANELPCBNEW (Some p) >>
  let* p := new_NETLIST_PAGE_DIALOG "OrcadPCB2" NET_TYPE_ORCADPCB2 in
  set_panel PANELORCADPCB2 (Some p) >>
  let* p := new_NETLIST_PAGE_DIALOG "CadStar" NET_TYPE_CADSTAR in
  set_panel PANELCADSTAR (Some p) >>
  InstallPageSpice >>
  InstallCustomPages >>
  let* s := get in
  if m_asFormatSelected s then pure tt
  else
    let* q := panel PANELPCBNEW in
    let* p := deref q in
    update_page p (set_IsCurrentFormat true) >>
    modify (set_selection (Some PANELPCBNEW)) >>
    let* pg := page_at p in
    modify (set_DefaultNetFmtName (GetPageNetFmtName pg)) >>
    OnNetlistTypeSelection.

(** The state in which the constructor starts: the caller's frame, the
    stored configuration and the value left in the static [index]. *)
Definition new_NETLIST_DIALOG (parent : SCH_EDIT_FRAME) (cfg : gmap string string)
    (idx : nat) : state :=
  {| frame := parent; config := cfg; pages := []; selection := None;
     m_DefaultNetFmtName := ""; m_PanelNetType := [];
     m_asFormatSelected := false; m_buttonDelGenerator := true;
     index := idx; EndModal_code := None; effects := [] |}.

(** The user acts on the widgets of the current page. *)
Definition on_current_page (f : NETLIST_PAGE_DIALOG -> NETLIST_PAGE_DIALOG) : M unit :=
  let* cp := GetCurrentPage in
  match cp with
  | Some p => update_page p f
  | None => pure tt
  end.

Definition dispatch (e : event) : M unit :=
  match e with
  | EvChangePage n =>
      let* s := get in
      if decide (n < length (pages s))%nat
      then modify (set_selection (Some n)) >> OnNetlistTypeSelection
      else pure tt
  | EvTypeCommand v =>
      on_current_page (fun pg => set_CommandStringCtrl ((fun _ => v) <$> m_CommandStringCtrl pg) pg)
  | EvTypeTitle v =>
      on_current_page (fun pg => set_TitleStringCtrl ((fun _ => v) <$> m_TitleStringCtrl pg) pg)
  | EvToggleSpiceOption =>
      on_current_page (fun pg => set_SpiceAjustPassiveValues (negb <$> m_SpiceAjustPassiveValues pg) pg)
  | EvSelectDefault =>
      on_current_page (fun pg => set_IsCurrentFormat (negb (m_IsCurrentFormat pg)) pg) >>
      SelectDefaultNetlistType
  | EvGenNetlist answer => GenNetlist answer
  | EvRunSimulator => RunSimulator
  | EvAddGenerator sub => OnAddGenerator sub
  | EvDelGenerator => OnDelGenerator
  | EvClose => EndModal wxID_CANCEL
  end.

(** [dlg.ShowModal()]: the events are dispatched until a handler calls
    [EndModal]; a dialog left open is closed as by Cancel. *)
Fixpoint ShowModal (evs : list event) : M Z :=
  let* s := get in
  match EndModal_code s with
  | Some code => pure code
  | None =>
      match evs with
      | [] => EndModal wxID_CANCEL >> pure wxID_CANCEL
      | e :: rest => dispatch e >> ShowModal rest
      end
  end.

(** [aCaller] is the frame of the state; the result is the value returned. *)
Definition InvokeDialogNetList (evs : list event) : M Z :=
  NETLIST_DIALOG_ctor >>
  let* s := get in
  let curr_default_netformat := NetListFormatName (frame s) in
  let* ret := ShowModal evs in
  let* s := get in
  update_frame (SetNetListFormatName (m_DefaultNetFmtName s)) >>
  (if bool_decide (curr_default_netformat ≠ m_DefaultNetFmtName s)
   then emit SaveProjectSettings
   else pure tt) >>
  pure ret.

End Dialog.

(** ** Notions used to state the properties *)

Section Notions.

Context `{Headers, Host}.

(** The four types with a fixed format; the other types are custom. *)
Definition is_custom_type (id : Z) : Prop :=
  id ≠ NET_TYPE_SPICE ∧ id ≠ NET_TYPE_CADSTAR ∧
  id ≠ NET_TYPE_PCBNEW ∧ id ≠ NET_TYPE_ORCADPCB2.

Fixpoint all_alnum (s : string) : bool :=
  match s with
  | String c s' => is_alnum c && all_alnum s'
  | EmptyString => true
  end.

(** [command] holds, somewhere, a dot, the three or four alphanumeric
    characters [ext], then .xsl or .xslt and a double quote. *)
Definition xsl_script_ext (command ext : string) : Prop :=
  ∃ pre t post,
    command = pre +:+ "." +:+ ext +:+ ".xsl" +:+ t +:+ String dquote post
    ∧ (String.length ext = 3 ∨ String.length ext = 4)%nat
    ∧ all_alnum ext = true
    ∧ (t = "" ∨ t = "t").

(** The pages of the custom formats, in the order of the notebook. *)
Definition custom_pages (s : state) : list NETLIST_PAGE_DIALOG :=
  drop PANELCUSTOMBASE (pages s).

Definition spice_page_ok (s : state) : Prop :=
  match pages s !! PANELSPICE with
  | Some pg => is_Some (m_SpiceAjustPassiveValues pg) ∧ is_Some (m_CommandStringCtrl pg)
  | None => False
  end.

Definition has_custom_widgets (pg : NETLIST_PAGE_DIALOG) : Prop :=
  is_Some (m_CommandStringCtrl pg) ∧ is_Some (m_TitleStringCtrl pg).

(** The dialog as its constructor builds it and as [OnAddGenerator] extends
    it: slot [ii] of [m_PanelNetType] points to page [ii] of the notebook
    and the slots after the last page are NULL; the four fixed pages exist;
    the Spice page and the custom pages have their widgets. *)
Definition wf (s : state) : Prop :=
  m_PanelNetType s =
    ((Some <$> seq 0 (length (pages s))) ++
     replicate (PANELCUSTOMBASE + CUSTOMPANEL_COUNTMAX - length (pages s)) None)%list
  ∧ (PANELCUSTOMBASE ≤ length (pages s) ≤ PANELCUSTOMBASE + CUSTOMPANEL_COUNTMAX)%nat
  ∧ spice_page_ok s
  ∧ Forall has_custom_widgets (custom_pages s).

#[global] Instance spice_page_ok_dec (s : state) : Decision (spice_page_ok s).
Proof. unfold spice_page_ok. destruct (pages s !! PANELSPICE); apply _. Defined.

#[global] Instance has_custom_widgets_dec (pg : NETLIST_PAGE_DIALOG) :
  Decision (has_custom_widgets pg).
Proof. unfold has_custom_widgets. apply _. Defined.

#[global] Instance wf_dec (s : state) : Decision (wf s).
Proof. unfold wf. apply _. Defined.

(** The text of the title and command controls of a custom page. *)
Definition page_setup (pg : NETLIST_PAGE_DIALOG) : string * string :=
  (default "" (m_TitleStringCtrl pg), default "" (m_CommandStringCtrl pg)).

(** The setups that a save keeps: those of the custom pages with a title
    that is not empty, in page order. *)
Definition kept_setups (s : state) : list (string * string) :=
  filter (λ tc, tc.1 ≠ "") (page_setup <$> custom_pages s).

(** The configuration in which the setups [l] are stored under the keys
    numbered from [jj + 1] on. *)
Fixpoint write_setups (jj : nat) (l : list (string * string))
    (cfg : gmap string string) : gmap string string :=
  match l with
  | [] => cfg
  | tc :: l' =>
      write_setups (S jj) l'
        (<[shl_int CUSTOM_NETLIST_COMMAND (jj + 1) := tc.2]>
           (<[shl_int CUSTOM_NETLIST_TITLE (jj + 1) := tc.1]> cfg))
  end.

(** The title and the command stored for slot [ii] (from 0). *)
Definition stored_title (cfg : gmap string string) (ii : nat) : string :=
  default "" (cfg !! shl_int CUSTOM_NETLIST_TITLE (ii + 1)).

Definition stored_command (cfg : gmap string string) (ii : nat) : string :=
  default "" (cfg !! shl_int CUSTOM_NETLIST_COMMAND (ii + 1)).

(** The number of slots of [iis], taken in order, before the first one whose
    stored title is empty. *)
Fixpoint leading_slots (cfg : gmap string string) (iis : list nat) : nat :=
  match iis with
  | [] => 0
  | ii :: rest =>
      if IsEmpty (stored_title cfg ii) then 0%nat else S (leading_slots cfg rest)
  end.

(** A page as its constructor leaves it. *)
Definition plain_page (title : string) (id : Z) (checked : bool) : NETLIST_PAGE_DIALOG :=
  {| m_IdNetType := id; m_IsCurrentFormat := checked;
     m_SpiceAjustPassiveValues := None; m_CommandStringCtrl := None;
     m_TitleStringCtrl := None; m_pageNetFmtName := title |}.

(** The page of a custom format as [AddOneCustomPage] leaves it. *)
Definition custom_page (title command : string) (id : Z) (checked : bool)
  : NETLIST_PAGE_DIALOG :=
  {| m_IdNetType := id; m_IsCurrentFormat := checked;
     m_SpiceAjustPassiveValues := None; m_CommandStringCtrl := Some command;
     m_TitleStringCtrl := Some title; m_pageNetFmtName := title |}.

(** The page installed for slot [ii] of the configuration, when the default
    format is [netfmtName]. *)
Definition stored_page (cfg : gmap string string) (netfmtName : string) (ii : nat)
  : NETLIST_PAGE_DIALOG :=
  custom_page (stored_title cfg ii) (stored_command cfg ii)
    (NET_TYPE_CUSTOM1 + Z.of_nat ii)
    (bool_decide (stored_title cfg ii = netfmtName)).

(** The selection of the notebook after a page is added. *)
Definition selection_after (s : state) (selected : bool) : option nat :=
  if selected then Some (length (pages s))
  else match selection s with Some c => Some c | None => Some 0%nat end.

(** The Spice page as [InstallPageSpice] leaves it. *)
Definition spice_page (fr : SCH_EDIT_FRAME) : NETLIST_PAGE_DIALOG :=
  {| m_IdNetType := NET_TYPE_SPICE;
     m_IsCurrentFormat := bool_decide ("Spice" = NetListFormatName fr);
     m_SpiceAjustPassiveValues := Some (SpiceAjustPassiveValues fr);
     m_CommandStringCtrl := Some (SimulatorCommand fr);
     m_TitleStringCtrl := None; m_pageNetFmtName := "Spice" |}.

(** The pages that the constructor creates, with their check box as the
    page constructor sets it: the four fixed pages, then one page for each
    stored slot before the first empty title. *)
Definition built_pages (fr : SCH_EDIT_FRAME) (cfg : gmap string string)
  : list NETLIST_PAGE_DIALOG :=
  let name := NetListFormatName fr in
  [ plain_page "Pcbnew" NET_TYPE_PCBNEW (bool_decide ("Pcbnew" = name));
    plain_page "OrcadPCB2" NET_TYPE_ORCADPCB2 (bool_decide ("OrcadPCB2" = name));
    plain_page "CadStar" NET_TYPE_CADSTAR (bool_decide ("CadStar" = name));
    spice_page fr ] ++
  (stored_page cfg name <$>
   seq 0 (leading_slots cfg (seq 0 CUSTOMPANEL_COUNTMAX))).

(** The dialog while its constructor runs, for the frame [fr] and the stored
    configuration [cfg]: the pages created so far, whether one of them has
    the default format, and the array of page pointers. *)
Definition under_construction (fr : SCH_EDIT_FRAME) (cfg : gmap string string)
    (pgs : list NETLIST_PAGE_DIALOG) (sel : bool) (pn : list (option nat))
    (s : state) : Prop :=
  pages s = pgs ∧ m_asFormatSelected s = sel ∧ m_PanelNetType s = pn
  ∧ m_DefaultNetFmtName s = NetListFormatName fr ∧ frame s = fr ∧ config s = cfg
  ∧ EndModal_code s = None ∧ effects s = [].

(** The dialog settings that the construction of pages leaves alone. *)
Definition same_settings (s s' : state) : Prop :=
  frame s' = frame s ∧ config s' = config s
  ∧ m_DefaultNetFmtName s' = m_DefaultNetFmtName s
  ∧ m_buttonDelGenerator s' = m_buttonDelGenerator s
  ∧ EndModal_code s' = EndModal_code s ∧ effects s' = effects s.

(** The widgets that [GenNetlist] uses on the current page exist: the Spice
    option on a page of type NET_TYPE_SPICE, the command and the title on a
    page of a custom type. *)
Definition page_ready (pg : NETLIST_PAGE_DIALOG) : Prop :=
  (m_IdNetType pg = NET_TYPE_SPICE → is_Some (m_SpiceAjustPassiveValues pg))
  ∧ (is_custom_type (m_IdNetType pg) → has_custom_widgets pg).

#[global] Instance is_custom_type_dec (id : Z) : Decision (is_custom_type id).
Proof. unfold is_custom_type. apply _. Defined.

#[global] Instance page_ready_dec (pg : NETLIST_PAGE_DIALOG) : Decision (page_ready pg).
Proof. unfold page_ready. apply _. Defined.

(** White space at the ends of a string. *)
Fixpoint all_space (s : string) : bool :=
  match s with
  | String c s' => Ascii.is_space c && all_space s'
  | EmptyString => true
  end.

Definition first_is_space (s : string) : bool :=
  match s with
  | String c _ => Ascii.is_space c
  | EmptyString => false
  end.

Fixpoint last_is_space (s : string) : bool :=
  match s with
  | EmptyString => false
  | String c EmptyString => Ascii.is_space c
  | String _ s' => last_is_space s'
  end.

(** The netlist file of the simulator: the file of the root sheet with the
    extension cir. *)
Definition simulator_netlist : string :=
  GetFullPath (SetExt "cir" (wxFileName_of RootFileName)).

(** The page [pg'] has the widgets that the page [pg] has. *)
Definition keeps_widgets (pg pg' : NETLIST_PAGE_DIALOG) : Prop :=
  (is_Some (m_SpiceAjustPassiveValues pg) → is_Some (m_SpiceAjustPassiveValues pg'))
  ∧ (is_Some (m_CommandStringCtrl pg) → is_Some (m_CommandStringCtrl pg'))
  ∧ (is_Some (m_TitleStringCtrl pg) → is_Some (m_TitleStringCtrl pg')).

(** The pages after [OnDelGenerator] on the page [currPage] at position [p]. *)
Definition pages_after_delete (pgs : list NETLIST_PAGE_DIALOG) (p : nat)
    (currPage : NETLIST_PAGE_DIALOG) : list NETLIST_PAGE_DIALOG :=
  let cleared := set_TitleStringCtrl (Some "") (set_CommandStringCtrl (Some "") currPage) in
  let pgs1 := <[p := cleared]> pgs in
  if m_IsCurrentFormat currPage then
    let pgs2 := <[p := set_IsCurrentFormat false cleared]> pgs1 in
    match pgs2 !! PANELPCBNEW with
    | Some pcbnew => <[PANELPCBNEW := set_IsCurrentFormat true pcbnew]> pgs2
    | None => pgs2
    end
  else pgs1.

(** The file name that the file dialog proposes for the extension [ext]:
    the name of the root sheet with its extension replaced. *)
Definition proposed_name (ext : string) : string :=
  GetFullName (SetExt ext (wxFileName_of RootFileName)).

(** The configuration after a save of the dialog [s]. *)
Definition saved_config (s : state) : gmap string string :=
  write_setups 0
    (kept_setups s ++ replicate (CUSTOMPANEL_COUNTMAX - length (kept_setups s)) ("", ""))
    (config s).

(** The current page of the notebook is one of its pages; a notebook
    without pages has no current page. *)
Definition selection_ok (s : state) : Prop :=
  match selection s with
  | Some p => (p < length (pages s))%nat
  | None => pages s = []
  end.

(** The computation [c] keeps the property [P] of the dialog. *)
Definition preserves {A} (P : state → Prop) (c : M A) : Prop :=
  ∀ s a s', P s → c s = Some (a, s') → P s'.

(** The dialogs that the event loop goes through from [s0]: an event is
    dispatched to a dialog that is still open. *)
Inductive dispatched_from (s0 : state) : state → Prop :=
  | dispatched_start : dispatched_from s0 s0
  | dispatched_step s e s' :
      dispatched_from s0 s → EndModal_code s = None →
      dispatch e s = Some (tt, s') → dispatched_from s0 s'.



(** The names of the pages whose check box is set, in notebook order. *)
Definition checked_names (pgs : list NETLIST_PAGE_DIALOG) : list string :=
  GetPageNetFmtName <$> filter (λ pg, m_IsCurrentFormat pg = true) pgs.

(** The step of the loop of [NetlistUpdateOpt] on one page. *)
Definition note_format (f : SCH_EDIT_FRAME) (pg : NETLIST_PAGE_DIALOG) : SCH_EDIT_FRAME :=
  if m_IsCurrentFormat pg then SetNetListFormatName (GetPageNetFmtName pg) f else f.



(** The dialog is open, or closed with one of the codes that the handlers
    give to [EndModal]. *)
Definition closing_code (s : state) : Prop :=
  match EndModal_code s with
  | None => True
  | Some code => code = wxID_OK ∨ code = NET_PLUGIN_CHANGE ∨ code = wxID_CANCEL
  end.



(** The names of the pages that the constructor creates. *)
Definition page_names (fr : SCH_EDIT_FRAME) (cfg : gmap string string) : list string :=
  GetPageNetFmtName <$> built_pages fr cfg.

(** The directory that the file dialog of [GenNetlist] opens in: that of
    the file of the root sheet, and the directory of the project when the
    file of the root sheet has none. *)
Definition proposed_path : string :=
  if IsEmpty (GetPath (wxFileName_of RootFileName))
  then wxPathOnly ProjectFullName
  else GetPath (wxFileName_of RootFileName).

(** The options that [GenNetlist] gives to [WriteNetListFile] for the page
    [pg]. *)
Definition page_options (pg : NETLIST_PAGE_DIALOG) : Z :=
  if decide (m_IdNetType pg = NET_TYPE_SPICE) then
    match m_SpiceAjustPassiveValues pg with
    | Some true => Z.lor 0 NET_ADJUST_PASSIVE_VALS
    | _ => 0
    end
  else 0.

End Notions.

(** ** A dialog to run the model on *)

Section Samples.

#[local] Existing Instance sample_headers.
#[local] Existing Instance sample_host.

(** The command of a plugin that is a style sheet. *)
Definition sample_command : string :=
  "xsltproc -o " +:+ quoted "%O" +:+ " " +:+
  quoted "/usr/share/kicad/plugins/netlist_form_pads-pcb.asc.xsl" +:+ " " +:+ quoted "%I".

Definition sample_frame : SCH_EDIT_FRAME :=
  {| NetListFormatName := "PADS"; SimulatorCommand := "  ngspice -b ";
     SpiceAjustPassiveValues := true; NetListerCommand := "" |}.

(** Two plugins are stored; slot 4 holds what an older save left behind. *)
Definition sample_config : gmap string string :=
  <["CustomNetlistTitle1" := "PADS"]>
    (<["CustomNetlistCommand1" := sample_command]>
       (<["CustomNetlistTitle2" := "BOM"]>
          (<["CustomNetlistCommand2" := "python bom.py"]>
             (<["CustomNetlistTitle4" := "Stale"]> ∅)))).

(** The dialog after its constructor; the page of the plugin PADS, which is
    the default format, is the current page. *)
Definition sample_dialog : state :=
  match NETLIST_DIALOG_ctor (new_NETLIST_DIALOG sample_frame sample_config 0) with
  | Some (_, s) => s
  | None => new_NETLIST_DIALOG sample_frame sample_config 0
  end.

Definition sample_custom_page : NETLIST_PAGE_DIALOG :=
  custom_page "PADS" sample_command 5 true.

(** The same dialog with the Spice page as the current page. *)
Definition sample_dialog_spice : state :=
  set_selection (Some PANELSPICE) sample_dialog.

Definition sample_spice_page : NETLIST_PAGE_DIALOG :=
  {| m_IdNetType := 4; m_IsCurrentFormat := false;
     m_SpiceAjustPassiveValues := Some true;
     m_CommandStringCtrl := Some "  ngspice -b ";
     m_TitleStringCtrl := None; m_pageNetFmtName := "Spice" |}.

(** The user goes to the Spice page, makes it the default format and
    closes the dialog. *)
Definition sample_events : list event :=
  [EvChangePage PANELSPICE; EvSelectDefault; EvClose].

Definition sample_dialog_closed : state :=
  match ShowModal sample_events sample_dialog with
  | Some (_, s) => s
  | None => sample_dialog
  end.

(** A host in which the file chosen in the add-generator dialog is a style
    sheet. *)
Definition style_sheet_host : Host := {|
  NETLIST_OBJECT_LIST := unit;
  CreateNetlist := fun _ => Some tt;
  WriteNetListFile := fun _ _ _ _ _ => true;
  wxFileName_of := fun name =>
    {| fn_path := "/usr/share/kicad/plugins"; fn_name := name;
       fn_ext := "xsl"; fn_hasExt := true |};
  wxPathOnly := fun _ => "/home/user/project";
  RootFileName := "board";
  ProjectFullName := "/home/user/project/board.pro"
|}.

(** A configuration with CUSTOMPANEL_COUNTMAX plugins, and its dialog. *)
Definition full_config : gmap string string :=
  write_setups 0
    [("P1", "p1.exe"); ("P2", "p2.exe"); ("P3", "p3.exe"); ("P4", "p4.exe");
     ("P5", "p5.exe"); ("P6", "p6.exe"); ("P7", "p7.exe"); ("P8", "p8.exe")] ∅.

Definition full_dialog : state :=
  match NETLIST_DIALOG_ctor (new_NETLIST_DIALOG sample_frame full_config 0) with
  | Some (_, s) => s
  | None => new_NETLIST_DIALOG sample_frame full_config 0
  end.

(** A project whose format is Spice, with a stored plugin that is also
    called Spice. *)
Definition spice_frame : SCH_EDIT_FRAME :=
  {| NetListFormatName := "Spice"; SimulatorCommand := "ngspice";
     SpiceAjustPassiveValues := false; NetListerCommand := "" |}.

Definition spice_plugin_config : gmap string string :=
  <["CustomNetlistTitle1" := "Spice"]>
    (<["CustomNetlistCommand1" := "spice2cir.exe"]> ∅).

End Samples.

(** * Properties *)

Section Properties.

Context `{Headers, Host}.

(** ** Strings *)

Lemma sapp_nil_l (s : string) : "" +:+ s = s.
Proof. reflexivity. Qed.

Lemma sapp_cons (c : ascii) (s t : string) : String c s +:+ t = String c (s +:+ t).
Proof. reflexivity. Qed.

Lemma sapp_nil_r (s : string) : s +:+ "" = s.
Proof. induction s as [|c s IH]; [done|]. by rewrite sapp_cons, IH. Qed.

Lemma sapp_assoc (a b c : string) : (a +:+ b) +:+ c = a +:+ b +:+ c.
Proof. induction a as [|x a IH]; [done|]. by rewrite !sapp_cons, IH. Qed.

(** ** The pattern matcher *)

Lemma match_here_star c p x s k :
  match_here (Item c QStar :: p) (String x s) k =
  if accepts c x then
    match match_here (Item c QStar :: p) s (feed x k) with
    | Some r => Some r
    | None => match_here p (String x s) k
    end
  else match_here p (String x s) k.
Proof. reflexivity. Qed.

Lemma match_here_star_nil c p k :
  match_here (Item c QStar :: p) "" k = match_here p "" k.
Proof. reflexivity. Qed.

Lemma match_here_sound p : ∀ s k r,
  match_here p s k = Some r → ∃ s1 s2, s = s1 +:+ s2 ∧ matches p s1 k r.
Proof.
  induction p as [|[c [| |]| |] p IH]; intros s k r Hm.
  - injection Hm as <-. exists "", s. split; [done|constructor].
  - destruct s as [|x s]; [done|]. simpl in Hm.
    destruct (accepts c x) eqn:Hc; [|done].
    apply IH in Hm as (s1 & s2 & -> & Hm).
    exists (String x s1), s2. split; [done|]. by constructor.
  - assert (Hskip : match_here p s k = Some r →
              ∃ s1 s2, s = s1 +:+ s2 ∧ matches (Item c QOpt :: p) s1 k r).
    { intros (s1 & s2 & -> & Hs)%IH. exists s1, s2. split; [done|]. by apply m_opt_skip. }
    destruct s as [|x s]; simpl in Hm; [by apply Hskip|].
    destruct (accepts c x) eqn:Hc; [|by apply Hskip].
    destruct (match_here p s (feed x k)) as [r'|] eqn:Htake; [|by apply Hskip].
    injection Hm as ->.
    apply IH in Htake as (s1 & s2 & -> & Hs).
    exists (String x s1), s2. split; [done|]. by apply m_opt_take.
  - assert (Hstop : ∀ s k, match_here p s k = Some r →
              ∃ s1 s2, s = s1 +:+ s2 ∧ matches (Item c QStar :: p) s1 k r).
    { intros s' k' (s1 & s2 & -> & Hs)%IH. exists s1, s2. split; [done|]. by apply m_star_stop. }
    revert k Hm. induction s as [|x s IHs]; intros k Hm.
    + rewrite match_here_star_nil in Hm. by apply Hstop.
    + rewrite match_here_star in Hm.
      destruct (accepts c x) eqn:Hc; [|by apply Hstop].
      destruct (match_here (Item c QStar :: p) s (feed x k)) as [r'|] eqn:Hmore;
        [|by apply Hstop].
      injection Hm as ->.
      apply IHs in Hmore as (s1 & s2 & -> & Hs).
      exists (String x s1), s2. split; [done|]. by apply m_star_more.
  - simpl in Hm. apply IH in Hm as (s1 & s2 & -> & Hs).
    exists s1, s2. split; [done|]. by constructor.
  - simpl in Hm. apply IH in Hm as (s1 & s2 & -> & Hs).
    exists s1, s2. split; [done|]. by constructor.
Qed.

Lemma match_here_complete p s1 k r :
  matches p s1 k r → ∀ s2, is_Some (match_here p (s1 +:+ s2) k).
Proof.
  induction 1 as [k|p s k k' _ IH|p s k k' _ IH|c p x s k k' Hc _ IH
                 |c p x s k k' Hc _ IH|c p s k k' _ IH
                 |c p x s k k' Hc _ IH|c p s k k' _ IH]; intros s2.
  - by eexists.
  - apply IH.
  - apply IH.
  - rewrite sapp_cons. simpl. rewrite Hc. apply IH.
  - rewrite sapp_cons. simpl. rewrite Hc.
    destruct (IH s2) as [r' ->]. by eexists.
  - destruct (IH s2) as [r' Hr]. destruct (s +:+ s2) as [|x t]; simpl.
    + by eexists.
    + destruct (accepts c x); [|by eexists].
      destruct (match_here p t (feed x k)); by eexists.
  - rewrite sapp_cons, match_here_star, Hc.
    destruct (IH s2) as [r' ->]. by eexists.
  - destruct (IH s2) as [r' Hr]. destruct (s +:+ s2) as [|x t].
    + rewrite match_here_star_nil. by eexists.
    + rewrite match_here_star. destruct (accepts c x); [|by eexists].
      destruct (match_here (Item c QStar :: p) t (feed x k)); by eexists.
Qed.

Lemma search_sound p : ∀ text r,
  search p text = Some r →
  ∃ a b c, text = a +:+ b +:+ c ∧ matches p b no_caps r.
Proof.
  induction text as [|x text IH]; intros r Hs; simpl in Hs.
  - destruct (match_here p "" no_caps) as [r'|] eqn:Hm; [|done].
    injection Hs as ->. apply match_here_sound in Hm as (s1 & s2 & -> & Hm).
    by exists "", s1, s2.
  - destruct (match_here p (String x text) no_caps) as [r'|] eqn:Hm.
    + injection Hs as ->. apply match_here_sound in Hm as (s1 & s2 & -> & Hm).
      by exists "", s1, s2.
    + apply IH in Hs as (a & b & c & -> & Hb).
      by exists (String x a), b, c.
Qed.

Lemma search_complete p b r : matches p b no_caps r →
  ∀ a c, is_Some (search p (a +:+ b +:+ c)).
Proof.
  intros Hm a c. induction a as [|x a IH].
  - rewrite sapp_nil_l. destruct (match_here_complete _ _ _ _ Hm c) as [r' Hr].
    destruct (b +:+ c); simpl; rewrite Hr; by eexists.
  - rewrite sapp_cons. simpl.
    destruct (match_here p (String x (a +:+ b +:+ c)) no_caps); [by eexists|done].
Qed.

Lemma feed_closed x k : cur k = None → feed x k = k.
Proof. unfold feed. by intros ->. Qed.

Lemma star_any_inv p s k r :
  cur k = None → matches (Item CAny QStar :: p) s k r →
  ∃ a b, s = a +:+ b ∧ matches p b k r.
Proof.
  intros Hk Hm. remember (Item CAny QStar :: p) as P eqn:HP.
  induction Hm as [| | | | | |c p' x s k k' Hc Hm IH|c p' s k k' Hm _]; try discriminate.
  - rewrite feed_closed in IH by done.
    destruct (IH Hk HP) as (a & b & -> & Hb). by exists (String x a), b.
  - injection HP as -> ->. by exists "", s.
Qed.

Lemma star_any_intro p a b k r :
  cur k = None → matches p b k r → matches (Item CAny QStar :: p) (a +:+ b) k r.
Proof.
  intros Hk Hm. induction a as [|x a IH].
  - by apply m_star_stop.
  - rewrite sapp_cons. apply m_star_more; [done|]. by rewrite feed_closed.
Qed.

Ltac inv_item :=
  match goal with
  | H : matches (Item _ QOne :: _) _ _ _ |- _ => inversion H; subst; clear H
  | H : matches (Item _ QOpt :: _) _ _ _ |- _ => inversion H; subst; clear H
  | H : matches (GOpen :: _) _ _ _ |- _ => inversion H; subst; clear H
  | H : matches (GClose :: _) _ _ _ |- _ => inversion H; subst; clear H
  | H : matches [] _ _ _ |- _ => inversion H; subst; clear H
  end.

Lemma extRE_inv b r :
  matches extRE b no_caps r →
  ∃ pre e t post,
    b = pre +:+ "." +:+ e +:+ ".xsl" +:+ t +:+ String dquote post
    ∧ grp r = Some e
    ∧ (String.length e = 3 ∨ String.length e = 4)%nat
    ∧ all_alnum e = true
    ∧ (t = "" ∨ t = "t").
Proof.
  unfold extRE, lit. intros Hm.
  apply star_any_inv in Hm as (pre & b1 & -> & Hm); [|done].
  repeat inv_item.
  all: repeat match goal with H : accepts (CLit _) _ = true |- _ => apply bool_decide_eq_true in H; subst end.
  all: match goal with H : matches [Item CAny QStar] _ _ _ |- _ => apply star_any_inv in H as (post & ? & -> & H); [|done]; inversion H; subst; clear H end.
  all: simpl in *; rewrite sapp_nil_r, !sapp_nil_l.
  - exists pre, (String x0 (String x1 (String x2 (String x3 "")))), "t", post.
    simpl. repeat match goal with Ha : is_alnum _ = true |- _ => rewrite Ha; clear Ha end.
    repeat split; first [reflexivity | by left | by right].
  - exists pre, (String x0 (String x1 (String x2 (String x3 "")))), "", post.
    simpl. repeat match goal with Ha : is_alnum _ = true |- _ => rewrite Ha; clear Ha end.
    repeat split; first [reflexivity | by left | by right].
  - exists pre, (String x0 (String x1 (String x2 ""))), "t", post.
    simpl. repeat match goal with Ha : is_alnum _ = true |- _ => rewrite Ha; clear Ha end.
    repeat split; first [reflexivity | by left | by right].
  - exists pre, (String x0 (String x1 (String x2 ""))), "", post.
    simpl. repeat match goal with Ha : is_alnum _ = true |- _ => rewrite Ha; clear Ha end.
    repeat split; first [reflexivity | by left | by right].
Qed.

Lemma star_any_all s k : cur k = None → matches [Item CAny QStar] s k k.
Proof.
  intros Hk. rewrite <- (sapp_nil_r s). apply star_any_intro; [done|]. constructor.
Qed.

Lemma extRE_intro pre e t post :
  (String.length e = 3 ∨ String.length e = 4)%nat →
  all_alnum e = true → (t = "" ∨ t = "t") →
  ∃ r, matches extRE (pre +:+ "." +:+ e +:+ ".xsl" +:+ t +:+ String dquote post) no_caps r.
Proof.
  intros Hlen Hal Ht. unfold extRE, lit.
  destruct e as [|x0 [|x1 [|x2 [|x3 [|x4 e]]]]]; simpl in Hlen;
    try (exfalso; destruct Hlen; discriminate); simpl in Hal;
    repeat match goal with H : _ && _ = true |- _ => apply andb_true_iff in H as [? H] end.
  all: destruct Ht as [-> | ->]; eexists; (apply star_any_intro; [done|]);
    cbv [String.append].
  all: apply m_one; [done|]; apply m_open; do 3 (apply m_one; [done|]).
  all: first [ apply m_opt_take; [done|]; apply m_close; apply m_one; [done|]
             | apply m_opt_skip; apply m_close; apply m_one; [done|] ].
  all: do 3 (apply m_one; [done|]).
  all: first [ apply m_opt_take; [done|]; apply m_one; [done|]
             | apply m_opt_skip; apply m_one; [done|] ].
  all: by apply star_any_all.
Qed.

Lemma Matches_true re text : Matches re text = true ↔ is_Some (search re text).
Proof. unfold Matches. by rewrite bool_decide_eq_true. Qed.

Lemma Matches_extRE_iff command :
  Matches extRE command = true ↔ ∃ ext, xsl_script_ext command ext.
Proof.
  rewrite Matches_true. split.
  - intros [r Hr]. apply search_sound in Hr as (a & b & c & -> & Hm).
    apply extRE_inv in Hm as (pre & e & t & post & -> & _ & Hlen & Hal & Ht).
    exists e, (a +:+ pre), t, (post +:+ c). split; [|done].
    rewrite !sapp_assoc. reflexivity.
  - intros (e & pre & t & post & -> & Hlen & Hal & Ht).
    destruct (extRE_intro pre e t post Hlen Hal Ht) as [r Hr].
    pose proof (search_complete _ _ _ Hr "" "") as Hs.
    by rewrite sapp_nil_l, sapp_nil_r in Hs.
Qed.

Lemma GetMatch1_extRE command :
  Matches extRE command = true → xsl_script_ext command (GetMatch1 extRE command).
Proof.
  rewrite Matches_true. intros [r Hr]. unfold GetMatch1. rewrite Hr.
  apply search_sound in Hr as (a & b & c & -> & Hm).
  apply extRE_inv in Hm as (pre & e & t & post & -> & -> & Hlen & Hal & Ht).
  exists (a +:+ pre), t, (post +:+ c). split; [|done].
  rewrite !sapp_assoc. reflexivity.
Qed.

(** ** Running computations *)

Lemma bind_Some {A B} (c : M A) (k : A → M B) s a s' :
  c s = Some (a, s') → bind c k s = k a s'.
Proof. unfold bind. by intros ->. Qed.

Lemma bind_inv {A B} (c : M A) (k : A → M B) s b s'' :
  bind c k s = Some (b, s'') → ∃ a s', c s = Some (a, s') ∧ k a s' = Some (b, s'').
Proof. unfold bind. destruct (c s) as [[a s']|]; [|done]. eauto. Qed.

Lemma bind_pure {A B} (a : A) (k : A → M B) s : bind (pure a) k s = k a s.
Proof. reflexivity. Qed.

Lemma bind_deref {A B} (a : A) (k : A → M B) s : bind (deref (Some a)) k s = k a s.
Proof. reflexivity. Qed.

Lemma bind_get {B} (k : state → M B) s : bind get k s = k s s.
Proof. reflexivity. Qed.

Lemma bind_modify {B} (f : state → state) (k : unit → M B) s :
  bind (modify f) k s = k tt (f s).
Proof. reflexivity. Qed.

Lemma bind_bind {A B C} (c : M A) (k : A → M B) (k' : B → M C) s :
  bind (bind c k) k' s = bind c (fun a => bind (k a) k') s.
Proof. unfold bind. by destruct (c s) as [[a s']|]. Qed.

Ltac munfold :=
  unfold update_frame, emit, EndModal, config_Write, config_Read, set_panel,
    GetCurrentPage.

Ltac msimpl :=
  munfold;
  repeat first [ rewrite bind_bind | rewrite bind_pure | rewrite bind_deref
               | rewrite bind_get | rewrite bind_modify ].

Lemma run_panel s (ii : nat) q :
  m_PanelNetType s !! ii = Some q → panel ii s = Some (q, s).
Proof. unfold panel, bind, get, deref. by intros ->. Qed.

Lemma run_page_at s (p : nat) pg :
  pages s !! p = Some pg → page_at p s = Some (pg, s).
Proof. unfold page_at, bind, get, deref. by intros ->. Qed.

Lemma run_update_page s (p : nat) pg f :
  pages s !! p = Some pg →
  update_page p f s = Some (tt, set_pages (<[p := f pg]> (pages s)) s).
Proof. intros Hp. unfold update_page. by rewrite (bind_Some _ _ _ _ _ (run_page_at _ _ _ Hp)). Qed.

(** ** Well-formed dialogs *)

Lemma wf_panel_page s (ii : nat) :
  wf s → (ii < length (pages s))%nat → m_PanelNetType s !! ii = Some (Some ii).
Proof.
  intros (-> & _) Hii. rewrite lookup_app_l by (by rewrite length_fmap, length_seq).
  rewrite list_lookup_fmap, lookup_seq_lt by done. done.
Qed.

Lemma wf_panel_null s (ii : nat) :
  wf s → (length (pages s) ≤ ii < PANELCUSTOMBASE + CUSTOMPANEL_COUNTMAX)%nat →
  m_PanelNetType s !! ii = Some None.
Proof.
  intros (-> & _) Hii. rewrite lookup_app_r by (rewrite length_fmap, length_seq; lia).
  rewrite length_fmap, length_seq. apply lookup_replicate_2. lia.
Qed.

Lemma wf_spice s :
  wf s → ∃ pg chk cmd, pages s !! PANELSPICE = Some pg ∧
    m_SpiceAjustPassiveValues pg = Some chk ∧ m_CommandStringCtrl pg = Some cmd.
Proof.
  intros (_ & _ & Hs & _). unfold spice_page_ok in Hs.
  destruct (pages s !! PANELSPICE) as [pg|]; [|done].
  destruct Hs as [[chk ?] [cmd ?]]. by exists pg, chk, cmd.
Qed.

Lemma wf_custom s (p : nat) pg :
  wf s → (PANELCUSTOMBASE ≤ p)%nat → pages s !! p = Some pg →
  ∃ cmd title, m_CommandStringCtrl pg = Some cmd ∧ m_TitleStringCtrl pg = Some title.
Proof.
  intros (_ & _ & _ & Hc) Hp Hpg.
  rewrite Forall_lookup in Hc. unfold custom_pages in Hc.
  destruct (Hc (p - PANELCUSTOMBASE)%nat pg) as [[cmd ?] [title ?]]; [|by exists cmd, title].
  rewrite lookup_drop. rewrite <- Hpg. f_equal. lia.
Qed.

Lemma set_frame_id s : set_frame (frame s) s = s.
Proof. by destruct s. Qed.

Lemma NetlistUpdateOpt_loop_ok iis : ∀ s,
  wf s → (∀ ii, ii ∈ iis → (ii < PANELCUSTOMBASE + CUSTOMPANEL_COUNTMAX)%nat) →
  ∃ f, NetlistUpdateOpt_loop iis s = Some (tt, set_frame f s).
Proof.
  induction iis as [|ii iis IH]; intros s Hwf Hiis.
  - exists (frame s). by rewrite set_frame_id.
  - assert (Hii : (ii < PANELCUSTOMBASE + CUSTOMPANEL_COUNTMAX)%nat) by (apply Hiis; left).
    assert (Hrest : ∀ f, ∃ f', NetlistUpdateOpt_loop iis (set_frame f s) = Some (tt, set_frame f' s)).
    { intros f. destruct (IH (set_frame f s)) as [f' Hf']; [done| |by exists f'].
      intros j Hj. apply Hiis. by right. }
    simpl. destruct (decide (ii < length (pages s))%nat) as [Hlt|Hge].
    + rewrite (bind_Some _ _ _ _ _ (run_panel _ _ _ (wf_panel_page _ _ Hwf Hlt))).
      destruct (lookup_lt_is_Some_2 _ _ Hlt) as [pg Hpg].
      rewrite (bind_Some _ _ _ _ _ (run_page_at _ _ _ Hpg)).
      destruct (m_IsCurrentFormat pg).
      * apply Hrest.
      * apply (IH s Hwf). intros j Hj. apply Hiis. by right.
    + rewrite (bind_Some _ _ _ _ _ (run_panel _ _ _ (wf_panel_null s ii Hwf ltac:(lia)))).
      exists (frame s). by rewrite set_frame_id.
Qed.

Lemma NetlistUpdateOpt_ok s : wf s → ∃ f, NetlistUpdateOpt s = Some (tt, set_frame f s).
Proof.
  intros Hwf. destruct (wf_spice s Hwf) as (pg & chk & cmd & Hpg & Hchk & Hcmd).
  assert (Hlt : (PANELSPICE < length (pages s))%nat) by (by apply lookup_lt_is_Some_1; eexists).
  unfold NetlistUpdateOpt.
  rewrite (bind_Some _ _ _ _ _ (run_panel _ _ _ (wf_panel_page _ _ Hwf Hlt))).
  msimpl. rewrite (bind_Some _ _ _ _ _ (run_page_at _ _ _ Hpg)).
  rewrite Hchk, Hcmd. msimpl.
  match goal with |- ∃ f, NetlistUpdateOpt_loop _ ?s' = _ =>
    destruct (NetlistUpdateOpt_loop_ok (seq 0 (PANELCUSTOMBASE + CUSTOMPANEL_COUNTMAX)) s') as [f Hf]
  end; [done| |by exists f].
  intros ii Hii%elem_of_seq. lia.
Qed.

(** ** Configuration keys *)

Lemma shl_int_inj msg (a b : nat) : shl_int msg a = shl_int msg b → a = b.
Proof. unfold shl_int. intros Heq%(inj (String.app msg)). by apply (inj pretty). Qed.

Lemma title_ne_command (a b : nat) :
  shl_int CUSTOM_NETLIST_TITLE a ≠ shl_int CUSTOM_NETLIST_COMMAND b.
Proof. unfold shl_int, CUSTOM_NETLIST_TITLE, CUSTOM_NETLIST_COMMAND. cbv [String.append]. discriminate. Qed.

Lemma write_setups_app jj l1 l2 cfg :
  write_setups jj (l1 ++ l2) cfg = write_setups (jj + length l1) l2 (write_setups jj l1 cfg).
Proof.
  revert jj cfg. induction l1 as [|tc l1 IH]; intros jj cfg; simpl.
  - by rewrite Nat.add_0_r.
  - rewrite IH. f_equal. lia.
Qed.

Lemma write_setups_title jj l cfg (j : nat) :
  write_setups jj l cfg !! shl_int CUSTOM_NETLIST_TITLE (j + 1) =
  if decide (jj ≤ j < jj + length l)%nat
  then fst <$> l !! (j - jj)%nat
  else cfg !! shl_int CUSTOM_NETLIST_TITLE (j + 1).
Proof.
  revert jj cfg. induction l as [|tc l IH]; intros jj cfg; simpl.
  - case_decide; [lia|done].
  - rewrite IH. destruct (decide (j = jj)) as [->|Hne].
    + rewrite decide_False by lia. rewrite decide_True by lia.
      rewrite Nat.sub_diag. simpl.
      rewrite lookup_insert_ne by (intros Heq; symmetry in Heq; by apply title_ne_command in Heq).
      by rewrite lookup_insert_eq.
    + rewrite lookup_insert_ne by (intros Heq; symmetry in Heq; by apply title_ne_command in Heq).
      rewrite lookup_insert_ne by (intros Heq%shl_int_inj; lia).
      repeat case_decide; try lia; [|done].
      replace (j - jj)%nat with (S (j - S jj)) by lia. done.
Qed.

Lemma write_setups_command jj l cfg (j : nat) :
  write_setups jj l cfg !! shl_int CUSTOM_NETLIST_COMMAND (j + 1) =
  if decide (jj ≤ j < jj + length l)%nat
  then snd <$> l !! (j - jj)%nat
  else cfg !! shl_int CUSTOM_NETLIST_COMMAND (j + 1).
Proof.
  revert jj cfg. induction l as [|tc l IH]; intros jj cfg; simpl.
  - case_decide; [lia|done].
  - rewrite IH. destruct (decide (j = jj)) as [->|Hne].
    + rewrite decide_False by lia. rewrite decide_True by lia.
      rewrite Nat.sub_diag. simpl. by rewrite lookup_insert_eq.
    + rewrite lookup_insert_ne by (intros Heq%shl_int_inj; lia).
      rewrite lookup_insert_ne by (by intros Heq%title_ne_command).
      repeat case_decide; try lia; [|done].
      replace (j - jj)%nat with (S (j - S jj)) by lia. done.
Qed.

Lemma write_setups_other jj l cfg key :
  (∀ j, (jj ≤ j < jj + length l)%nat →
        key ≠ shl_int CUSTOM_NETLIST_TITLE (j + 1) ∧
        key ≠ shl_int CUSTOM_NETLIST_COMMAND (j + 1)) →
  write_setups jj l cfg !! key = cfg !! key.
Proof.
  revert jj cfg. induction l as [|tc l IH]; intros jj cfg Hkey; simpl; [done|].
  rewrite IH by (intros j Hj; apply Hkey; simpl; lia).
  destruct (Hkey jj) as [Ht Hc]; [simpl; lia|].
  by rewrite !lookup_insert_ne.
Qed.

(** ** WriteCurrentNetlistSetup *)

Lemma set_config_id s : set_config (config s) s = s.
Proof. by destruct s. Qed.

Lemma IsEmpty_true s : IsEmpty s = true ↔ s = "".
Proof. unfold IsEmpty. apply bool_decide_eq_true. Qed.

Lemma IsEmpty_false s : IsEmpty s = false ↔ s ≠ "".
Proof. unfold IsEmpty. apply bool_decide_eq_false. Qed.

Lemma WriteCurrentNetlistSetup_pages_ok n : ∀ a jj s,
  wf s → (a + n ≤ CUSTOMPANEL_COUNTMAX)%nat →
  let part := filter (λ tc, tc.1 ≠ "")
                (page_setup <$> take n (drop (PANELCUSTOMBASE + a) (pages s))) in
  WriteCurrentNetlistSetup_pages (seq a n) jj s =
    Some ((jj + length part)%nat, set_config (write_setups jj part (config s)) s).
Proof.
  induction n as [|n IH]; intros a jj s Hwf Han part.
  - subst part. simpl. by rewrite Nat.add_0_r, set_config_id.
  - simpl. destruct (decide (a + PANELCUSTOMBASE < length (pages s))%nat) as [Hlt|Hge].
    + rewrite (bind_Some _ _ _ _ _ (run_panel _ _ _ (wf_panel_page _ _ Hwf Hlt))).
      destruct (lookup_lt_is_Some_2 _ _ Hlt) as [pg Hpg].
      rewrite (bind_Some _ _ _ _ _ (run_page_at _ _ _ Hpg)).
      destruct (wf_custom s (a + PANELCUSTOMBASE) pg Hwf ltac:(unfold PANELCUSTOMBASE; lia) Hpg)
        as (cmd & title & Hcmd & Htitle).
      assert (Hpart : part = filter (λ tc, tc.1 ≠ "")
                ((title, cmd) :: (page_setup <$> take n (drop (PANELCUSTOMBASE + S a) (pages s))))).
      { subst part. replace (PANELCUSTOMBASE + a)%nat with (a + PANELCUSTOMBASE)%nat by lia.
        rewrite (drop_S _ _ _ Hpg). simpl. unfold page_setup at 1. rewrite Hcmd, Htitle.
        repeat f_equal. unfold PANELCUSTOMBASE. lia. }
      rewrite Htitle, Hcmd. msimpl.
      destruct (IsEmpty title) eqn:He.
      * apply IsEmpty_true in He as ->.
        rewrite IH by (done || lia). rewrite Hpart.
        by rewrite filter_cons_False by (simpl; auto).
      * apply IsEmpty_false in He. msimpl.
        rewrite IH by (done || lia). rewrite Hpart.
        rewrite filter_cons_True by done. simpl.
        f_equal. f_equal. lia.
    + rewrite (bind_Some _ _ _ _ _ (run_panel _ _ _
                 (wf_panel_null s (a + PANELCUSTOMBASE) Hwf ltac:(unfold PANELCUSTOMBASE, CUSTOMPANEL_COUNTMAX in *; lia)))).
      subst part. rewrite drop_ge by lia. simpl.
      by rewrite Nat.add_0_r, set_config_id.
Qed.

Lemma WriteCurrentNetlistSetup_void_ok n : ∀ jj s,
  WriteCurrentNetlistSetup_void (seq jj n) s =
    Some (tt, set_config (write_setups jj (replicate n ("", "")) (config s)) s).
Proof.
  induction n as [|n IH]; intros jj s; simpl.
  - by rewrite set_config_id.
  - msimpl. by rewrite IH.
Qed.

Lemma kept_setups_length s :
  wf s → (length (kept_setups s) ≤ CUSTOMPANEL_COUNTMAX)%nat.
Proof.
  intros (_ & Hlen & _). unfold kept_setups, custom_pages.
  etrans; [apply length_filter|]. rewrite length_fmap, length_drop.
  unfold PANELCUSTOMBASE, CUSTOMPANEL_COUNTMAX in *. lia.
Qed.

(** What a save leaves in the eight slots. *)
Lemma WriteCurrentNetlistSetup_ok s :
  wf s →
  ∃ f, WriteCurrentNetlistSetup s =
    Some (tt, set_config
                (write_setups 0
                   (kept_setups s ++
                    replicate (CUSTOMPANEL_COUNTMAX - length (kept_setups s)) ("", ""))
                   (config s))
                (set_frame f s)).
Proof.
  intros Hwf. destruct (NetlistUpdateOpt_ok s Hwf) as [f Hf]. exists f.
  unfold WriteCurrentNetlistSetup.
  rewrite (bind_Some _ _ _ _ _ Hf).
  assert (Hwf' : wf (set_frame f s)) by done.
  pose proof (WriteCurrentNetlistSetup_pages_ok CUSTOMPANEL_COUNTMAX 0 0 _ Hwf' ltac:(lia)) as Hp.
  cbv zeta in Hp. rewrite Nat.add_0_r, Nat.add_0_l in Hp.
  change (pages (set_frame f s)) with (pages s) in Hp.
  change (config (set_frame f s)) with (config s) in Hp.
  rewrite take_ge in Hp
    by (destruct Hwf as (_ & Hlen & _); rewrite length_drop;
        unfold PANELCUSTOMBASE, CUSTOMPANEL_COUNTMAX in *; lia).
  fold (custom_pages s) in Hp. fold (kept_setups s) in Hp.
  rewrite (bind_Some _ _ _ _ _ Hp).
  rewrite WriteCurrentNetlistSetup_void_ok. simpl.
  by rewrite write_setups_app.
Qed.

(** ** The construction of pages *)

Lemma run_update_last s l pg f :
  pages s = (l ++ [pg])%list →
  update_page (length l) f s = Some (tt, set_pages (l ++ [f pg]) s).
Proof.
  intros Hp. rewrite (run_update_page s _ pg) by (by rewrite Hp, list_lookup_middle).
  rewrite Hp. do 3 f_equal.
  rewrite insert_app_r_alt by done. by rewrite Nat.sub_diag.
Qed.

Ltac update_last :=
  match goal with
  | |- bind (update_page (length ?l) ?f) _ ?s' = _ =>
      rewrite (bind_Some _ _ _ _ _ (run_update_last s' l _ f eq_refl))
  | |- update_page (length ?l) ?f ?s' = _ =>
      rewrite (run_update_last s' l _ f eq_refl)
  end.

Lemma run_new_page title id s :
  let selected := bool_decide (title = m_DefaultNetFmtName s) in
  new_NETLIST_PAGE_DIALOG title id s =
    Some (length (pages s),
          set_asFormatSelected (selected || m_asFormatSelected s)
            (set_selection (selection_after s selected)
               (set_pages (pages s ++ [plain_page title id selected]) s))).
Proof.
  intros selected. unfold new_NETLIST_PAGE_DIALOG, AddPage. msimpl.
  update_last.
  fold selected. destruct selected; msimpl; reflexivity.
Qed.

Lemma run_AddOneCustomPage title command id s :
  let selected := bool_decide (title = m_DefaultNetFmtName s) in
  AddOneCustomPage title command id s =
    Some (length (pages s),
          set_asFormatSelected (selected || m_asFormatSelected s)
            (set_selection (selection_after s selected)
               (set_pages (pages s ++ [custom_page title command id selected]) s))).
Proof.
  intros selected. unfold AddOneCustomPage.
  rewrite (bind_Some _ _ _ _ _ (run_new_page title id s)). fold selected.
  update_last.
  update_last.
  reflexivity.
Qed.

Lemma list_lookup_insert_cases {A} (l : list A) (i j : nat) x :
  <[i := x]> l !! j = if decide (i = j ∧ (j < length l)%nat) then Some x else l !! j.
Proof.
  case_decide as Hc.
  - destruct Hc as [-> Hlt]. by apply list_lookup_insert_eq.
  - destruct (decide (i = j)) as [->|Hne].
    + by rewrite list_insert_ge by lia.
    + by apply list_lookup_insert_ne.
Qed.

Lemma run_UserNetlistTypeName first s :
  UserNetlistTypeName first s =
    let i := if first then 0%nat else S (index s) in
    Some (stored_title (config s) i, set_index i s).
Proof. reflexivity. Qed.

Lemma InstallCustomPages_loop_ok n : ∀ a s,
  (a = 0 ∨ index s + 1 = a)%nat →
  ∃ s', InstallCustomPages_loop (seq a n) s = Some (tt, s') ∧
    let k := leading_slots (config s) (seq a n) in
    let new := stored_page (config s) (m_DefaultNetFmtName s) <$> seq a k in
    pages s' = (pages s ++ new)%list ∧
    length (m_PanelNetType s') = length (m_PanelNetType s) ∧
    (∀ ii : nat, m_PanelNetType s' !! ii =
       if decide ((PANELCUSTOMBASE + a ≤ ii < PANELCUSTOMBASE + a + k)%nat
                  ∧ (ii < length (m_PanelNetType s))%nat)
       then Some (Some (length (pages s) + (ii - PANELCUSTOMBASE - a))%nat)
       else m_PanelNetType s !! ii) ∧
    m_asFormatSelected s' = existsb m_IsCurrentFormat new || m_asFormatSelected s ∧
    same_settings s s'.
Proof.
  induction n as [|n IH]; intros a s Hidx.
  - exists s. split; [done|]. simpl. rewrite app_nil_r.
    repeat split; try done. intros ii. case_decide; [lia|done].
  - simpl. rewrite (bind_Some _ _ _ _ _ (run_UserNetlistTypeName _ s)).
    assert (Hi : (if bool_decide (a = 0%nat) then 0%nat else S (index s)) = a).
    { case_bool_decide; lia. }
    cbv zeta. rewrite Hi. clear Hi.
    destruct (IsEmpty (stored_title (config s) a)) eqn:He.
    + eexists. split; [reflexivity|]. simpl. rewrite app_nil_r.
      repeat split; try done. intros ii. case_decide; [lia|done].
    + msimpl. rewrite (bind_Some _ _ _ _ _ (run_AddOneCustomPage _ _ _ _)). msimpl.
      match goal with |- ∃ s', InstallCustomPages_loop _ ?s1 = _ ∧ _ =>
        destruct (IH (S a) s1) as (s' & Hrun & Hpages & Hlen & Hpanel & Hsel & Hsame)
      end; [right; simpl; lia|].
      exists s'. split; [done|]. clear Hrun IH.
      cbn [pages config m_DefaultNetFmtName m_PanelNetType m_asFormatSelected
           set_index set_pages set_selection set_asFormatSelected set_PanelNetType] in *.
      split; [|split; [|split; [|split]]].
      * rewrite Hpages. rewrite <- app_assoc. done.
      * by rewrite Hlen, length_insert.
      * intros ii. rewrite Hpanel, length_insert, length_app. simpl.
        rewrite list_lookup_insert_cases.
        repeat case_decide; try lia; try done.
        all: do 2 f_equal; unfold PANELCUSTOMBASE in *; lia.
      * rewrite Hsel. simpl. unfold stored_page at 2, custom_page. simpl.
        by rewrite orb_assoc, (orb_comm (existsb _ _)).
      * done.
Qed.

Ltac page_at_with Hp :=
  match goal with
  | |- context [bind (page_at ?p) _ ?s] =>
      rewrite (bind_Some _ _ _ _ _ (run_page_at s p _ Hp))
  end.

(** ** The constructor *)

Lemma new_page_spec title id s :
  ∃ s', new_NETLIST_PAGE_DIALOG title id s = Some (length (pages s), s') ∧
    pages s' = (pages s ++
      [plain_page title id (bool_decide (title = m_DefaultNetFmtName s))])%list ∧
    m_asFormatSelected s' =
      bool_decide (title = m_DefaultNetFmtName s) || m_asFormatSelected s ∧
    is_Some (selection s') ∧
    m_PanelNetType s' = m_PanelNetType s ∧ index s' = index s ∧
    same_settings s s'.
Proof.
  eexists. split; [apply run_new_page|]. cbn.
  repeat split; try done.
  unfold selection_after. destruct (bool_decide _); [by eexists|].
  destruct (selection s); by eexists.
Qed.

Lemma same_settings_trans s1 s2 s3 :
  same_settings s1 s2 → same_settings s2 s3 → same_settings s1 s3.
Proof.
  unfold same_settings. intros (?&?&?&?&?&?) (?&?&?&?&?&?).
  repeat split; congruence.
Qed.

Lemma InstallPageSpice_spec s :
  ∃ s', InstallPageSpice s = Some (tt, s') ∧
    pages s' = (pages s ++
      [ {| m_IdNetType := NET_TYPE_SPICE;
           m_IsCurrentFormat := bool_decide ("Spice" = m_DefaultNetFmtName s);
           m_SpiceAjustPassiveValues := Some (SpiceAjustPassiveValues (frame s));
           m_CommandStringCtrl := Some (SimulatorCommand (frame s));
           m_TitleStringCtrl := None; m_pageNetFmtName := "Spice" |} ])%list ∧
    m_asFormatSelected s' =
      bool_decide ("Spice" = m_DefaultNetFmtName s) || m_asFormatSelected s ∧
    is_Some (selection s') ∧
    m_PanelNetType s' = <[PANELSPICE := Some (length (pages s))]> (m_PanelNetType s) ∧
    index s' = index s ∧
    same_settings s s'.
Proof.
  eexists. split.
  { unfold InstallPageSpice.
    rewrite (bind_Some _ _ _ _ _ (run_new_page _ _ _)). msimpl.
    update_last. update_last. reflexivity. }
  cbn.
  repeat split; try done.
  unfold selection_after. destruct (bool_decide _); [by eexists|].
  destruct (selection s); by eexists.
Qed.

Lemma uc_new_page fr cfg pgs sel pn s title id :
  under_construction fr cfg pgs sel pn s →
  ∃ s', new_NETLIST_PAGE_DIALOG title id s = Some (length pgs, s') ∧
    under_construction fr cfg
      (pgs ++ [plain_page title id (bool_decide (title = NetListFormatName fr))])
      (bool_decide (title = NetListFormatName fr) || sel) pn s' ∧
    index s' = index s.
Proof.
  intros (<- & <- & <- & Hd & <- & <- & He & Hx).
  destruct (new_page_spec title id s) as (s' & Hr & Hp & Hf & _ & Hn & Hi & Hs).
  exists s'. split; [done|]. rewrite Hd in Hp, Hf.
  destruct Hs as (? & ? & ? & _ & ? & ?).
  repeat split; congruence.
Qed.

Lemma uc_set_panel fr cfg pgs sel pn pn' s :
  under_construction fr cfg pgs sel pn s →
  under_construction fr cfg pgs sel pn' (set_PanelNetType pn' s).
Proof. intros (? & ? & ? & ? & ? & ? & ? & ?). by repeat split. Qed.

Lemma uc_InstallPageSpice fr cfg pgs sel pn s :
  under_construction fr cfg pgs sel pn s →
  ∃ s', InstallPageSpice s = Some (tt, s') ∧
    under_construction fr cfg (pgs ++ [spice_page fr])
      (bool_decide ("Spice" = NetListFormatName fr) || sel)
      (<[PANELSPICE := Some (length pgs)]> pn) s' ∧
    index s' = index s.
Proof.
  intros (<- & <- & <- & Hd & <- & <- & He & Hx).
  destruct (InstallPageSpice_spec s) as (s' & Hr & Hp & Hf & _ & Hn & Hi & Hs).
  exists s'. split; [done|]. rewrite Hd in Hp, Hf.
  destruct Hs as (? & ? & ? & _ & ? & ?). unfold spice_page.
  repeat split; congruence.
Qed.

Lemma leading_slots_le cfg iis : (leading_slots cfg iis ≤ length iis)%nat.
Proof.
  induction iis as [|ii iis IH]; simpl; [done|].
  destruct (IsEmpty _); lia.
Qed.

Lemma uc_InstallCustomPages fr cfg pgs sel pn s :
  under_construction fr cfg pgs sel pn s →
  let new := stored_page cfg (NetListFormatName fr) <$>
             seq 0 (leading_slots cfg (seq 0 CUSTOMPANEL_COUNTMAX)) in
  ∃ s' pn', InstallCustomPages s = Some (tt, s') ∧
    under_construction fr cfg (pgs ++ new) (existsb m_IsCurrentFormat new || sel) pn' s' ∧
    length pn' = length pn ∧
    ∀ ii : nat, pn' !! ii =
       if decide ((PANELCUSTOMBASE ≤ ii < PANELCUSTOMBASE + length new)%nat
                  ∧ (ii < length pn)%nat)
       then Some (Some (length pgs + (ii - PANELCUSTOMBASE))%nat)
       else pn !! ii.
Proof.
  intros (<- & <- & <- & Hd & <- & <- & He & Hx) new.
  destruct (InstallCustomPages_loop_ok CUSTOMPANEL_COUNTMAX 0 s ltac:(by left))
    as (s' & Hr & Hp & Hlen & Hpn & Hf & Hs).
  cbv zeta in Hp, Hpn, Hf. rewrite Hd in Hp, Hf. fold new in Hp, Hf.
  exists s', (m_PanelNetType s'). split; [done|].
  destruct Hs as (? & ? & ? & _ & ? & ?).
  split; [repeat split; congruence|]. split; [done|].
  intros ii. rewrite Hpn. subst new. rewrite length_fmap, length_seq.
  rewrite !Nat.add_0_r, Nat.sub_0_r. done.
Qed.

Lemma uc_PanelNetType fr cfg pgs sel pn s :
  under_construction fr cfg pgs sel pn s → m_PanelNetType s = pn.
Proof. by intros (_ & _ & ? & _). Qed.

Ltac uc_after_set_panel Hs :=
  rewrite (uc_PanelNetType _ _ _ _ _ _ Hs);
  match goal with
  | |- context [set_PanelNetType ?X _] => apply (uc_set_panel _ _ _ _ _ X) in Hs
  end.

Lemma NETLIST_DIALOG_ctor_ok fr cfg idx :
  ∃ s', NETLIST_DIALOG_ctor (new_NETLIST_DIALOG fr cfg idx) = Some (tt, s') ∧
    let built := built_pages fr cfg in
    let selected := existsb m_IsCurrentFormat built in
    pages s' = (if selected then built
                else <[PANELPCBNEW := set_IsCurrentFormat true
                         (plain_page "Pcbnew" NET_TYPE_PCBNEW false)]> built) ∧
    m_DefaultNetFmtName s' = (if selected then NetListFormatName fr else "Pcbnew") ∧
    frame s' = fr ∧ config s' = cfg ∧ EndModal_code s' = None ∧ effects s' = [] ∧
    m_PanelNetType s' =
      ((Some <$> seq 0 (length (pages s'))) ++
       replicate (PANELCUSTOMBASE + CUSTOMPANEL_COUNTMAX - length (pages s')) None)%list.
Proof.
  unfold NETLIST_DIALOG_ctor. msimpl.
  match goal with |- context [bind (new_NETLIST_PAGE_DIALOG _ _) _ ?s] =>
    assert (Hs0 : under_construction fr cfg [] false
              (replicate (PANELCUSTOMBASE + CUSTOMPANEL_COUNTMAX) None) s)
      by (by repeat split);
    destruct (uc_new_page _ _ _ _ _ _ "Pcbnew" NET_TYPE_PCBNEW Hs0)
      as (s1 & Hr & Hs1 & _); clear Hs0
  end.
  rewrite (bind_Some _ _ _ _ _ Hr). clear Hr. msimpl. uc_after_set_panel Hs1.
  match goal with |- context [bind (new_NETLIST_PAGE_DIALOG ?t ?id) _ _] =>
    destruct (uc_new_page _ _ _ _ _ _ t id Hs1) as (s2 & Hr & Hs2 & _); clear Hs1 end.
  rewrite (bind_Some _ _ _ _ _ Hr). clear Hr. msimpl. uc_after_set_panel Hs2.
  match goal with |- context [bind (new_NETLIST_PAGE_DIALOG ?t ?id) _ _] =>
    destruct (uc_new_page _ _ _ _ _ _ t id Hs2) as (s3 & Hr & Hs3 & _); clear Hs2 end.
  rewrite (bind_Some _ _ _ _ _ Hr). clear Hr. msimpl. uc_after_set_panel Hs3.
  destruct (uc_InstallPageSpice _ _ _ _ _ _ Hs3) as (s4 & Hr & Hs4 & _); clear Hs3.
  rewrite (bind_Some _ _ _ _ _ Hr). clear Hr.
  destruct (uc_InstallCustomPages _ _ _ _ _ _ Hs4) as (s5 & pn5 & Hr & Hs5 & Hlen & Hpn); clear Hs4.
  rewrite (bind_Some _ _ _ _ _ Hr). clear Hr. msimpl.
  unfold built_pages.
  pose proof (leading_slots_le cfg (seq 0 CUSTOMPANEL_COUNTMAX)) as Hk.
  rewrite length_seq in Hk.
  set (k := leading_slots cfg (seq 0 CUSTOMPANEL_COUNTMAX)) in *. clearbody k.
  cbv zeta.
  set (new := stored_page cfg (NetListFormatName fr) <$> seq 0 k) in *.
  assert (Hnew : length new = k) by (subst new; by rewrite length_fmap, length_seq).
  clearbody new.
  simpl in Hs5, Hlen, Hpn.
  assert (Hpanel : pn5 = ((Some <$> seq 0 (4 + k)) ++ replicate (8 - k) None)%list).
  { clear Hs5. apply list_eq. intros ii. rewrite Hpn, Hnew.
    unfold PANELCUSTOMBASE, CUSTOMPANEL_COUNTMAX in *.
    destruct (decide (ii < 4 + k)%nat) as [Hlt|Hge].
    - rewrite lookup_app_l by (rewrite length_fmap, length_seq; lia).
      rewrite list_lookup_fmap, lookup_seq_lt by lia. simpl.
      case_decide.
      + do 2 f_equal. lia.
      + destruct ii as [|[|[|[|ii]]]]; try done. lia.
    - rewrite lookup_app_r by (rewrite length_fmap, length_seq; lia).
      rewrite length_fmap, length_seq. rewrite decide_False by lia.
      destruct ii as [|[|[|[|ii]]]]; try lia.
      change (S (S (S (S ii)))) with (4 + ii)%nat.
      change ([Some 0%nat; Some 1%nat; Some 2%nat; Some 3%nat; None; None; None;
               None; None; None; None; None] !! (4 + ii)%nat)
        with (replicate 8 (@None nat) !! ii).
      destruct (decide (ii < 8)%nat).
      + rewrite !lookup_replicate_2 by lia. done.
      + rewrite !lookup_ge_None_2 by (rewrite length_replicate; lia). done. }
  subst pn5. clear Hpn Hlen.
  destruct Hs5 as (Hp & Hf & Hn & Hd & Hfr & Hc & He & Hx).
  assert (Hsel : m_asFormatSelected s5 = existsb m_IsCurrentFormat (pages s5)).
  { rewrite Hf, Hp. simpl.
    destruct (existsb _ new), (bool_decide ("Pcbnew" = _)), (bool_decide ("OrcadPCB2" = _)),
      (bool_decide ("CadStar" = _)), (bool_decide ("Spice" = _)); done. }
  change ([plain_page "Pcbnew" NET_TYPE_PCBNEW (bool_decide ("Pcbnew" = NetListFormatName fr));
           plain_page "OrcadPCB2" NET_TYPE_ORCADPCB2 (bool_decide ("OrcadPCB2" = NetListFormatName fr));
           plain_page "CadStar" NET_TYPE_CADSTAR (bool_decide ("CadStar" = NetListFormatName fr));
           spice_page fr] ++ new)%list with
    (plain_page "Pcbnew" NET_TYPE_PCBNEW (bool_decide ("Pcbnew" = NetListFormatName fr))
     :: plain_page "OrcadPCB2" NET_TYPE_ORCADPCB2 (bool_decide ("OrcadPCB2" = NetListFormatName fr))
     :: plain_page "CadStar" NET_TYPE_CADSTAR (bool_decide ("CadStar" = NetListFormatName fr))
     :: spice_page fr :: new).
  rewrite <- Hp, <- Hsel.
  destruct (m_asFormatSelected s5) eqn:Hsel5.
  - exists s5. rewrite Hp at 3 4. simpl. rewrite Hnew.
    repeat split; done.
  - assert (Hp0 : pages s5 !! PANELPCBNEW =
                    Some (plain_page "Pcbnew" NET_TYPE_PCBNEW false)).
    { symmetry in Hsel. rewrite Hp in Hsel |- *. simpl in Hsel |- *.
      apply orb_false_elim in Hsel as [-> _]. done. }
    rewrite (bind_Some _ _ _ _ _ (run_panel s5 PANELPCBNEW (Some PANELPCBNEW) ltac:(by rewrite Hn))).
    msimpl. rewrite (bind_Some _ _ _ _ _ (run_update_page _ _ _ _ Hp0)). msimpl.
    set (pcbnew := set_IsCurrentFormat true (plain_page "Pcbnew" NET_TYPE_PCBNEW false)).
    assert (Hp0' : <[PANELPCBNEW := pcbnew]> (pages s5) !! PANELPCBNEW = Some pcbnew)
      by (by rewrite Hp).
    page_at_with Hp0'. msimpl.
    unfold OnNetlistTypeSelection. msimpl.
    cbn [selection set_DefaultNetFmtName set_selection set_pages].
    page_at_with Hp0'. msimpl.
    eexists. split; [reflexivity|]. cbn.
    repeat split; try done.
    rewrite length_insert, Hn, Hp. simpl. by rewrite Hnew.
Qed.

Lemma NETLIST_DIALOG_ctor_wf fr cfg idx s' :
  NETLIST_DIALOG_ctor (new_NETLIST_DIALOG fr cfg idx) = Some (tt, s') → wf s'.
Proof.
  destruct (NETLIST_DIALOG_ctor_ok fr cfg idx)
    as (s & -> & Hp & _ & _ & _ & _ & _ & Hn).
  intros [= <-]. cbv zeta in Hp.
  pose proof (leading_slots_le cfg (seq 0 CUSTOMPANEL_COUNTMAX)) as Hk.
  rewrite length_seq in Hk.
  assert (Hb : ∃ p0, pages s = p0 :: plain_page "OrcadPCB2" NET_TYPE_ORCADPCB2
                 (bool_decide ("OrcadPCB2" = NetListFormatName fr))
               :: plain_page "CadStar" NET_TYPE_CADSTAR
                 (bool_decide ("CadStar" = NetListFormatName fr))
               :: spice_page fr
               :: (stored_page cfg (NetListFormatName fr) <$>
                   seq 0 (leading_slots cfg (seq 0 CUSTOMPANEL_COUNTMAX)))).
  { rewrite Hp. destruct (existsb _ _); by eexists. }
  destruct Hb as [p0 Hb]. clear Hp.
  set (k := leading_slots cfg (seq 0 CUSTOMPANEL_COUNTMAX)) in *. clearbody k.
  split; [done|]. rewrite Hb. unfold spice_page_ok, custom_pages. rewrite Hb.
  split; [|split].
  - simpl. rewrite length_fmap, length_seq.
    unfold PANELCUSTOMBASE, CUSTOMPANEL_COUNTMAX in *. lia.
  - simpl. split; by eexists.
  - simpl. apply Forall_fmap, Forall_forall. intros ii _. split; by eexists.
Qed.

(** ** SelectDefaultNetlistType *)

Lemma SelectDefaultNetlistType_loop_ok n : ∀ a s,
  (∀ ii, (a ≤ ii < a + n)%nat →
     m_PanelNetType s !! ii =
       Some (if decide (ii < length (pages s))%nat then Some ii else None)) →
  ∃ pgs, SelectDefaultNetlistType_loop (seq a n) s = Some (tt, set_pages pgs s) ∧
    ∀ p : nat, pgs !! p =
      (λ pg, if decide (a ≤ p < a + n)%nat then set_IsCurrentFormat false pg else pg)
        <$> pages s !! p.
Proof.
  induction n as [|n IH]; intros a s Hpn.
  - exists (pages s). split; [done|]. intros p.
    destruct (pages s !! p); [simpl|done]. by rewrite decide_False by lia.
  - simpl. rewrite (bind_Some _ _ _ _ _ (run_panel _ _ _ (Hpn a ltac:(lia)))).
    case_decide as Hlt.
    + destruct (lookup_lt_is_Some_2 _ _ Hlt) as [pg Hpg].
      rewrite (bind_Some _ _ _ _ _ (run_update_page _ _ _ _ Hpg)).
      match goal with |- ∃ pgs, SelectDefaultNetlistType_loop _ ?s1 = _ ∧ _ =>
        destruct (IH (S a) s1) as (pgs & Hr & Hpgs) end.
      { intros ii Hii. cbn [m_PanelNetType pages set_pages]. rewrite length_insert.
        apply Hpn. lia. }
      exists pgs. split; [done|]. intros p. rewrite Hpgs. cbn [pages set_pages].
      destruct (decide (p = a)) as [->|Hne].
      * rewrite list_lookup_insert_eq by done. rewrite Hpg. simpl.
        rewrite decide_False by lia. by rewrite decide_True by lia.
      * rewrite list_lookup_insert_ne by done.
        destruct (pages s !! p); [simpl|done].
        repeat case_decide; try lia; done.
    + msimpl. destruct (IH (S a) s) as (pgs & Hr & Hpgs).
      { intros ii Hii. apply Hpn. lia. }
      exists pgs. split; [done|]. intros p. rewrite Hpgs.
      destruct (pages s !! p) eqn:Hp; [simpl|done].
      apply lookup_lt_Some in Hp.
      repeat case_decide; try lia; done.
Qed.

Lemma wf_panel s (ii : nat) :
  wf s → (ii < PANELCUSTOMBASE + CUSTOMPANEL_COUNTMAX)%nat →
  m_PanelNetType s !! ii =
    Some (if decide (ii < length (pages s))%nat then Some ii else None).
Proof.
  intros Hwf Hii. case_decide.
  - by apply wf_panel_page.
  - apply wf_panel_null; [done|lia].
Qed.

Lemma SelectDefaultNetlistType_ok s :
  wf s →
  SelectDefaultNetlistType s =
    Some (tt, match selection s with
              | None => set_pages (set_IsCurrentFormat false <$> pages s) s
              | Some p =>
                  match pages s !! p with
                  | None => s
                  | Some pg =>
                      set_pages
                        (<[p := set_IsCurrentFormat true (set_IsCurrentFormat false pg)]>
                           (set_IsCurrentFormat false <$> pages s))
                        (set_frame (SetNetListFormatName (GetPageNetFmtName pg) (frame s))
                           (set_DefaultNetFmtName (GetPageNetFmtName pg) s))
                  end
              end)
  ∨ (∃ p, selection s = Some p ∧ pages s !! p = None).
Proof.
  intros Hwf.
  destruct (SelectDefaultNetlistType_loop_ok (PANELCUSTOMBASE + CUSTOMPANEL_COUNTMAX) 0 s)
    as (pgs & Hr & Hpgs).
  { intros ii Hii. apply wf_panel; [done|lia]. }
  assert (pgs = set_IsCurrentFormat false <$> pages s) as ->.
  { apply list_eq. intros p. rewrite Hpgs, list_lookup_fmap.
    destruct (pages s !! p) eqn:Hp; [simpl|done].
    apply lookup_lt_Some in Hp. destruct Hwf as (_ & Hlen & _).
    unfold PANELCUSTOMBASE, CUSTOMPANEL_COUNTMAX in *.
    rewrite decide_True by lia. done. }
  clear Hpgs. unfold SelectDefaultNetlistType.
  rewrite (bind_Some _ _ _ _ _ Hr). msimpl. cbn [selection set_pages].
  destruct (selection s) as [p|]; [|by left].
  destruct (pages s !! p) as [pg|] eqn:Hpg; [left|right; by exists p].
  assert (Hpg' : (set_IsCurrentFormat false <$> pages s) !! p = Some (set_IsCurrentFormat false pg))
    by (by rewrite list_lookup_fmap, Hpg).
  page_at_with Hpg'. msimpl.
  match goal with |- update_page ?p ?f ?s1 = _ => rewrite (run_update_page s1 p _ f Hpg') end.
  reflexivity.
Qed.

(** ** The claims on the configuration *)

Lemma leading_slots_spec cfg m : ∀ a,
  let k := leading_slots cfg (seq a m) in
  (∀ ii, (a ≤ ii < a + k)%nat → stored_title cfg ii ≠ "") ∧
  ((k < m)%nat → stored_title cfg (a + k) = "").
Proof.
  induction m as [|m IH]; intros a; simpl.
  - split; intros; lia.
  - destruct (IsEmpty (stored_title cfg a)) eqn:He.
    + apply IsEmpty_true in He. split; [intros; lia|]. by rewrite Nat.add_0_r.
    + apply IsEmpty_false in He. destruct (IH (S a)) as [Hne Hstop]. split.
      * intros ii Hii. destruct (decide (ii = a)) as [->|]; [done|]. apply Hne. lia.
      * intros Hlt. rewrite <- Nat.add_succ_comm. apply Hstop. lia.
Qed.

(** C6: FilenamePrms returns true with the extension cir for
    NET_TYPE_SPICE, frp for NET_TYPE_CADSTAR and the standard netlist
    extension for NET_TYPE_PCBNEW and NET_TYPE_ORCADPCB2; for every other
    type it returns false with the all-files wildcard and an empty
    extension.  An out parameter is assigned when its pointer is not NULL. *)
Theorem FilenamePrms_extensions (aExt aWildCard : option string) :
  case_labels_distinct →
  FilenamePrms NET_TYPE_SPICE aExt aWildCard =
    (true, (λ _, "cir") <$> aExt, (λ _, SpiceNetlistFileWildcard) <$> aWildCard)
  ∧ FilenamePrms NET_TYPE_CADSTAR aExt aWildCard =
    (true, (λ _, "frp") <$> aExt, (λ _, CadstarNetlistFileWildcard) <$> aWildCard)
  ∧ FilenamePrms NET_TYPE_PCBNEW aExt aWildCard =
    (true, (λ _, NetlistFileExtension) <$> aExt, (λ _, NetlistFileWildcard) <$> aWildCard)
  ∧ FilenamePrms NET_TYPE_ORCADPCB2 aExt aWildCard =
    (true, (λ _, NetlistFileExtension) <$> aExt, (λ _, NetlistFileWildcard) <$> aWildCard)
  ∧ ∀ id, is_custom_type id →
      FilenamePrms id aExt aWildCard =
        (false, (λ _, "") <$> aExt, (λ _, AllFilesWildcard) <$> aWildCard).
Proof.
  unfold case_labels_distinct. rewrite !NoDup_cons. rewrite !not_elem_of_cons.
  intros ((Hsc & Hsp & Hso & _) & (Hcp & Hco & _) & (Hpo & _) & _).
  unfold FilenamePrms. repeat split.
  - by rewrite decide_True.
  - rewrite decide_False by done. by rewrite decide_True.
  - rewrite !decide_False by done. by rewrite decide_True by (by left).
  - rewrite !decide_False by done. by rewrite decide_True by (by right).
  - intros id (Hs & Hc & Hp & Ho). rewrite !decide_False by done.
    rewrite decide_False by (by intros [|]). done.
Qed.

(** C2: WriteCurrentNetlistSetup stores the title and the command of the
    custom pages with a title that is not empty, in page order, under the
    keys CustomNetlistTitle and CustomNetlistCommand numbered from 1 without
    a gap, stores the empty string under both keys for the numbers that
    remain up to 8, and leaves the other keys of the configuration alone. *)
Theorem WriteCurrentNetlistSetup_compact s :
  wf s →
  ∃ s', WriteCurrentNetlistSetup s = Some (tt, s') ∧
    (length (kept_setups s) ≤ CUSTOMPANEL_COUNTMAX)%nat ∧
    (∀ (j : nat) title command, kept_setups s !! j = Some (title, command) →
       config s' !! shl_int CUSTOM_NETLIST_TITLE (j + 1) = Some title ∧
       config s' !! shl_int CUSTOM_NETLIST_COMMAND (j + 1) = Some command) ∧
    (∀ j : nat, (length (kept_setups s) ≤ j < CUSTOMPANEL_COUNTMAX)%nat →
       config s' !! shl_int CUSTOM_NETLIST_TITLE (j + 1) = Some "" ∧
       config s' !! shl_int CUSTOM_NETLIST_COMMAND (j + 1) = Some "") ∧
    (∀ key,
       (∀ j : nat, (j < CUSTOMPANEL_COUNTMAX)%nat →
          key ≠ shl_int CUSTOM_NETLIST_TITLE (j + 1) ∧
          key ≠ shl_int CUSTOM_NETLIST_COMMAND (j + 1)) →
       config s' !! key = config s !! key).
Proof.
  intros Hwf. destruct (WriteCurrentNetlistSetup_ok s Hwf) as [f Hr].
  pose proof (kept_setups_length s Hwf) as Hlen.
  eexists. split; [exact Hr|]. cbn [config set_config].
  set (kept := kept_setups s) in *.
  set (void := replicate (CUSTOMPANEL_COUNTMAX - length kept) ("", "")).
  assert (Hall : length (kept ++ void) = CUSTOMPANEL_COUNTMAX).
  { subst void. rewrite length_app, length_replicate. lia. }
  split; [done|]. split; [|split].
  - intros j title command Hj. pose proof (lookup_lt_Some _ _ _ Hj) as Hlt.
    rewrite write_setups_title, write_setups_command.
    rewrite !decide_True by lia. rewrite Nat.sub_0_r.
    by rewrite lookup_app_l, Hj by done.
  - intros j Hj. rewrite write_setups_title, write_setups_command.
    rewrite !decide_True by lia. rewrite Nat.sub_0_r.
    rewrite lookup_app_r by lia. subst void.
    by rewrite lookup_replicate_2 by lia.
  - intros key Hkey. apply write_setups_other. intros j Hj. apply Hkey. lia.
Qed.

(** C3: InstallCustomPages reads the stored titles of the slots 1 to 8 in
    order and stops at the first empty title; for each of the [n] slots
    before it, it adds to the notebook a custom page with the stored title
    and command and with the type NET_TYPE_CUSTOM1 + slot index, and points
    the slot of the array to it; at most 8 pages are added, and the slots
    from the first empty title on are left as they were. *)
Theorem InstallCustomPages_slots s :
  length (m_PanelNetType s) = (PANELCUSTOMBASE + CUSTOMPANEL_COUNTMAX)%nat →
  let n := leading_slots (config s) (seq 0 CUSTOMPANEL_COUNTMAX) in
  ∃ s', InstallCustomPages s = Some (tt, s') ∧
    (n ≤ CUSTOMPANEL_COUNTMAX)%nat ∧
    (∀ ii, (ii < n)%nat → stored_title (config s) ii ≠ "") ∧
    ((n < CUSTOMPANEL_COUNTMAX)%nat → stored_title (config s) n = "") ∧
    pages s' =
      (pages s ++ (stored_page (config s) (m_DefaultNetFmtName s) <$> seq 0 n))%list ∧
    (∀ ii, (ii < n)%nat →
       m_PanelNetType s' !! (PANELCUSTOMBASE + ii)%nat = Some (Some (length (pages s) + ii)%nat) ∧
       m_IdNetType (stored_page (config s) (m_DefaultNetFmtName s) ii) =
         NET_TYPE_CUSTOM1 + Z.of_nat ii) ∧
    (∀ ii, (ii < PANELCUSTOMBASE ∨ PANELCUSTOMBASE + n ≤ ii)%nat →
       m_PanelNetType s' !! ii = m_PanelNetType s !! ii) ∧
    config s' = config s.
Proof.
  intros Hlen n.
  destruct (InstallCustomPages_loop_ok CUSTOMPANEL_COUNTMAX 0 s ltac:(by left))
    as (s' & Hr & Hp & _ & Hpn & _ & Hs).
  cbv zeta in Hp, Hpn. fold n in Hp, Hpn.
  pose proof (leading_slots_le (config s) (seq 0 CUSTOMPANEL_COUNTMAX)) as Hn.
  rewrite length_seq in Hn. fold n in Hn.
  destruct (leading_slots_spec (config s) CUSTOMPANEL_COUNTMAX 0) as [Hne Hstop].
  fold n in Hne, Hstop.
  exists s'. split; [done|]. split; [done|]. split; [|split; [|split; [|split; [|split]]]].
  - intros ii Hii. apply Hne. lia.
  - done.
  - done.
  - intros ii Hii. split; [|done]. rewrite Hpn, Hlen.
    unfold PANELCUSTOMBASE, CUSTOMPANEL_COUNTMAX in *.
    rewrite decide_True by lia. do 3 f_equal. lia.
  - intros ii Hii. rewrite Hpn. rewrite decide_False; [done|].
    unfold PANELCUSTOMBASE in *. lia.
  - by destruct Hs as (_ & ? & _).
Qed.

(** ** GenNetlist *)

Lemma GenNetlist_switch_ok currPage fileExt title :
  page_ready currPage →
  ∃ opt ext' title',
    (∀ s, GenNetlist_switch currPage fileExt title s = Some ((opt, ext', title'), s)) ∧
    (is_custom_type (m_IdNetType currPage) →
     ∃ command t,
       m_CommandStringCtrl currPage = Some command ∧
       m_TitleStringCtrl currPage = Some t ∧
       ext' = (if Matches extRE command then GetMatch1 extRE command else fileExt) ∧
       title' = t +:+ " Export").
Proof.
  intros [Hspice Hcustom]. unfold GenNetlist_switch.
  destruct (decide (m_IdNetType currPage = NET_TYPE_SPICE)) as [Hs|Hs].
  { destruct (Hspice Hs) as [adjust ->].
    do 3 eexists. split; [intros s; msimpl; reflexivity|]. by intros (? & _). }
  destruct (decide (m_IdNetType currPage = NET_TYPE_CADSTAR)) as [Hc|Hc].
  { do 3 eexists. split; [reflexivity|]. by intros (_ & ? & _). }
  destruct (decide (m_IdNetType currPage = NET_TYPE_PCBNEW)) as [Hp|Hp].
  { do 3 eexists. split; [reflexivity|]. by intros (_ & _ & ? & _). }
  destruct (decide (m_IdNetType currPage = NET_TYPE_ORCADPCB2)) as [Ho|Ho].
  { do 3 eexists. split; [reflexivity|]. by intros (_ & _ & _ & ?). }
  destruct (Hcustom ltac:(done)) as [[command Hcmd] [t Ht]].
  rewrite Hcmd, Ht.
  do 3 eexists. split; [intros s; msimpl; reflexivity|]. intros _. by exists command, t.
Qed.

Lemma WriteCurrentNetlistSetup_saves s :
  wf s →
  ∃ f, WriteCurrentNetlistSetup s =
         Some (tt, set_config (saved_config s) (set_frame f s)).
Proof. apply WriteCurrentNetlistSetup_ok. Qed.

Lemma GenNetlist_ok s p currPage answer :
  wf s → selection s = Some p → pages s !! p = Some currPage → page_ready currPage →
  ∃ f opt ext title path wildcard,
    (∀ s0, GenNetlist_switch currPage
       (default "" (FilenamePrms (m_IdNetType currPage) (Some "") (Some "")).1.2)
       "Save Netlist File" s0 = Some ((opt, ext, title), s0)) ∧
    wildcard = default "" (FilenamePrms (m_IdNetType currPage) (Some "") (Some "")).2 ∧
    let dlg := wxFileDialog title path (proposed_name ext) wildcard in
    match answer with
    | None =>
        GenNetlist None s = Some (tt, set_effects (effects s ++ [dlg]) (set_frame f s))
    | Some fullpath =>
        ∃ f',
          let fr1 := SetNetListerCommand (default "" (m_CommandStringCtrl currPage)) f in
          let call :=
            match CreateNetlist fr1 with
            | None => wxMessageBox "Schematic netlist not available"
            | Some netlist =>
                CallWriteNetListFile (Some netlist) (m_IdNetType currPage) fullpath opt
            end in
          GenNetlist (Some fullpath) s =
            Some (tt, set_EndModal_code (Some wxID_OK)
                        (set_config (saved_config s)
                           (set_frame f'
                              (set_effects
                                 (effects s ++ [dlg; ClearMsgPanel; CallCreateNetlist; call])
                                 s))))
    end.
Proof.
  intros Hwf Hsel Hpg Hready.
  destruct (NetlistUpdateOpt_ok s Hwf) as [f Hf]. exists f.
  destruct (FilenamePrms (m_IdNetType currPage) (Some "") (Some "")) as [[r aExt] aWildCard] eqn:Hprms.
  destruct (GenNetlist_switch_ok currPage (default "" aExt) "Save Netlist File" Hready)
    as (opt & ext & title & Hsw & _).
  exists opt, ext, title.
  exists (GetPath (if IsEmpty (GetPath (SetExt ext (wxFileName_of RootFileName)))
                   then SetPath (wxPathOnly ProjectFullName)
                          (SetExt ext (wxFileName_of RootFileName))
                   else SetExt ext (wxFileName_of RootFileName))).
  exists (default "" aWildCard).
  split; [done|]. split; [done|]. cbv zeta.
  assert (Hname : GetFullName
            (if IsEmpty (GetPath (SetExt ext (wxFileName_of RootFileName)))
             then SetPath (wxPathOnly ProjectFullName)
                    (SetExt ext (wxFileName_of RootFileName))
             else SetExt ext (wxFileName_of RootFileName)) = proposed_name ext).
  { by destruct (IsEmpty _). }
  assert (Hgo : ∀ answer, GenNetlist answer s =
    bind (emit (wxFileDialog title
            (GetPath (if IsEmpty (GetPath (SetExt ext (wxFileName_of RootFileName)))
                      then SetPath (wxPathOnly ProjectFullName)
                             (SetExt ext (wxFileName_of RootFileName))
                      else SetExt ext (wxFileName_of RootFileName)))
            (proposed_name ext) (default "" aWildCard)))
      (λ _, match answer with
            | None => pure tt
            | Some fullpath =>
                bind (emit ClearMsgPanel) (λ _,
                bind (update_frame (SetNetListerCommand
                        (default "" (m_CommandStringCtrl currPage)))) (λ _,
                bind get (λ s,
                let netlist := CreateNetlist (frame s) in
                bind (emit CallCreateNetlist) (λ _,
                bind match netlist with
                     | None => emit (wxMessageBox "Schematic netlist not available")
                     | Some _ =>
                         emit (CallWriteNetListFile netlist (m_IdNetType currPage)
                                 fullpath opt)
                     end (λ _,
                bind WriteCurrentNetlistSetup (λ _, EndModal wxID_OK))))))
            end) (set_frame f s)).
  { intros a. unfold GenNetlist. rewrite (bind_Some _ _ _ _ _ Hf). msimpl.
    cbn [selection set_frame]. rewrite Hsel. msimpl.
    page_at_with Hpg. rewrite Hprms. cbv beta iota.
    rewrite (bind_Some _ _ _ _ _ (Hsw _)). cbv beta iota. rewrite Hname.
    destruct a; msimpl; reflexivity. }
  destruct answer as [fullpath|]; rewrite Hgo; msimpl; [|reflexivity].
  cbn [frame set_frame set_effects].
  destruct (CreateNetlist _) as [netlist|]; msimpl.
  all: match goal with |- context [bind WriteCurrentNetlistSetup _ ?s3] =>
         destruct (WriteCurrentNetlistSetup_saves s3) as [f' Hw]; [done|] end.
  all: exists f'; rewrite (bind_Some _ _ _ _ _ Hw); msimpl.
  all: cbn [effects set_effects set_frame set_config set_EndModal_code].
  all: rewrite <- !app_assoc; reflexivity.
Qed.

(** ** RunSimulator *)

Lemma TrimLeft_spec s :
  ∃ ws, s = ws +:+ TrimLeft s ∧ all_space ws = true ∧ first_is_space (TrimLeft s) = false.
Proof.
  induction s as [|c s (ws & Hs & Hws & Hf)]; [by exists ""|].
  simpl. destruct (Ascii.is_space c) eqn:Hc.
  - exists (String c ws). rewrite sapp_cons, <- Hs. simpl. by rewrite Hc.
  - exists "". simpl. by rewrite Hc.
Qed.

Lemma TrimRight_spec s :
  ∃ ws, s = TrimRight s +:+ ws ∧ all_space ws = true ∧ last_is_space (TrimRight s) = false
        ∧ first_is_space (TrimRight s) = first_is_space s && negb (all_space s).
Proof.
  induction s as [|c s (ws & Hs & Hws & Hl & Hf)]; [by exists ""|].
  simpl. destruct (Ascii.is_space c) eqn:Hc; simpl.
  - destruct (IsEmpty (TrimRight s)) eqn:He.
    + apply IsEmpty_true in He. rewrite He, sapp_nil_l in Hs. subst ws.
      exists (String c s). simpl. by rewrite Hc, Hws.
    + apply IsEmpty_false in He. exists ws. rewrite sapp_cons, <- Hs.
      split; [done|]. split; [done|]. split.
      * simpl. destruct (TrimRight s); done.
      * simpl. rewrite Hc. simpl. symmetry. apply negb_true_iff.
        destruct (all_space s) eqn:Hall; [|done]. exfalso. apply He.
        clear -Hall. induction s as [|c s IH]; [done|]. simpl in *.
        apply andb_true_iff in Hall as [-> Hall]. by rewrite (IH Hall).
  - exists ws. rewrite sapp_cons, <- Hs. split; [done|]. split; [done|]. split.
    + simpl. destruct (TrimRight s); [by rewrite Hc|done].
    + simpl. by rewrite Hc.
Qed.

Lemma Trim_both_spec text :
  let tmp := Trim true (Trim false text) in
  ∃ l r, text = l +:+ tmp +:+ r ∧ all_space l = true ∧ all_space r = true
         ∧ first_is_space tmp = false ∧ last_is_space tmp = false.
Proof.
  unfold Trim. destruct (TrimLeft_spec text) as (l & Hl & Hsl & Hf).
  destruct (TrimRight_spec (TrimLeft text)) as (r & Hr & Hsr & Hla & Hfi).
  exists l, r. split; [by rewrite <- Hr|]. repeat split; try done.
  by rewrite Hfi, Hf.
Qed.

Lemma BeforeFirst_AfterFirst ch s :
  (contains ch s = true →
     s = BeforeFirst ch s +:+ String ch (AfterFirst ch s)
     ∧ contains ch (BeforeFirst ch s) = false)
  ∧ (contains ch s = false → BeforeFirst ch s = s ∧ AfterFirst ch s = "").
Proof.
  induction s as [|c s [IHt IHf]]; [done|]. simpl.
  case_bool_decide as Hc; simpl.
  - subst c. split; [done|]. done.
  - split.
    + intros [Heq Hn]%IHt. rewrite sapp_cons, <- Heq. split; [done|].
      simpl. by rewrite bool_decide_eq_false_2.
    + intros [-> ->]%IHf. done.
Qed.

Lemma RunSimulator_ok s p currPage :
  wf s → selection s = Some p → pages s !! p = Some currPage →
  ∃ spice text fr1,
    pages s !! PANELSPICE = Some spice ∧ m_CommandStringCtrl spice = Some text ∧
    let tmp := Trim true (Trim false text) in
    let netlist_opt :=
      match m_SpiceAjustPassiveValues currPage with
      | Some true => Z.lor 0 NET_ADJUST_PASSIVE_VALS
      | _ => 0
      end in
    let netlist := CreateNetlist fr1 in
    SimulatorCommand fr1 = tmp ∧
    RunSimulator s =
      Some (tt, set_effects
                  (effects s ++
                   [CallCreateNetlist;
                    CallWriteNetListFile netlist (m_IdNetType currPage)
                      simulator_netlist netlist_opt] ++
                   (if WriteNetListFile fr1 netlist (m_IdNetType currPage)
                         simulator_netlist netlist_opt
                    then [ExecuteFile (BeforeFirst " " tmp)
                            (AfterFirst " " tmp +:+ " " +:+ quoted simulator_netlist)]
                    else []))
                  (set_frame fr1 s)).
Proof.
  intros Hwf Hsel Hpg.
  destruct (NetlistUpdateOpt_ok s Hwf) as [f Hf].
  destruct (wf_spice s Hwf) as (spice & chk & text & Hspice & Hchk & Hcmd).
  assert (Hlt : (PANELSPICE < length (pages s))%nat) by (by apply lookup_lt_is_Some_1; eexists).
  exists spice, text, (SetSimulatorCommand (Trim true (Trim false text)) f).
  split; [done|]. split; [done|]. cbv zeta. split; [done|].
  unfold RunSimulator. rewrite (bind_Some _ _ _ _ _ Hf).
  rewrite (bind_Some _ _ _ _ _ (run_panel (set_frame f s) _ _ (wf_panel_page _ _ Hwf Hlt))).
  msimpl. page_at_with Hspice. rewrite Hcmd. msimpl.
  cbn [selection set_frame]. rewrite Hsel. msimpl.
  page_at_with Hpg. msimpl. cbn [frame set_frame].
  fold simulator_netlist.
  destruct (WriteNetListFile _ _ _ _ _); msimpl; unfold modify, pure;
    cbn [effects set_effects set_frame]; rewrite <- ?app_assoc; reflexivity.
Qed.

(** ** OnDelGenerator *)

Lemma keeps_widgets_refl pg : keeps_widgets pg pg.
Proof. by repeat split. Qed.

Lemma keeps_widgets_trans pg1 pg2 pg3 :
  keeps_widgets pg1 pg2 → keeps_widgets pg2 pg3 → keeps_widgets pg1 pg3.
Proof. unfold keeps_widgets. intros (? & ? & ?) (? & ? & ?). repeat split; auto. Qed.

Lemma Forall2_keeps_refl l : Forall2 keeps_widgets l l.
Proof. induction l; constructor; auto using keeps_widgets_refl. Qed.

Lemma Forall2_keeps_insert l l' (p : nat) pg pg' :
  Forall2 keeps_widgets l l' → l' !! p = Some pg → keeps_widgets pg pg' →
  Forall2 keeps_widgets l (<[p := pg']> l').
Proof.
  intros Hl Hp Hk. apply Forall2_same_length_lookup. split.
  - rewrite length_insert. by eapply Forall2_length.
  - intros i x y Hx Hy. destruct (decide (i = p)) as [->|Hne].
    + rewrite list_lookup_insert_eq in Hy by (by eapply lookup_lt_Some).
      injection Hy as <-. eapply keeps_widgets_trans; [|done].
      eapply Forall2_lookup_lr; done.
    + rewrite list_lookup_insert_ne in Hy by done. eapply Forall2_lookup_lr; done.
Qed.

Lemma wf_set_pages s pgs' :
  wf s → Forall2 keeps_widgets (pages s) pgs' → wf (set_pages pgs' s).
Proof.
  intros (Hpn & Hlen & Hspice & Hcustom) Hk.
  pose proof (Forall2_length _ _ _ Hk) as Hl.
  unfold wf. cbn [pages m_PanelNetType set_pages]. rewrite <- Hl.
  split; [done|]. split; [done|]. split.
  - unfold spice_page_ok in *. cbn [pages set_pages].
    destruct (pages s !! PANELSPICE) as [pg|] eqn:Hpg; [|done].
    destruct (Forall2_lookup_l _ _ _ _ _ Hk Hpg) as (pg' & -> & Hk').
    destruct Hspice, Hk' as (? & ? & ?). split; auto.
  - unfold custom_pages in *. cbn [pages set_pages].
    apply Forall_lookup. intros i pg' Hpg'. rewrite lookup_drop in Hpg'.
    destruct (Forall2_lookup_r _ _ _ _ _ Hk Hpg') as (pg & Hpg & Hk').
    rewrite Forall_lookup in Hcustom.
    destruct (Hcustom i pg) as [? ?]; [by rewrite lookup_drop|].
    destruct Hk' as (? & ? & ?). split; auto.
Qed.

Lemma pages_after_delete_keeps pgs p currPage :
  pgs !! p = Some currPage →
  Forall2 keeps_widgets pgs (pages_after_delete pgs p currPage).
Proof.
  intros Hp. unfold pages_after_delete.
  set (cleared := set_TitleStringCtrl _ _).
  assert (H1 : Forall2 keeps_widgets pgs (<[p := cleared]> pgs)).
  { eapply (Forall2_keeps_insert _ _ _ currPage); [apply Forall2_keeps_refl|done|].
    repeat split; try done; intros _; by eexists. }
  destruct (m_IsCurrentFormat currPage); [|done].
  assert (H2 : Forall2 keeps_widgets pgs
                 (<[p := set_IsCurrentFormat false cleared]> (<[p := cleared]> pgs))).
  { eapply (Forall2_keeps_insert _ _ _ cleared); [done| |by repeat split].
    apply list_lookup_insert_eq. by eapply lookup_lt_Some. }
  cbv zeta. destruct (_ !! PANELPCBNEW) as [pcb|] eqn:Hpcb; [|done].
  eapply (Forall2_keeps_insert _ _ _ pcb); [done|done|by repeat split].
Qed.

Lemma OnDelGenerator_ok s p currPage :
  wf s → selection s = Some p → pages s !! p = Some currPage →
  has_custom_widgets currPage →
  let s1 := set_pages (pages_after_delete (pages s) p currPage) s in
  ∃ f, OnDelGenerator s =
         Some (tt, set_EndModal_code (Some NET_PLUGIN_CHANGE)
                     (set_config (saved_config s1) (set_frame f s1))).
Proof.
  intros Hwf Hsel Hpg [[cmd Hcmd] [title Htitle]] s1.
  assert (Hwf1 : wf s1).
  { apply wf_set_pages; [done|]. by apply pages_after_delete_keeps. }
  destruct (WriteCurrentNetlistSetup_saves s1 Hwf1) as [f Hw]. exists f.
  pose proof (lookup_lt_Some _ _ _ Hpg) as Hlt.
  unfold OnDelGenerator. msimpl. rewrite Hsel. msimpl.
  page_at_with Hpg. rewrite Hcmd, Htitle. msimpl.
  rewrite (bind_Some _ _ _ _ _ (run_update_page s p _ _ Hpg)). msimpl.
  match goal with |- context [bind (update_page p ?f) _ ?s2] =>
    rewrite (bind_Some _ _ _ _ _ (run_update_page s2 p _ f
               (list_lookup_insert_eq (pages s) p _ Hlt))) end.
  cbn [pages set_pages]. rewrite list_insert_insert_eq.
  subst s1. unfold pages_after_delete in *.
  set (cleared := set_TitleStringCtrl (Some "") (set_CommandStringCtrl (Some "") currPage)) in *.
  destruct (m_IsCurrentFormat currPage); msimpl.
  - match goal with |- context [bind (update_page p ?f) _ ?s2] =>
      rewrite (bind_Some _ _ _ _ _ (run_update_page s2 p _ f
                 (list_lookup_insert_eq (pages s) p _ Hlt))) end.
    cbn [pages set_pages].
    assert (Hpcb0 : (PANELPCBNEW < length (pages s))%nat).
    { destruct Hwf as (_ & Hlen & _). unfold PANELPCBNEW, PANELCUSTOMBASE in *. lia. }
    pose proof (wf_panel_page s PANELPCBNEW Hwf Hpcb0) as Hpanel0. msimpl.
    match goal with |- context [bind (panel PANELPCBNEW) _ ?s2] =>
      rewrite (bind_Some _ _ _ _ _ (run_panel s2 PANELPCBNEW (Some PANELPCBNEW) Hpanel0)) end.
    msimpl.
    destruct (lookup_lt_is_Some_2
                (<[p:=set_IsCurrentFormat false cleared]> (<[p:=cleared]> (pages s)))
                PANELPCBNEW ltac:(by rewrite !length_insert)) as [pcb Hpcb].
    rewrite Hpcb in Hw |- *.
    match goal with |- context [bind (update_page PANELPCBNEW ?f) _ ?s2] =>
      rewrite (bind_Some _ _ _ _ _ (run_update_page s2 PANELPCBNEW pcb f Hpcb)) end.
    cbn [pages set_pages].
    match goal with |- bind WriteCurrentNetlistSetup _ ?s2 = _ =>
      change s2 with (set_pages
        (<[PANELPCBNEW:=set_IsCurrentFormat true pcb]>
           (<[p:=set_IsCurrentFormat false cleared]> (<[p:=cleared]> (pages s)))) s) end.
    rewrite (bind_Some _ _ _ _ _ Hw). reflexivity.
  - match goal with |- bind WriteCurrentNetlistSetup _ ?s2 = _ =>
      change s2 with (set_pages (<[p:=cleared]> (pages s)) s) end.
    rewrite (bind_Some _ _ _ _ _ Hw). reflexivity.
Qed.

(** ** The add-generator dialog and OnAddGenerator *)

Lemma OnOKClick_EndModal d :
  add_EndModal (OnOKClick d) =
    if bool_decide (m_textCtrlCommand d = "" ∨ m_textCtrlName d = "")
    then add_EndModal d else Some wxID_OK.
Proof.
  unfold OnOKClick. repeat case_bool_decide; try done; tauto.
Qed.

Lemma OnOKClick_fields d :
  m_textCtrlName (OnOKClick d) = m_textCtrlName d ∧
  m_textCtrlCommand (OnOKClick d) = m_textCtrlCommand d.
Proof. unfold OnOKClick. by repeat case_bool_decide. Qed.

Lemma OnBrowseGenerators_EndModal f d :
  add_EndModal (OnBrowseGenerators f d) = add_EndModal d.
Proof.
  unfold OnBrowseGenerators. destruct (IsEmpty f); [done|].
  cbv zeta. by destruct (IsEmpty _).
Qed.

Lemma add_ShowModal_ended evs d c :
  add_EndModal d = Some c → add_ShowModal evs d = d.
Proof. intros Hc. destruct evs; simpl; by rewrite Hc. Qed.

Lemma add_ShowModal_OK evs : ∀ d,
  wxID_OK ≠ wxID_CANCEL → add_EndModal d = None →
  add_EndModal (add_ShowModal evs d) = Some wxID_OK →
  m_textCtrlName (add_ShowModal evs d) ≠ "" ∧
  m_textCtrlCommand (add_ShowModal evs d) ≠ "".
Proof.
  intros d Hne. revert d. induction evs as [|e evs IH]; intros d Hd; simpl; rewrite Hd.
  - simpl. intros [=]. done.
  - destruct e; simpl; try (apply IH; done).
    + apply IH. by rewrite OnBrowseGenerators_EndModal.
    + pose proof (OnOKClick_EndModal d) as Hok.
      case_bool_decide as Hempty.
      * apply IH. by rewrite Hok.
      * rewrite (add_ShowModal_ended _ _ _ Hok). intros _.
        destruct (OnOKClick_fields d) as [-> ->]. tauto.
    + rewrite (add_ShowModal_ended _ _ wxID_CANCEL) by done. simpl. intros [=]. done.
Qed.

Ltac case_exists He :=
  match goal with
  | |- context [decide (Exists ?P ?l)] => destruct (decide (Exists P l)) as [He|He]
  end.

Lemma OnAddGenerator_loop_ok title n : ∀ a nt s,
  wf s → (a + n ≤ CUSTOMPANEL_COUNTMAX)%nat →
  (PANELCUSTOMBASE + a ≤ length (pages s))%nat →
  let l := take n (drop (PANELCUSTOMBASE + a) (pages s)) in
  OnAddGenerator_loop (seq a n) title nt s =
    if decide (Exists (λ pg, GetPageNetFmtName pg = title) l)
    then Some (None, set_effects
                       (effects s ++ [wxMessageBox "This plugin already exists. Abort"]) s)
    else Some (Some (if decide (length (pages s) < PANELCUSTOMBASE + a + n)%nat
                     then length (pages s)
                     else if decide (n = 0%nat) then nt
                          else (PANELCUSTOMBASE + a + n - 1)%nat), s).
Proof.
  induction n as [|n IH]; intros a nt s Hwf Han Hlen l.
  - subst l. simpl. unfold PANELCUSTOMBASE in *. rewrite decide_False by lia. done.
  - simpl. destruct (decide (a + PANELCUSTOMBASE < length (pages s))%nat) as [Hlt|Hge].
    + rewrite (bind_Some _ _ _ _ _ (run_panel _ _ _ (wf_panel_page _ _ Hwf Hlt))).
      destruct (lookup_lt_is_Some_2 _ _ Hlt) as [pg Hpg].
      page_at_with Hpg.
      assert (Hl : l = pg :: take n (drop (PANELCUSTOMBASE + S a) (pages s))).
      { subst l. replace (PANELCUSTOMBASE + a)%nat with (a + PANELCUSTOMBASE)%nat by lia.
        rewrite (drop_S _ _ _ Hpg). simpl. repeat f_equal. unfold PANELCUSTOMBASE. lia. }
      rewrite Hl. clear Hl l. case_bool_decide as Hdup.
      * case_exists He; [by msimpl|].
        exfalso. apply He. by left.
      * rewrite (IH (S a)) by (done || unfold PANELCUSTOMBASE in *; lia).
        cbv zeta. unfold PANELCUSTOMBASE in *.
        case_exists He; case_exists He'; try done.
        -- exfalso. apply He'. by right.
        -- exfalso. by apply Exists_cons in He' as [?|?].
        -- repeat case_decide; try lia; repeat f_equal; lia.
    + rewrite (bind_Some _ _ _ _ _ (run_panel _ _ _
                 (wf_panel_null s (a + PANELCUSTOMBASE) Hwf
                    ltac:(unfold PANELCUSTOMBASE, CUSTOMPANEL_COUNTMAX in *; lia)))).
      subst l. rewrite drop_ge by lia. simpl.
      unfold PANELCUSTOMBASE in *. rewrite decide_True by lia.
      msimpl. unfold pure. repeat f_equal. lia.
Qed.

Lemma run_emit_messages msgs : ∀ s,
  emit_messages msgs s = Some (tt, set_effects (effects s ++ (wxMessageBox <$> msgs)) s).
Proof.
  induction msgs as [|m msgs IH]; intros s; simpl.
  - by rewrite app_nil_r.
  - msimpl. rewrite IH. cbn [effects set_effects]. by rewrite <- app_assoc.
Qed.

Lemma wf_add_page s title command id chk :
  wf s → (length (pages s) < PANELCUSTOMBASE + CUSTOMPANEL_COUNTMAX)%nat →
  wf (set_PanelNetType
        (<[length (pages s) := Some (length (pages s))]> (m_PanelNetType s))
        (set_pages (pages s ++ [custom_page title command id chk]) s)).
Proof.
  intros (Hpn & Hlen & Hspice & Hcustom) Hfull.
  unfold wf, spice_page_ok, custom_pages.
  cbn [pages m_PanelNetType set_pages set_PanelNetType].
  rewrite length_app. simpl.
  unfold PANELCUSTOMBASE, CUSTOMPANEL_COUNTMAX, PANELSPICE in *.
  split; [|split; [lia|split]].
  - rewrite Hpn. apply list_eq. intros i.
    rewrite list_lookup_insert_cases, length_app, length_fmap, length_seq, length_replicate.
    set (len := length (pages s)) in *.
    destruct (decide (i < len)%nat) as [Hi|Hi].
    + rewrite decide_False by lia.
      rewrite !lookup_app_l by (rewrite length_fmap, length_seq; lia).
      by rewrite !list_lookup_fmap, !lookup_seq_lt by lia.
    + destruct (decide (i = len)) as [->|Hne].
      * rewrite decide_True by lia.
        rewrite lookup_app_l by (rewrite length_fmap, length_seq; lia).
        rewrite list_lookup_fmap, lookup_seq_lt by lia. done.
      * rewrite decide_False by lia.
        rewrite !lookup_app_r by (rewrite length_fmap, length_seq; lia).
        rewrite !length_fmap, !length_seq.
        destruct (decide (i < 12)%nat).
        -- rewrite !lookup_replicate_2 by lia. done.
        -- rewrite !lookup_ge_None_2 by (rewrite length_replicate; lia). done.
  - rewrite lookup_app_l by lia. done.
  - rewrite drop_app_le by lia. apply Forall_app. split; [done|].
    apply Forall_singleton. split; by eexists.
Qed.


Lemma OnAddGenerator_run sub s :
  wf s →
  let dlg := add_ShowModal sub new_NETLIST_DIALOG_ADD_GENERATOR in
  let title := GetGeneratorTitle dlg in
  let cmd := GetGeneratorTCommandLine dlg in
  let s0 := set_effects (effects s ++ (wxMessageBox <$> add_messages dlg)) s in
  OnAddGenerator sub s =
    if bool_decide (add_EndModal dlg ≠ Some wxID_OK) then Some (tt, s0)
    else if decide (Exists (λ pg, GetPageNetFmtName pg = title) (custom_pages s)) then
      Some (tt, set_effects
                  (effects s0 ++ [wxMessageBox "This plugin already exists. Abort"]) s0)
    else
      let netTypeId :=
        if decide (length (pages s) < PANELCUSTOMBASE + CUSTOMPANEL_COUNTMAX)%nat
        then length (pages s)
        else (PANELCUSTOMBASE + CUSTOMPANEL_COUNTMAX - 1)%nat in
      bind (AddOneCustomPage title cmd (Z.of_nat netTypeId)) (λ currPage,
        bind (set_panel netTypeId (Some currPage)) (λ _,
          bind WriteCurrentNetlistSetup (λ _, EndModal NET_PLUGIN_CHANGE))) s0.
Proof.
  intros Hwf dlg title cmd s0. unfold OnAddGenerator. fold dlg.
  rewrite (bind_Some _ _ _ _ _ (run_emit_messages _ _)). fold s0.
  case_bool_decide; [done|]. fold title cmd.
  assert (Hwf0 : wf s0) by done.
  pose proof (OnAddGenerator_loop_ok title CUSTOMPANEL_COUNTMAX 0 PANELCUSTOMBASE s0 Hwf0
                (le_n _)) as Hloop.
  destruct Hwf as (_ & Hlen & _).
  cbv zeta in Hloop. rewrite Nat.add_0_r in Hloop.
  change (pages s0) with (pages s) in Hloop.
  rewrite take_ge in Hloop
    by (rewrite length_drop; unfold PANELCUSTOMBASE, CUSTOMPANEL_COUNTMAX in *; lia).
  specialize (Hloop ltac:(lia)).
  change (drop PANELCUSTOMBASE (pages s)) with (custom_pages s) in Hloop.
  case_exists He.
  - by rewrite (bind_Some _ _ _ _ _ Hloop).
  - rewrite (bind_Some _ _ _ _ _ Hloop).
    cbv zeta. rewrite (decide_False (P := CUSTOMPANEL_COUNTMAX = 0%nat)) by done.
    done.
Qed.

Lemma FilenamePrms_custom id aExt aWildCard :
  is_custom_type id →
  FilenamePrms id aExt aWildCard =
    (false, (λ _, "") <$> aExt, (λ _, AllFilesWildcard) <$> aWildCard).
Proof.
  intros (Hs & Hc & Hp & Ho). unfold FilenamePrms. rewrite !decide_False by done.
  rewrite decide_False by (by intros [|]). done.
Qed.

(** ** The claims on the handlers *)

(** C1: when GenNetlist runs on a current page of a custom type, the file
    name that the file dialog proposes has the extension captured by the
    pattern in the command of the page when the command matches it, that is
    when the command holds a dot, three or four alphanumeric characters,
    then .xsl or .xslt and a double quote, the captured group being these
    three or four characters; when the command does not match, the
    extension is the empty one that FilenamePrms gives for a custom type. *)
Theorem GenNetlist_custom_extension s p currPage command answer :
  wf s → selection s = Some p → pages s !! p = Some currPage →
  is_custom_type (m_IdNetType currPage) →
  m_CommandStringCtrl currPage = Some command →
  is_Some (m_TitleStringCtrl currPage) →
  ∃ s' ext title path wildcard rest,
    GenNetlist answer s = Some (tt, s') ∧
    effects s' =
      (effects s ++ wxFileDialog title path (proposed_name ext) wildcard :: rest)%list ∧
    (Matches extRE command = true ↔ ∃ e, xsl_script_ext command e) ∧
    (Matches extRE command = true →
       ext = GetMatch1 extRE command ∧ xsl_script_ext command ext) ∧
    (Matches extRE command = false →
       ext = "" ∧
       ∀ old aWildCard,
         (FilenamePrms (m_IdNetType currPage) (Some old) aWildCard).1.2 = Some "").
Proof.
  intros Hwf Hsel Hpg Hcustom Hcmd Htitle.
  assert (Hready : page_ready currPage).
  { split; [by destruct Hcustom as (? & _)|]. intros _. split; [by eexists|done]. }
  destruct (GenNetlist_ok s p currPage answer Hwf Hsel Hpg Hready)
    as (f & opt & ext & title & path & wildcard & Hsw & _ & Hrun).
  rewrite (FilenamePrms_custom _ _ _ Hcustom) in Hsw. simpl in Hsw.
  destruct (GenNetlist_switch_ok currPage "" "Save Netlist File" Hready)
    as (opt' & ext' & title' & Hsw' & Hext).
  destruct (Hext Hcustom) as (command' & t & Hcmd' & _ & -> & _).
  assert (command' = command) as -> by congruence.
  pose proof (Hsw s) as Heq. rewrite (Hsw' s) in Heq.
  injection Heq as _ <- _. clear Hsw Hsw' Hext.
  assert (Hspec : (Matches extRE command = true ↔ ∃ e, xsl_script_ext command e) ∧
    (Matches extRE command = true →
       (if Matches extRE command then GetMatch1 extRE command else "") =
         GetMatch1 extRE command ∧
       xsl_script_ext command
         (if Matches extRE command then GetMatch1 extRE command else "")) ∧
    (Matches extRE command = false →
       (if Matches extRE command then GetMatch1 extRE command else "") = "" ∧
       ∀ old aWildCard,
         (FilenamePrms (m_IdNetType currPage) (Some old) aWildCard).1.2 = Some "")).
  { split; [apply Matches_extRE_iff|]. split.
    - intros Hm. rewrite Hm. split; [done|]. by apply GetMatch1_extRE.
    - intros Hm. rewrite Hm. split; [done|]. intros old w.
      by rewrite (FilenamePrms_custom _ _ _ Hcustom). }
  cbv zeta in Hrun. destruct answer as [fullpath|].
  - destruct Hrun as [f' Hrun]. do 5 eexists. eexists [_; _; _].
    split; [exact Hrun|]. split; [reflexivity|]. exact Hspec.
  - do 5 eexists. exists [].
    split; [exact Hrun|]. split; [reflexivity|]. exact Hspec.
Qed.

(** C5: once the file dialog is accepted, GenNetlist asks the parent frame
    for the netlist with CreateNetlist; when there is none it shows
    Schematic netlist not available and does not call WriteNetListFile,
    otherwise it calls WriteNetListFile of the parent frame with the
    netlist, the type of the current page and the chosen file; in both cases
    it then saves the netlist setup and ends the dialog with wxID_OK. *)
Theorem GenNetlist_delegates s p currPage fullpath :
  wf s → selection s = Some p → pages s !! p = Some currPage → page_ready currPage →
  ∃ s' fr1 title path name wildcard opt,
    GenNetlist (Some fullpath) s = Some (tt, s') ∧
    NetListerCommand fr1 = default "" (m_CommandStringCtrl currPage) ∧
    (CreateNetlist fr1 = None →
       effects s' =
         (effects s ++
          [wxFileDialog title path name wildcard; ClearMsgPanel; CallCreateNetlist;
           wxMessageBox "Schematic netlist not available"])%list) ∧
    (∀ netlist, CreateNetlist fr1 = Some netlist →
       effects s' =
         (effects s ++
          [wxFileDialog title path name wildcard; ClearMsgPanel; CallCreateNetlist;
           CallWriteNetListFile (Some netlist) (m_IdNetType currPage) fullpath opt])%list) ∧
    config s' = saved_config s ∧
    pages s' = pages s ∧
    EndModal_code s' = Some wxID_OK.
Proof.
  intros Hwf Hsel Hpg Hready.
  destruct (GenNetlist_ok s p currPage (Some fullpath) Hwf Hsel Hpg Hready)
    as (f & opt & ext & title & path & wildcard & _ & _ & f' & Hrun).
  cbv zeta in Hrun.
  eexists. exists (SetNetListerCommand (default "" (m_CommandStringCtrl currPage)) f).
  exists title, path, (proposed_name ext), wildcard, opt.
  split; [exact Hrun|]. cbn [effects config pages EndModal_code set_EndModal_code
                             set_config set_frame set_effects].
  split; [done|]. split; [by intros ->|]. split; [by intros netlist ->|]. done.
Qed.

(** C7: RunSimulator trims the white space at both ends of the command text
    of the Spice page; the executable is what stands before the first space
    of the trimmed text and the arguments are what stands after it (without
    a space, the executable is the whole text and there are no arguments);
    the file of the root sheet with the extension cir, in double quotes, is
    appended to the arguments after a space; the simulator is executed when
    WriteNetListFile of the parent frame returns true and only then. *)
Theorem RunSimulator_command s p currPage :
  wf s → selection s = Some p → pages s !! p = Some currPage →
  ∃ spice text fr1 opt s',
    pages s !! PANELSPICE = Some spice ∧ m_CommandStringCtrl spice = Some text ∧
    RunSimulator s = Some (tt, s') ∧
    let tmp := Trim true (Trim false text) in
    let ExecFile := BeforeFirst " " tmp in
    let args := AfterFirst " " tmp in
    let netlist := CreateNetlist fr1 in
    let id := m_IdNetType currPage in
    (∃ l r, text = l +:+ tmp +:+ r ∧ all_space l = true ∧ all_space r = true
            ∧ first_is_space tmp = false ∧ last_is_space tmp = false) ∧
    (contains " " tmp = true →
       tmp = ExecFile +:+ String " " args ∧ contains " " ExecFile = false) ∧
    (contains " " tmp = false → ExecFile = tmp ∧ args = "") ∧
    fn_ext (SetExt "cir" (wxFileName_of RootFileName)) = "cir" ∧
    fn_name (SetExt "cir" (wxFileName_of RootFileName)) = fn_name (wxFileName_of RootFileName) ∧
    (WriteNetListFile fr1 netlist id simulator_netlist opt = true →
       effects s' =
         (effects s ++
          [CallCreateNetlist; CallWriteNetListFile netlist id simulator_netlist opt;
           ExecuteFile ExecFile (args +:+ " " +:+ quoted simulator_netlist)])%list) ∧
    (WriteNetListFile fr1 netlist id simulator_netlist opt = false →
       effects s' =
         (effects s ++
          [CallCreateNetlist; CallWriteNetListFile netlist id simulator_netlist opt])%list).
Proof.
  intros Hwf Hsel Hpg.
  destruct (RunSimulator_ok s p currPage Hwf Hsel Hpg)
    as (spice & text & fr1 & Hspice & Hcmd & _ & Hrun).
  exists spice, text, fr1. do 2 eexists.
  split; [done|]. split; [done|]. split; [exact Hrun|]. cbv zeta.
  split; [apply Trim_both_spec|].
  destruct (BeforeFirst_AfterFirst " " (Trim true (Trim false text))) as [Ht Hf].
  split; [done|]. split; [done|]. split; [done|]. split; [done|].
  cbn [effects set_effects]. split; intros ->; done.
Qed.

(** C8: the OK handler of the add-generator dialog does not end the dialog
    while the command or the title is empty, so that the dialog returns
    wxID_OK only with both not empty; OnAddGenerator, when the title is the
    format name of a custom page already installed, shows This plugin
    already exists. Abort and changes neither the array of pages, nor the
    pages, nor the stored configuration; it only adds a page when the
    dialog returned wxID_OK with a command and a title that are not empty
    and the title differs from the format name of every custom page. *)
Theorem OnAddGenerator_validates sub s :
  wxID_OK ≠ wxID_CANCEL → wf s →
  let dlg := add_ShowModal sub new_NETLIST_DIALOG_ADD_GENERATOR in
  let title := GetGeneratorTitle dlg in
  let cmd := GetGeneratorTCommandLine dlg in
  (∀ d, m_textCtrlCommand d = "" ∨ m_textCtrlName d = "" →
        add_EndModal (OnOKClick d) = add_EndModal d) ∧
  (add_EndModal dlg = Some wxID_OK → cmd ≠ "" ∧ title ≠ "") ∧
  (add_EndModal dlg = Some wxID_OK →
   Exists (λ pg, GetPageNetFmtName pg = title) (custom_pages s) →
   ∃ s', OnAddGenerator sub s = Some (tt, s') ∧
     effects s' =
       (effects s ++ (wxMessageBox <$> add_messages dlg) ++
        [wxMessageBox "This plugin already exists. Abort"])%list ∧
     m_PanelNetType s' = m_PanelNetType s ∧ pages s' = pages s ∧
     config s' = config s ∧ EndModal_code s' = EndModal_code s) ∧
  (∀ s', OnAddGenerator sub s = Some (tt, s') →
     pages s' ≠ pages s ∨ m_PanelNetType s' ≠ m_PanelNetType s ∨ config s' ≠ config s →
     add_EndModal dlg = Some wxID_OK ∧ cmd ≠ "" ∧ title ≠ "" ∧
     Forall (λ pg, GetPageNetFmtName pg ≠ title) (custom_pages s)) ∧
  (add_EndModal dlg = Some wxID_OK →
   Forall (λ pg, GetPageNetFmtName pg ≠ title) (custom_pages s) →
   (length (pages s) < PANELCUSTOMBASE + CUSTOMPANEL_COUNTMAX)%nat →
   ∃ s' id chk, OnAddGenerator sub s = Some (tt, s') ∧
     pages s' = (pages s ++ [custom_page title cmd id chk])%list ∧
     m_PanelNetType s' !! length (pages s) = Some (Some (length (pages s))) ∧
     EndModal_code s' = Some NET_PLUGIN_CHANGE).
Proof.
  intros Hne Hwf dlg title cmd.
  pose proof (OnAddGenerator_run sub s Hwf) as Hrun. cbv zeta in Hrun.
  fold dlg title cmd in Hrun.
  assert (Hfields : add_EndModal dlg = Some wxID_OK → cmd ≠ "" ∧ title ≠ "").
  { intros Hok. destruct (add_ShowModal_OK sub new_NETLIST_DIALOG_ADD_GENERATOR Hne eq_refl Hok). done. }
  split; [|split; [done|split; [|split]]].
  - intros d Hempty. rewrite OnOKClick_EndModal. by rewrite bool_decide_eq_true_2.
  - intros Hok Hdup. rewrite bool_decide_eq_false_2 in Hrun by (by intros ?).
    rewrite decide_True in Hrun by done.
    eexists. split; [exact Hrun|]. cbn [effects set_effects m_PanelNetType pages config
                                       EndModal_code].
    by rewrite <- app_assoc.
  - intros s' Hs' Hchanged. rewrite Hrun in Hs'. clear Hrun.
    case_bool_decide as Hok.
    { injection Hs' as <-. exfalso. destruct Hchanged as [?|[?|?]]; done. }
    match type of Hs' with context [decide (Exists ?P ?l)] =>
      destruct (decide (Exists P l)) as [Hdup|Hdup] end.
    { injection Hs' as <-. exfalso. destruct Hchanged as [?|[?|?]]; done. }
    destruct (Hfields Hok). repeat split; try done.
    apply not_Exists_Forall in Hdup; [done|]. intros pg. apply _.
  - intros Hok Hnodup Hfull.
    rewrite bool_decide_eq_false_2 in Hrun by (by intros ?).
    rewrite decide_False in Hrun.
    2: { intros Hdup. apply Exists_exists in Hdup as (pg & Hin & Heq).
         rewrite Forall_forall in Hnodup. by apply (Hnodup pg). }
    rewrite decide_True in Hrun by done. cbv zeta in Hrun.
    rewrite (bind_Some _ _ _ _ _ (run_AddOneCustomPage _ _ _ _)) in Hrun.
    cbv zeta in Hrun. revert Hrun. msimpl. intros Hrun.
    cbn [pages set_effects m_PanelNetType set_asFormatSelected set_selection set_pages
         m_DefaultNetFmtName] in Hrun.
    match type of Hrun with context [bind WriteCurrentNetlistSetup _ ?s2] =>
      assert (Hwf2 : wf s2) by (by apply (wf_add_page s));
      destruct (WriteCurrentNetlistSetup_saves s2 Hwf2) as [f Hw] end.
    rewrite (bind_Some _ _ _ _ _ Hw) in Hrun.
    do 3 eexists. split; [exact Hrun|].
    cbn [pages m_PanelNetType EndModal_code set_EndModal_code set_config set_frame
         set_PanelNetType set_pages set_asFormatSelected set_selection set_effects].
    split; [done|]. split; [|done].
    apply list_lookup_insert_eq. destruct Hwf as (-> & _).
    rewrite length_app, length_fmap, length_seq, length_replicate. lia.
Qed.

(** C9: OnDelGenerator empties the title and the command of the current
    custom page; when the check box Default format of that page was set it
    clears it and sets that of the Pcbnew page, so that a dialog with a
    page marked as default still has one; it then saves the setup and ends
    the dialog with NET_PLUGIN_CHANGE. *)
Theorem OnDelGenerator_keeps_default s p currPage :
  wf s → selection s = Some p → pages s !! p = Some currPage →
  has_custom_widgets currPage →
  ∃ s', OnDelGenerator s = Some (tt, s') ∧
    (∃ pg, pages s' !! p = Some pg ∧
       m_CommandStringCtrl pg = Some "" ∧ m_TitleStringCtrl pg = Some "") ∧
    (m_IsCurrentFormat currPage = true →
       (∃ pcbnew, pages s' !! PANELPCBNEW = Some pcbnew ∧ m_IsCurrentFormat pcbnew = true) ∧
       (p ≠ PANELPCBNEW → ∃ pg, pages s' !! p = Some pg ∧ m_IsCurrentFormat pg = false)) ∧
    (m_IsCurrentFormat currPage = false →
       ∀ q : nat, m_IsCurrentFormat <$> pages s' !! q = m_IsCurrentFormat <$> pages s !! q) ∧
    ((∃ pg, pg ∈ pages s ∧ m_IsCurrentFormat pg = true) →
     ∃ pg, pg ∈ pages s' ∧ m_IsCurrentFormat pg = true) ∧
    config s' = saved_config (set_pages (pages s') s) ∧
    EndModal_code s' = Some NET_PLUGIN_CHANGE.
Proof.
  intros Hwf Hsel Hpg Hw.
  destruct (OnDelGenerator_ok s p currPage Hwf Hsel Hpg Hw) as [f Hrun].
  cbv zeta in Hrun. eexists. split; [exact Hrun|]. clear Hrun.
  cbn [pages config EndModal_code set_EndModal_code set_config set_frame set_pages].
  pose proof (lookup_lt_Some _ _ _ Hpg) as Hlt.
  assert (Hpcb0 : (PANELPCBNEW < length (pages s))%nat).
  { destruct Hwf as (_ & Hlen & _). unfold PANELPCBNEW, PANELCUSTOMBASE in *. lia. }
  unfold pages_after_delete.
  set (cleared := set_TitleStringCtrl (Some "") (set_CommandStringCtrl (Some "") currPage)).
  set (pgs2 := <[p := set_IsCurrentFormat false cleared]> (<[p := cleared]> (pages s))).
  destruct (lookup_lt_is_Some_2 pgs2 PANELPCBNEW ltac:(subst pgs2; by rewrite !length_insert))
    as [pcb Hpcb].
  rewrite Hpcb.
  assert (Hchecked : m_IsCurrentFormat currPage = true →
    (∃ pcbnew, <[PANELPCBNEW := set_IsCurrentFormat true pcb]> pgs2 !! PANELPCBNEW = Some pcbnew
               ∧ m_IsCurrentFormat pcbnew = true)).
  { intros _. eexists. split; [|shelve].
    apply list_lookup_insert_eq. subst pgs2. by rewrite !length_insert. }
  split; [|split; [|split; [|split; [|done]]]].
  - destruct (m_IsCurrentFormat currPage).
    + destruct (decide (p = PANELPCBNEW)) as [->|Hne].
      * eexists. split; [apply list_lookup_insert_eq; subst pgs2; by rewrite !length_insert|].
        subst pgs2. rewrite list_lookup_insert_eq in Hpcb by (by rewrite length_insert).
        by injection Hpcb as <-.
      * eexists. split; [|shelve]. rewrite list_lookup_insert_ne by done.
        subst pgs2. apply list_lookup_insert_eq. by rewrite length_insert.
    + eexists. split; [by apply list_lookup_insert_eq|done].
  - intros Hc. rewrite Hc. split; [by apply Hchecked|].
    intros Hne. eexists. split; [|shelve]. rewrite list_lookup_insert_ne by done.
    subst pgs2. apply list_lookup_insert_eq. by rewrite length_insert.
  - intros Hc. rewrite Hc. intros q. destruct (decide (q = p)) as [->|Hne].
    + rewrite list_lookup_insert_eq by done. rewrite Hpg. simpl. by rewrite Hc.
    + by rewrite list_lookup_insert_ne by done.
  - intros (pg & Hin & Hc).
    destruct (m_IsCurrentFormat currPage) eqn:Hcur.
    + destruct (Hchecked eq_refl) as (pcbnew & Hl & Hcb).
      exists pcbnew. split; [|done]. apply list_elem_of_lookup. by exists PANELPCBNEW.
    + apply list_elem_of_lookup in Hin as [q Hq].
      destruct (decide (q = p)) as [->|Hne]; [congruence|].
      exists pg. split; [|done]. apply list_elem_of_lookup. exists q.
      by rewrite list_lookup_insert_ne by done.
  Unshelve. all: done.
Qed.

(** C10: InvokeDialogNetList, whatever the dialog did and returned, stores
    the final m_DefaultNetFmtName of the dialog as the format name of the
    calling frame; it calls SaveProjectSettings when this name differs from
    the format name that the frame had when the dialog was opened, and
    does not call it when the name is the same. *)
Theorem InvokeDialogNetList_saves_on_change fr cfg idx evs :
  (∃ s0, NETLIST_DIALOG_ctor (new_NETLIST_DIALOG fr cfg idx) = Some (tt, s0)) ∧
  ∀ s0, NETLIST_DIALOG_ctor (new_NETLIST_DIALOG fr cfg idx) = Some (tt, s0) →
    frame s0 = fr ∧
    (ShowModal evs s0 = None →
       InvokeDialogNetList evs (new_NETLIST_DIALOG fr cfg idx) = None) ∧
    ∀ ret s1, ShowModal evs s0 = Some (ret, s1) →
      ∃ s2, InvokeDialogNetList evs (new_NETLIST_DIALOG fr cfg idx) = Some (ret, s2) ∧
        NetListFormatName (frame s2) = m_DefaultNetFmtName s1 ∧
        (NetListFormatName fr ≠ m_DefaultNetFmtName s1 →
           effects s2 = (effects s1 ++ [SaveProjectSettings])%list) ∧
        (NetListFormatName fr = m_DefaultNetFmtName s1 → effects s2 = effects s1) ∧
        config s2 = config s1.
Proof.
  destruct (NETLIST_DIALOG_ctor_ok fr cfg idx) as (s & Hs & _ & _ & Hfr & _).
  split; [by exists s|]. intros s0 Hctor.
  assert (s0 = s) as -> by congruence. clear Hs.
  split; [done|]. split.
  - intros Hnone. unfold InvokeDialogNetList. rewrite (bind_Some _ _ _ _ _ Hctor).
    msimpl. unfold bind at 1. by rewrite Hnone.
  - intros ret s1 Hs1. unfold InvokeDialogNetList. rewrite (bind_Some _ _ _ _ _ Hctor).
    msimpl. rewrite (bind_Some _ _ _ _ _ Hs1). msimpl. rewrite Hfr.
    cbn [m_DefaultNetFmtName set_frame].
    case_bool_decide as Hd; msimpl.
    + eexists. split; [reflexivity|].
      cbn [frame effects config set_frame set_effects]. by repeat split.
    + eexists. split; [reflexivity|].
      cbn [frame effects config set_frame set_effects].
      by repeat split.
Qed.

(** ** What the handlers keep *)

Lemma preserves_pure {A} P (a : A) : preserves P (pure a).
Proof. by intros s b s' HP [= _ <-]. Qed.

Lemma preserves_get P : preserves P get.
Proof. by intros s b s' HP [= _ <-]. Qed.

Lemma preserves_deref {A} P (p : option A) : preserves P (deref p).
Proof. intros s b s' HP. unfold deref. destruct p; [|done]. by intros [= _ <-]. Qed.

Lemma preserves_modify P f : (∀ s, P s → P (f s)) → preserves P (modify f).
Proof. intros Hf s b s' HP [= _ <-]. by apply Hf. Qed.

Lemma preserves_bind {A B} P (c : M A) (k : A → M B) :
  preserves P c → (∀ a, preserves P (k a)) → preserves P (bind c k).
Proof.
  intros Hc Hk s b s'' HP Hr. apply bind_inv in Hr as (a & s' & Hr & Hr').
  eapply Hk; [|done]. by eapply Hc.
Qed.

Lemma preserves_page_at P p : preserves P (page_at p).
Proof. apply preserves_bind; [apply preserves_get|]. intros s. apply preserves_deref. Qed.

Lemma preserves_panel P ii : preserves P (panel ii).
Proof. apply preserves_bind; [apply preserves_get|]. intros s. apply preserves_deref. Qed.

Lemma preserves_config_Read P key : preserves P (config_Read key).
Proof. apply preserves_bind; [apply preserves_get|]. intros s. apply preserves_pure. Qed.

Lemma preserves_GetCurrentPage P : preserves P GetCurrentPage.
Proof. apply preserves_bind; [apply preserves_get|]. intros s. apply preserves_pure. Qed.

Lemma selection_ok_update_page p f : preserves selection_ok (update_page p f).
Proof.
  apply preserves_bind; [apply preserves_page_at|]. intros pg.
  apply preserves_modify. intros s. unfold selection_ok. cbn [selection pages set_pages].
  destruct (selection s); [by rewrite length_insert|].
  intros Hn. rewrite Hn. by destruct p.
Qed.

Lemma wf_update_page p f :
  (∀ pg, keeps_widgets pg (f pg)) → preserves wf (update_page p f).
Proof.
  intros Hf s b s'' HP Hr. apply bind_inv in Hr as (pg & s' & Hr & Hr').
  apply bind_inv in Hr as (s1 & s2 & [= <- <-] & Hr).
  unfold deref in Hr. destruct (pages s !! p) as [pg'|] eqn:Hp; [|done].
  injection Hr as <- <-. injection Hr' as _ <-.
  apply wf_set_pages; [done|].
  eapply (Forall2_keeps_insert _ _ _ pg'); [apply Forall2_keeps_refl|done|apply Hf].
Qed.


Lemma update_page_inv p f s a s' :
  update_page p f s = Some (a, s') →
  ∃ pg, pages s !! p = Some pg ∧ s' = set_pages (<[p := f pg]> (pages s)) s.
Proof.
  intros Hr. apply bind_inv in Hr as (pg & s1 & Hr & Hr').
  apply bind_inv in Hr as (s2 & s3 & [= <- <-] & Hr).
  unfold deref in Hr. destruct (pages s !! p) as [pg'|] eqn:Hp; [|done].
  injection Hr as <- <-. injection Hr' as _ <-. by exists pg'.
Qed.

Ltac pres_step lem :=
  first
    [ lem
    | apply preserves_pure | apply preserves_get | apply preserves_deref
    | apply preserves_page_at | apply preserves_panel
    | apply preserves_config_Read | apply preserves_GetCurrentPage
    | apply preserves_modify; let s := fresh "s" in let Hs := fresh "Hs" in
      intros s Hs; exact Hs
    | match goal with
      | |- preserves _ (bind _ _) => apply preserves_bind; [|intros ?]
      | |- preserves _ (if ?b then _ else _) => destruct b
      | |- preserves _ (match ?x with _ => _ end) => destruct x
      end ].

Ltac selection_lemmas := apply selection_ok_update_page.

Lemma selection_ok_AddPage pg selected : preserves selection_ok (AddPage pg selected).
Proof.
  intros s a s' HP Hr. unfold AddPage in Hr. revert Hr. msimpl. intros [= _ <-].
  unfold selection_ok in *. cbn [selection pages set_pages set_selection].
  rewrite length_app. simpl.
  destruct selected; [lia|]. destruct (selection s); lia.
Qed.

Ltac selection_step :=
  pres_step ltac:(first [ apply selection_ok_update_page | apply selection_ok_AddPage ]).

Lemma selection_ok_new_page title id :
  preserves selection_ok (new_NETLIST_PAGE_DIALOG title id).
Proof. unfold new_NETLIST_PAGE_DIALOG. repeat selection_step. Qed.

Lemma selection_ok_InstallPageSpice : preserves selection_ok InstallPageSpice.
Proof.
  unfold InstallPageSpice.
  repeat pres_step ltac:(first [ apply selection_ok_update_page | apply selection_ok_new_page ]).
Qed.

Lemma selection_ok_AddOneCustomPage t c id :
  preserves selection_ok (AddOneCustomPage t c id).
Proof.
  unfold AddOneCustomPage.
  repeat pres_step ltac:(first [ apply selection_ok_update_page | apply selection_ok_new_page ]).
Qed.

Lemma selection_ok_InstallCustomPages_loop iis :
  preserves selection_ok (InstallCustomPages_loop iis).
Proof.
  induction iis as [|ii iis IH]; simpl; [apply preserves_pure|].
  unfold UserNetlistTypeName.
  repeat pres_step ltac:(first [ apply IH | apply selection_ok_AddOneCustomPage ]).
Qed.

Lemma selection_ok_OnNetlistTypeSelection : preserves selection_ok OnNetlistTypeSelection.
Proof. unfold OnNetlistTypeSelection. repeat selection_step. Qed.

Lemma NETLIST_DIALOG_ctor_selection fr cfg idx s' :
  NETLIST_DIALOG_ctor (new_NETLIST_DIALOG fr cfg idx) = Some (tt, s') → selection_ok s'.
Proof.
  assert (Hc : preserves selection_ok NETLIST_DIALOG_ctor).
  { unfold NETLIST_DIALOG_ctor.
    do 13 (apply preserves_bind;
           [repeat pres_step ltac:(first [ apply selection_ok_new_page
                                         | apply selection_ok_InstallPageSpice
                                         | apply selection_ok_InstallCustomPages_loop ])
           |intros ?]).
    match goal with |- preserves _ (if ?b then _ else _) => destruct b end;
      [apply preserves_pure|].
    intros s b s2 _ Hr.
    apply bind_inv in Hr as (q & s1 & Hq & Hr).
    apply bind_inv in Hr as (p & s1' & Hp & Hr).
    apply bind_inv in Hr as ([] & s3 & Hu & Hr).
    apply update_page_inv in Hu as (pg & Hpg & ->).
    revert Hr. rewrite bind_modify.
    assert (Hk : preserves selection_ok
      (bind (page_at p) (λ pg0, bind (modify (set_DefaultNetFmtName (GetPageNetFmtName pg0)))
         (λ _, OnNetlistTypeSelection))))
      by repeat pres_step ltac:(apply selection_ok_OnNetlistTypeSelection).
    apply Hk. unfold selection_ok. cbn [selection pages set_pages set_selection].
    rewrite length_insert. apply lookup_lt_Some in Hpg. unfold PANELPCBNEW. lia. }
  apply Hc. reflexivity.
Qed.


Section Kept.

Variable P : state → Prop.

Hypothesis P_layout : ∀ s s',
  pages s' = pages s → selection s' = selection s →
  m_PanelNetType s' = m_PanelNetType s → EndModal_code s' = EndModal_code s →
  P s → P s'.

Hypothesis P_update_page : ∀ p f,
  (∀ pg, keeps_widgets pg (f pg)) → preserves P (update_page p f).

Hypothesis P_EndModal : ∀ code,
  code = wxID_OK ∨ code = NET_PLUGIN_CHANGE → preserves P (EndModal code).

Lemma kept_modify f :
  (∀ s, pages (f s) = pages s ∧ selection (f s) = selection s
        ∧ m_PanelNetType (f s) = m_PanelNetType s
        ∧ EndModal_code (f s) = EndModal_code s) →
  preserves P (modify f).
Proof.
  intros Hf. apply preserves_modify. intros s. destruct (Hf s) as (? & ? & ? & ?).
  by apply P_layout.
Qed.

Ltac kept_step lem :=
  pres_step ltac:(first
    [ lem
    | apply P_EndModal; auto
    | apply kept_modify; intros ?; repeat split; reflexivity
    | apply P_update_page; intros ?; repeat split; (done || (intros _; by eexists)) ]).

Lemma kept_OnNetlistTypeSelection : preserves P OnNetlistTypeSelection.
Proof. unfold OnNetlistTypeSelection. repeat kept_step fail. Qed.

Lemma kept_SelectDefaultNetlistType_loop iis :
  preserves P (SelectDefaultNetlistType_loop iis).
Proof.
  induction iis as [|ii iis IH]; simpl; [apply preserves_pure|].
  repeat kept_step ltac:(apply IH).
Qed.

Lemma kept_SelectDefaultNetlistType : preserves P SelectDefaultNetlistType.
Proof.
  unfold SelectDefaultNetlistType.
  repeat kept_step ltac:(apply kept_SelectDefaultNetlistType_loop).
Qed.

Lemma kept_NetlistUpdateOpt_loop iis : preserves P (NetlistUpdateOpt_loop iis).
Proof.
  induction iis as [|ii iis IH]; simpl; [apply preserves_pure|].
  repeat kept_step ltac:(apply IH).
Qed.

Lemma kept_NetlistUpdateOpt : preserves P NetlistUpdateOpt.
Proof.
  unfold NetlistUpdateOpt. repeat kept_step ltac:(apply kept_NetlistUpdateOpt_loop).
Qed.

Lemma kept_WriteCurrentNetlistSetup_pages iis :
  ∀ jj, preserves P (WriteCurrentNetlistSetup_pages iis jj).
Proof.
  induction iis as [|ii iis IH]; intros jj; simpl; [apply preserves_pure|].
  repeat kept_step ltac:(apply IH).
Qed.

Lemma kept_WriteCurrentNetlistSetup_void jjs :
  preserves P (WriteCurrentNetlistSetup_void jjs).
Proof.
  induction jjs as [|jj jjs IH]; simpl; [apply preserves_pure|].
  repeat kept_step ltac:(apply IH).
Qed.

Lemma kept_WriteCurrentNetlistSetup : preserves P WriteCurrentNetlistSetup.
Proof.
  unfold WriteCurrentNetlistSetup.
  repeat kept_step ltac:(first [ apply kept_NetlistUpdateOpt
                               | apply kept_WriteCurrentNetlistSetup_pages
                               | apply kept_WriteCurrentNetlistSetup_void ]).
Qed.

Lemma kept_GenNetlist_switch pg ext title : preserves P (GenNetlist_switch pg ext title).
Proof. unfold GenNetlist_switch. repeat kept_step fail. Qed.

Lemma kept_GenNetlist answer : preserves P (GenNetlist answer).
Proof.
  unfold GenNetlist.
  repeat kept_step ltac:(first [ apply kept_NetlistUpdateOpt
                               | apply kept_GenNetlist_switch
                               | apply kept_WriteCurrentNetlistSetup ]).
Qed.

Lemma kept_RunSimulator : preserves P RunSimulator.
Proof.
  unfold RunSimulator. repeat kept_step ltac:(apply kept_NetlistUpdateOpt).
Qed.

Lemma kept_OnDelGenerator : preserves P OnDelGenerator.
Proof.
  unfold OnDelGenerator. repeat kept_step ltac:(apply kept_WriteCurrentNetlistSetup).
Qed.

Lemma kept_on_current_page f :
  (∀ pg, keeps_widgets pg (f pg)) → preserves P (on_current_page f).
Proof.
  intros Hf. unfold on_current_page.
  repeat kept_step ltac:(by apply P_update_page).
Qed.

End Kept.


Lemma wf_layout s s' :
  pages s' = pages s → m_PanelNetType s' = m_PanelNetType s → wf s → wf s'.
Proof. unfold wf, spice_page_ok, custom_pages. by intros -> ->. Qed.

Lemma open_layout s s' :
  pages s' = pages s → selection s' = selection s →
  m_PanelNetType s' = m_PanelNetType s → EndModal_code s' = EndModal_code s →
  wf s ∧ selection_ok s → wf s' ∧ selection_ok s'.
Proof.
  intros Hp Hs Hn _ [Hwf Hsel]. split; [by eapply wf_layout|].
  unfold selection_ok in *. by rewrite Hp, Hs.
Qed.

Lemma open_update_page p f :
  (∀ pg, keeps_widgets pg (f pg)) →
  preserves (λ s, wf s ∧ selection_ok s) (update_page p f).
Proof.
  intros Hf s a s' [Hwf Hsel] Hr. split.
  - by eapply (wf_update_page p f Hf).
  - by eapply (selection_ok_update_page p f).
Qed.

Lemma open_EndModal code :
  code = wxID_OK ∨ code = NET_PLUGIN_CHANGE →
  preserves (λ s, wf s ∧ selection_ok s) (EndModal code).
Proof. intros _. apply preserves_modify. by intros s. Qed.

Lemma wf_current_page s :
  wf s → selection_ok s → ∃ p pg, selection s = Some p ∧ pages s !! p = Some pg.
Proof.
  intros (_ & Hlen & _) Hsel. unfold selection_ok in Hsel.
  destruct (selection s) as [p|].
  - destruct (lookup_lt_is_Some_2 (pages s) p Hsel) as [pg Hpg]. by exists p, pg.
  - rewrite Hsel in Hlen. simpl in Hlen. unfold PANELCUSTOMBASE in Hlen. lia.
Qed.

Lemma dispatch_keeps e s s' :
  wf s → selection_ok s → dispatch e s = Some (tt, s') →
  (wf s' ∧ selection_ok s') ∨ is_Some (EndModal_code s').
Proof.
  intros Hwf Hsel Hr.
  pose proof (conj Hwf Hsel) as Hopen.
  destruct e as [n|v|v| | |answer| |sub| | ]; simpl in Hr.
  - left. revert Hr. rewrite bind_get. case_decide as Hn; [|by intros [= <-]].
    rewrite bind_modify. intros Hr.
    eapply (kept_OnNetlistTypeSelection _ open_layout); [|done].
    split; [by eapply wf_layout|]. done.
  - left. eapply (kept_on_current_page _ open_layout open_update_page); [|done|done].
    intros pg. repeat split; try done. simpl. intros [x ->]. by eexists.
  - left. eapply (kept_on_current_page _ open_layout open_update_page); [|done|done].
    intros pg. repeat split; try done. simpl. intros [x ->]. by eexists.
  - left. eapply (kept_on_current_page _ open_layout open_update_page); [|done|done].
    intros pg. repeat split; try done. simpl. intros [x ->]. by eexists.
  - left. apply bind_inv in Hr as ([] & s1 & Hr1 & Hr).
    eapply (kept_SelectDefaultNetlistType _ open_layout open_update_page); [|done].
    eapply (kept_on_current_page _ open_layout open_update_page); [|done|done].
    intros pg. by repeat split.
  - left. by eapply (kept_GenNetlist _ open_layout open_EndModal).
  - left. by eapply (kept_RunSimulator _ open_layout).
  - rewrite (OnAddGenerator_run sub s Hwf) in Hr. cbv zeta in Hr.
    case_bool_decide.
    { left. injection Hr as <-. by eapply open_layout. }
    case_decide.
    { left. injection Hr as <-. by eapply open_layout. }
    right.
    apply bind_inv in Hr as (cp & s1 & _ & Hr).
    apply bind_inv in Hr as ([] & s2 & _ & Hr).
    apply bind_inv in Hr as ([] & s3 & _ & Hr).
    injection Hr as <-. by eexists.
  - left. by eapply (kept_OnDelGenerator _ open_layout open_update_page open_EndModal).
  - right. injection Hr as <-. by eexists.
Qed.


Lemma dispatched_from_open s0 s :
  wf s0 → selection_ok s0 → dispatched_from s0 s →
  EndModal_code s = None → wf s ∧ selection_ok s.
Proof.
  intros Hwf Hsel Hd. induction Hd as [|s e s' Hd IH Hopen Hr]; [done|].
  intros Hnone. destruct (IH Hopen) as [Hwf' Hsel'].
  destruct (dispatch_keeps e s s' Hwf' Hsel' Hr) as [?|[c Hc]]; [done|].
  by rewrite Hc in Hnone.
Qed.

(** X1: every handler finds the dialog as the constructor leaves it.  In
    each dialog that the event loop reaches from the constructed one and
    that is still open, slot [ii] of [m_PanelNetType] points to page [ii] of
    the notebook and the slots after the last page are NULL, the Spice page
    and the custom pages have their widgets, and the notebook has a current
    page. *)
Theorem event_loop_keeps_dialog fr cfg idx s0 s :
  NETLIST_DIALOG_ctor (new_NETLIST_DIALOG fr cfg idx) = Some (tt, s0) →
  dispatched_from s0 s → EndModal_code s = None →
  wf s ∧ ∃ p pg, selection s = Some p ∧ pages s !! p = Some pg.
Proof.
  intros Hctor Hd Hnone.
  destruct (dispatched_from_open s0 s) as [Hwf Hsel]; try done.
  - by eapply NETLIST_DIALOG_ctor_wf.
  - by eapply NETLIST_DIALOG_ctor_selection.
  - split; [done|]. by apply wf_current_page.
Qed.

(** ** A saved setup read again *)

Lemma leading_slots_seq cfg (n k : nat) : ∀ a : nat,
  (k ≤ n)%nat →
  (∀ ii, (a ≤ ii < a + k)%nat → stored_title cfg ii ≠ "") →
  ((k < n)%nat → stored_title cfg (a + k) = "") →
  leading_slots cfg (seq a n) = k.
Proof.
  revert k. induction n as [|n IH]; intros k a Hk Hfull Hend; simpl.
  - lia.
  - destruct k as [|k].
    + rewrite Nat.add_0_r in Hend. rewrite Hend by lia. done.
    + destruct (IsEmpty _) eqn:He.
      * apply IsEmpty_true in He. by destruct (Hfull a ltac:(lia)).
      * f_equal. apply IH; [lia| |].
        -- intros ii Hii. apply Hfull. lia.
        -- intros Hlt. replace (S a + k)%nat with (a + S k)%nat by lia. apply Hend. lia.
Qed.

Lemma kept_setups_title s (j : nat) title command :
  kept_setups s !! j = Some (title, command) → title ≠ "".
Proof.
  intros Hj. apply list_elem_of_lookup_2 in Hj.
  unfold kept_setups in Hj. by apply list_elem_of_filter in Hj as [? _].
Qed.

Lemma saved_config_title s (ii : nat) :
  (ii < CUSTOMPANEL_COUNTMAX)%nat → wf s →
  stored_title (saved_config s) ii = default "" (fst <$> kept_setups s !! ii).
Proof.
  intros Hii Hwf. pose proof (kept_setups_length s Hwf) as Hlen.
  unfold stored_title, saved_config. rewrite write_setups_title.
  rewrite decide_True by (rewrite length_app, length_replicate; lia).
  rewrite Nat.sub_0_r.
  destruct (decide (ii < length (kept_setups s))%nat) as [Hlt|Hge].
  - rewrite lookup_app_l by done. by destruct (kept_setups s !! ii).
  - rewrite lookup_app_r by lia. rewrite lookup_replicate_2 by lia.
    by rewrite lookup_ge_None_2 by lia.
Qed.

Lemma saved_config_command s (ii : nat) :
  (ii < CUSTOMPANEL_COUNTMAX)%nat → wf s →
  stored_command (saved_config s) ii = default "" (snd <$> kept_setups s !! ii).
Proof.
  intros Hii Hwf. pose proof (kept_setups_length s Hwf) as Hlen.
  unfold stored_command, saved_config. rewrite write_setups_command.
  rewrite decide_True by (rewrite length_app, length_replicate; lia).
  rewrite Nat.sub_0_r.
  destruct (decide (ii < length (kept_setups s))%nat) as [Hlt|Hge].
  - rewrite lookup_app_l by done. by destruct (kept_setups s !! ii).
  - rewrite lookup_app_r by lia. rewrite lookup_replicate_2 by lia.
    by rewrite lookup_ge_None_2 by lia.
Qed.

Lemma saved_config_slots s :
  wf s →
  leading_slots (saved_config s) (seq 0 CUSTOMPANEL_COUNTMAX) = length (kept_setups s).
Proof.
  intros Hwf. pose proof (kept_setups_length s Hwf) as Hlen.
  apply leading_slots_seq; [done| |].
  - intros ii Hii. rewrite saved_config_title by (done || lia).
    destruct (lookup_lt_is_Some_2 (kept_setups s) ii ltac:(lia)) as [[t c] Htc].
    rewrite Htc. simpl. by eapply kept_setups_title.
  - intros Hlt. rewrite saved_config_title by (done || lia).
    by rewrite lookup_ge_None_2 by lia.
Qed.

Lemma NETLIST_DIALOG_ctor_custom fr cfg idx s' :
  NETLIST_DIALOG_ctor (new_NETLIST_DIALOG fr cfg idx) = Some (tt, s') →
  custom_pages s' =
    stored_page cfg (NetListFormatName fr) <$>
      seq 0 (leading_slots cfg (seq 0 CUSTOMPANEL_COUNTMAX)).
Proof.
  destruct (NETLIST_DIALOG_ctor_ok fr cfg idx) as (s & -> & Hp & _).
  intros [= <-]. cbv zeta in Hp. unfold custom_pages. rewrite Hp.
  destruct (existsb m_IsCurrentFormat _); unfold built_pages;
    set (k := leading_slots cfg (seq 0 CUSTOMPANEL_COUNTMAX)); clearbody k;
    reflexivity.
Qed.

(** X2: a saved setup comes back.  After [WriteCurrentNetlistSetup] on a
    dialog, a dialog constructed from the configuration it leaves has one
    custom page for each custom page of the first dialog whose title was
    not empty, in the same order, with the same title and command in its
    controls, the title as its name, and the types NET_TYPE_CUSTOM1,
    NET_TYPE_CUSTOM1 + 1, ... in turn. *)
Theorem saved_setup_is_read_back s :
  wf s →
  ∃ s', WriteCurrentNetlistSetup s = Some (tt, s') ∧
    ∀ fr idx,
      ∃ s2, NETLIST_DIALOG_ctor (new_NETLIST_DIALOG fr (config s') idx) = Some (tt, s2) ∧
        page_setup <$> custom_pages s2 = kept_setups s ∧
        ∀ (ii : nat) pg, custom_pages s2 !! ii = Some pg →
          m_IdNetType pg = NET_TYPE_CUSTOM1 + Z.of_nat ii ∧
          GetPageNetFmtName pg = (page_setup pg).1.
Proof.
  intros Hwf. destruct (WriteCurrentNetlistSetup_ok s Hwf) as [f Hw].
  eexists. split; [exact Hw|]. intros fr idx.
  destruct (NETLIST_DIALOG_ctor_ok fr (saved_config s) idx) as (s2 & Hc & _).
  exists s2. split; [exact Hc|].
  pose proof (NETLIST_DIALOG_ctor_custom _ _ _ _ Hc) as Hcp.
  rewrite saved_config_slots in Hcp by done.
  pose proof (kept_setups_length s Hwf) as Hlen.
  rewrite Hcp. split.
  - apply list_eq. intros ii. rewrite !list_lookup_fmap.
    destruct (decide (ii < length (kept_setups s))%nat) as [Hlt|Hge].
    + rewrite lookup_seq_lt by done. simpl. unfold page_setup, stored_page. simpl.
      rewrite saved_config_title, saved_config_command by (done || lia).
      destruct (lookup_lt_is_Some_2 (kept_setups s) ii Hlt) as [[t c] ->]. done.
    + rewrite lookup_seq_ge by lia. by rewrite lookup_ge_None_2 by lia.
  - intros ii pg. rewrite list_lookup_fmap. intros Hpg.
    destruct (seq 0 (length (kept_setups s)) !! ii) as [x|] eqn:Hx; [|done].
    apply lookup_seq in Hx as [-> _]. injection Hpg as <-. done.
Qed.

(** ** The options that NetlistUpdateOpt gives to the frame *)

Lemma NetlistUpdateOpt_loop_frame n : ∀ a s,
  wf s → (a + n ≤ PANELCUSTOMBASE + CUSTOMPANEL_COUNTMAX)%nat →
  NetlistUpdateOpt_loop (seq a n) s =
    Some (tt, set_frame (fold_left note_format (take n (drop a (pages s))) (frame s)) s).
Proof.
  induction n as [|n IH]; intros a s Hwf Han; simpl.
  - by rewrite set_frame_id.
  - destruct (decide (a < length (pages s))%nat) as [Hlt|Hge].
    + rewrite (bind_Some _ _ _ _ _ (run_panel _ _ _ (wf_panel_page _ _ Hwf Hlt))).
      destruct (lookup_lt_is_Some_2 _ _ Hlt) as [pg Hpg].
      rewrite (bind_Some _ _ _ _ _ (run_page_at _ _ _ Hpg)).
      rewrite (drop_S _ _ _ Hpg). simpl.
      assert (Hn : note_format (frame s) pg =
                   if m_IsCurrentFormat pg
                   then SetNetListFormatName (GetPageNetFmtName pg) (frame s)
                   else frame s) by done.
      rewrite Hn. destruct (m_IsCurrentFormat pg); msimpl.
      * rewrite IH by (done || lia). done.
      * rewrite IH by (done || lia). done.
    + rewrite (bind_Some _ _ _ _ _ (run_panel _ _ _ (wf_panel_null s a Hwf ltac:(lia)))).
      rewrite drop_ge by lia. simpl. by rewrite set_frame_id.
Qed.

Lemma note_format_name pgs : ∀ f,
  NetListFormatName (fold_left note_format pgs f) =
    default (NetListFormatName f) (last (checked_names pgs)).
Proof.
  unfold checked_names.
  induction pgs as [|pg pgs IH]; intros f; simpl; [done|].
  rewrite IH. unfold note_format.
  destruct (m_IsCurrentFormat pg) eqn:Hc.
  - rewrite filter_cons_True by done. rewrite fmap_cons, last_cons. simpl.
    by destruct (last _).
  - rewrite filter_cons_False by (by rewrite Hc). done.
Qed.

Lemma note_format_other pgs : ∀ f,
  SimulatorCommand (fold_left note_format pgs f) = SimulatorCommand f
  ∧ SpiceAjustPassiveValues (fold_left note_format pgs f) = SpiceAjustPassiveValues f
  ∧ NetListerCommand (fold_left note_format pgs f) = NetListerCommand f.
Proof.
  induction pgs as [|pg pgs IH]; intros f; simpl; [done|].
  destruct (IH (note_format f pg)) as (-> & -> & ->).
  unfold note_format. by destruct (m_IsCurrentFormat pg).
Qed.

(** X3: what [NetlistUpdateOpt] gives to the parent frame.  The Spice
    option and the simulator command are those of the Spice page; the
    format name is the name of the last page, in notebook order, whose
    default check box is set, and the empty string when no box is set; the
    command of the netlister and the dialog itself stay as they are. *)
Theorem NetlistUpdateOpt_frame s :
  wf s →
  ∃ spice chk cmd s',
    pages s !! PANELSPICE = Some spice ∧
    m_SpiceAjustPassiveValues spice = Some chk ∧ m_CommandStringCtrl spice = Some cmd ∧
    NetlistUpdateOpt s = Some (tt, s') ∧
    s' = set_frame (frame s') s ∧
    SpiceAjustPassiveValues (frame s') = chk ∧
    SimulatorCommand (frame s') = cmd ∧
    NetListerCommand (frame s') = NetListerCommand (frame s) ∧
    NetListFormatName (frame s') = default "" (last (checked_names (pages s))).
Proof.
  intros Hwf. destruct (wf_spice s Hwf) as (pg & chk & cmd & Hpg & Hchk & Hcmd).
  assert (Hlt : (PANELSPICE < length (pages s))%nat) by (by apply lookup_lt_is_Some_1; eexists).
  exists pg, chk, cmd. eexists. split; [done|]. split; [done|]. split; [done|].
  split.
  - unfold NetlistUpdateOpt.
    rewrite (bind_Some _ _ _ _ _ (run_panel _ _ _ (wf_panel_page _ _ Hwf Hlt))).
    msimpl. rewrite (bind_Some _ _ _ _ _ (run_page_at _ _ _ Hpg)).
    rewrite Hchk, Hcmd. msimpl.
    rewrite (NetlistUpdateOpt_loop_frame _ 0) by (done || lia). reflexivity.
  - cbn [frame set_frame pages]. rewrite drop_0.
    rewrite take_ge by (destruct Hwf as (_ & ? & _); lia).
    rewrite note_format_name.
    destruct (note_format_other (pages s)
      (SetNetListFormatName ""
         (SetSimulatorCommand cmd (SetSpiceAjustPassiveValues chk (frame s)))))
      as (-> & -> & ->).
    by repeat split.
Qed.

(** ** Handlers that leave the dialog open *)

(** X4: a cancelled file dialog.  When the user cancels the file dialog of
    [GenNetlist], the handler returns after [NetlistUpdateOpt] and the file
    dialog: no netlist is built or written, the stored configuration is not
    changed, and the dialog stays open with its pages as they were; the
    parent frame keeps the options that [NetlistUpdateOpt] gave it. *)
Theorem GenNetlist_cancelled s p currPage :
  wf s → selection s = Some p → pages s !! p = Some currPage → page_ready currPage →
  ∃ s1 title path name wildcard,
    NetlistUpdateOpt s = Some (tt, s1) ∧
    GenNetlist None s =
      Some (tt, set_effects (effects s ++ [wxFileDialog title path name wildcard]) s1) ∧
    config s1 = config s ∧ pages s1 = pages s ∧
    EndModal_code s1 = EndModal_code s ∧ effects s1 = effects s.
Proof.
  intros Hwf Hsel Hpg Hready.
  destruct (NetlistUpdateOpt_ok s Hwf) as [f Hf]. exists (set_frame f s).
  destruct (FilenamePrms (m_IdNetType currPage) (Some "") (Some ""))
    as [[r aExt] aWildCard] eqn:Hprms.
  destruct (GenNetlist_switch_ok currPage (default "" aExt) "Save Netlist File" Hready)
    as (opt & ext & title & Hsw & _).
  do 4 eexists. split; [done|]. split; [|done].
  unfold GenNetlist. rewrite (bind_Some _ _ _ _ _ Hf). msimpl.
  cbn [selection set_frame]. rewrite Hsel. msimpl.
  page_at_with Hpg. rewrite Hprms. cbv beta iota.
  rewrite (bind_Some _ _ _ _ _ (Hsw _)). cbv beta iota. msimpl. reflexivity.
Qed.

(** X5: [RunSimulator] keeps the dialog open.  The parent frame gets the
    options of [NetlistUpdateOpt] and then the trimmed simulator command;
    the text control of the Spice page keeps the text as typed, nothing is
    written to the stored configuration, and [EndModal] is not called. *)
Theorem RunSimulator_keeps_dialog s p currPage :
  wf s → selection s = Some p → pages s !! p = Some currPage →
  ∃ spice text s1 s',
    pages s !! PANELSPICE = Some spice ∧ m_CommandStringCtrl spice = Some text ∧
    NetlistUpdateOpt s = Some (tt, s1) ∧
    RunSimulator s = Some (tt, s') ∧
    frame s' = SetSimulatorCommand (Trim true (Trim false text)) (frame s1) ∧
    pages s' = pages s ∧ config s' = config s ∧
    m_DefaultNetFmtName s' = m_DefaultNetFmtName s ∧
    EndModal_code s' = EndModal_code s.
Proof.
  intros Hwf Hsel Hpg.
  destruct (NetlistUpdateOpt_ok s Hwf) as [f Hf].
  destruct (wf_spice s Hwf) as (spice & chk & text & Hspice & Hchk & Hcmd).
  assert (Hlt : (PANELSPICE < length (pages s))%nat) by (by apply lookup_lt_is_Some_1; eexists).
  set (tmp := Trim true (Trim false text)).
  set (fr1 := SetSimulatorCommand tmp f).
  set (opt := match m_SpiceAjustPassiveValues currPage with
              | Some true => Z.lor 0 NET_ADJUST_PASSIVE_VALS
              | _ => 0
              end).
  exists spice, text, (set_frame f s).
  exists (set_effects
            (effects s ++
             [CallCreateNetlist;
              CallWriteNetListFile (CreateNetlist fr1) (m_IdNetType currPage)
                simulator_netlist opt] ++
             (if WriteNetListFile fr1 (CreateNetlist fr1) (m_IdNetType currPage)
                   simulator_netlist opt
              then [ExecuteFile (BeforeFirst " " tmp)
                      (AfterFirst " " tmp +:+ " " +:+ quoted simulator_netlist)]
              else []))
            (set_frame fr1 s)).
  split; [done|]. split; [done|]. split; [done|]. split; [|done].
  unfold RunSimulator. rewrite (bind_Some _ _ _ _ _ Hf).
  rewrite (bind_Some _ _ _ _ _ (run_panel (set_frame f s) _ _ (wf_panel_page _ _ Hwf Hlt))).
  msimpl. page_at_with Hspice. rewrite Hcmd. msimpl.
  cbn [selection set_frame]. rewrite Hsel. msimpl.
  page_at_with Hpg. msimpl. cbn [frame set_frame].
  fold simulator_netlist. fold tmp. fold fr1. fold opt.
  destruct (WriteNetListFile _ _ _ _ _); msimpl; unfold modify, pure;
    cbn [effects set_effects set_frame]; rewrite <- ?app_assoc; reflexivity.
Qed.

(** ** The value of ShowModal *)

Lemma closing_layout s s' :
  pages s' = pages s → selection s' = selection s →
  m_PanelNetType s' = m_PanelNetType s → EndModal_code s' = EndModal_code s →
  closing_code s → closing_code s'.
Proof. unfold closing_code. by intros _ _ _ ->. Qed.

Lemma closing_update_page p f :
  (∀ pg, keeps_widgets pg (f pg)) → preserves closing_code (update_page p f).
Proof. intros _ s a s' Hs (pg & _ & ->)%update_page_inv. done. Qed.

Lemma closing_EndModal code :
  code = wxID_OK ∨ code = NET_PLUGIN_CHANGE → preserves closing_code (EndModal code).
Proof.
  intros Hc. apply preserves_modify. intros s _. unfold closing_code. simpl. tauto.
Qed.

Lemma dispatch_closing e s s' :
  wf s → closing_code s → dispatch e s = Some (tt, s') → closing_code s'.
Proof.
  intros Hwf Hc Hr.
  destruct e as [n|v|v| | |answer| |sub| | ]; simpl in Hr.
  - revert Hr. rewrite bind_get. case_decide as Hn; [|by intros [= <-]].
    rewrite bind_modify. intros Hr.
    by eapply (kept_OnNetlistTypeSelection _ closing_layout); [|done].
  - eapply (kept_on_current_page _ closing_layout closing_update_page); [|done|done].
    intros pg. repeat split; try done. simpl. intros [x ->]. by eexists.
  - eapply (kept_on_current_page _ closing_layout closing_update_page); [|done|done].
    intros pg. repeat split; try done. simpl. intros [x ->]. by eexists.
  - eapply (kept_on_current_page _ closing_layout closing_update_page); [|done|done].
    intros pg. repeat split; try done. simpl. intros [x ->]. by eexists.
  - apply bind_inv in Hr as ([] & s1 & Hr1 & Hr).
    eapply (kept_SelectDefaultNetlistType _ closing_layout closing_update_page); [|done].
    eapply (kept_on_current_page _ closing_layout closing_update_page); [|done|done].
    intros pg. by repeat split.
  - by eapply (kept_GenNetlist _ closing_layout closing_EndModal).
  - by eapply (kept_RunSimulator _ closing_layout).
  - rewrite (OnAddGenerator_run sub s Hwf) in Hr. cbv zeta in Hr.
    case_bool_decide; [by injection Hr as <-|].
    case_decide; [by injection Hr as <-|].
    apply bind_inv in Hr as (cp & s1 & _ & Hr).
    apply bind_inv in Hr as ([] & s2 & _ & Hr).
    apply bind_inv in Hr as ([] & s3 & _ & Hr).
    injection Hr as <-. unfold closing_code. simpl. tauto.
  - by eapply (kept_OnDelGenerator _ closing_layout closing_update_page closing_EndModal).
  - injection Hr as <-. unfold closing_code. simpl. tauto.
Qed.

Lemma ShowModal_closing evs : ∀ s ret s',
  wf s → selection_ok s → closing_code s →
  ShowModal evs s = Some (ret, s') →
  EndModal_code s' = Some ret ∧ closing_code s'.
Proof.
  induction evs as [|e evs IH]; intros s ret s' Hwf Hsel Hc Hr; simpl in Hr.
  - revert Hr. rewrite bind_get. destruct (EndModal_code s) as [c|] eqn:Hcode.
    + intros [= <- <-]. done.
    + unfold EndModal. rewrite bind_modify. intros [= <- <-].
      split; [done|]. unfold closing_code. simpl. tauto.
  - revert Hr. rewrite bind_get. destruct (EndModal_code s) as [c|] eqn:Hcode.
    + intros [= <- <-]. done.
    + intros Hr. apply bind_inv in Hr as ([] & s1 & Hd & Hr).
      pose proof (dispatch_closing e s s1 Hwf Hc Hd) as Hc1.
      destruct (dispatch_keeps e s s1 Hwf Hsel Hd) as [[Hwf1 Hsel1]|[c Hend]].
      * by eapply IH.
      * destruct evs; simpl in Hr; revert Hr; rewrite bind_get, Hend;
          by intros [= <- <-].
Qed.

(** X6: the value of [InvokeDialogNetList].  Whatever the user does in the
    dialog, the value returned is the code with which the dialog was
    closed, and it is wxID_OK, NET_PLUGIN_CHANGE or wxID_CANCEL. *)
Theorem InvokeDialogNetList_codes fr cfg idx evs ret s2 :
  InvokeDialogNetList evs (new_NETLIST_DIALOG fr cfg idx) = Some (ret, s2) →
  EndModal_code s2 = Some ret ∧
  (ret = wxID_OK ∨ ret = NET_PLUGIN_CHANGE ∨ ret = wxID_CANCEL).
Proof.
  intros Hr. unfold InvokeDialogNetList in Hr.
  apply bind_inv in Hr as ([] & s0 & Hctor & Hr).
  revert Hr. rewrite bind_get. intros Hr.
  apply bind_inv in Hr as (ret' & s1 & Hshow & Hr).
  destruct (NETLIST_DIALOG_ctor_ok fr cfg idx) as (s0' & Hctor' & _ & _ & _ & _ & Hnone & _).
  rewrite Hctor in Hctor'. injection Hctor' as <-.
  destruct (ShowModal_closing evs s0 ret' s1) as [Hcode Hc]; try done.
  - by eapply NETLIST_DIALOG_ctor_wf.
  - by eapply NETLIST_DIALOG_ctor_selection.
  - unfold closing_code. by rewrite Hnone.
  - revert Hr. msimpl. case_bool_decide; msimpl; intros [= <- <-].
    + split; [done|]. unfold closing_code in Hc. by rewrite Hcode in Hc.
    + split; [done|]. unfold closing_code in Hc. by rewrite Hcode in Hc.
Qed.

(** ** Plugins added and removed, and the next dialog *)

Lemma saved_config_read_back s fr idx :
  wf s →
  ∃ s2, NETLIST_DIALOG_ctor (new_NETLIST_DIALOG fr (saved_config s) idx) = Some (tt, s2) ∧
    page_setup <$> custom_pages s2 = kept_setups s.
Proof.
  intros Hwf.
  destruct (NETLIST_DIALOG_ctor_ok fr (saved_config s) idx) as (s2 & Hc & _).
  exists s2. split; [exact Hc|].
  pose proof (NETLIST_DIALOG_ctor_custom _ _ _ _ Hc) as Hcp.
  rewrite saved_config_slots in Hcp by done.
  pose proof (kept_setups_length s Hwf) as Hlen.
  rewrite Hcp. apply list_eq. intros ii. rewrite !list_lookup_fmap.
  destruct (decide (ii < length (kept_setups s))%nat) as [Hlt|Hge].
  - rewrite lookup_seq_lt by done. simpl. unfold page_setup, stored_page. simpl.
    rewrite saved_config_title, saved_config_command by (done || lia).
    destruct (lookup_lt_is_Some_2 (kept_setups s) ii Hlt) as [[t c] ->]. done.
  - rewrite lookup_seq_ge by lia. by rewrite lookup_ge_None_2 by lia.
Qed.

Lemma filter_insert_delete {A} (P : A → Prop) `{∀ x, Decision (P x)} (l : list A) x :
  ¬ P x → ∀ i : nat, (i < length l)%nat → filter P (<[i := x]> l) = filter P (delete i l).
Proof.
  intros Hx. induction l as [|y l IH]; intros i Hi; simpl in Hi; [lia|].
  destruct i as [|i]; simpl.
  - by rewrite filter_cons_False.
  - rewrite !filter_cons. rewrite IH by lia. done.
Qed.

Lemma pages_after_delete_setups pgs (p : nat) currPage :
  (PANELCUSTOMBASE ≤ p)%nat → pgs !! p = Some currPage →
  page_setup <$> drop PANELCUSTOMBASE (pages_after_delete pgs p currPage) =
    <[(p - PANELCUSTOMBASE)%nat := ("", "")]> (page_setup <$> drop PANELCUSTOMBASE pgs).
Proof.
  intros Hp Hpg. unfold pages_after_delete. cbv zeta.
  destruct (m_IsCurrentFormat currPage).
  - destruct (_ !! PANELPCBNEW) as [pcb|].
    + rewrite drop_insert_lt by (unfold PANELPCBNEW, PANELCUSTOMBASE; lia).
      rewrite list_insert_insert_eq. rewrite drop_insert_ge by done.
      by rewrite list_fmap_insert.
    + rewrite list_insert_insert_eq. rewrite drop_insert_ge by done.
      by rewrite list_fmap_insert.
  - rewrite drop_insert_ge by done. by rewrite list_fmap_insert.
Qed.

(** X7: a plugin added is there in the next dialog.  When the
    add-generator dialog returns wxID_OK with a title that no custom page
    has, and fewer than CUSTOMPANEL_COUNTMAX custom pages exist,
    [OnAddGenerator] appends a page whose type is its position in
    [m_PanelNetType], and a dialog constructed from the configuration it
    leaves has the custom pages of the setups kept before, followed by a
    page with the new title and command. *)
Theorem OnAddGenerator_is_read_back sub s :
  wxID_OK ≠ wxID_CANCEL → wf s →
  let dlg := add_ShowModal sub new_NETLIST_DIALOG_ADD_GENERATOR in
  let title := GetGeneratorTitle dlg in
  let cmd := GetGeneratorTCommandLine dlg in
  add_EndModal dlg = Some wxID_OK →
  Forall (λ pg, GetPageNetFmtName pg ≠ title) (custom_pages s) →
  (length (pages s) < PANELCUSTOMBASE + CUSTOMPANEL_COUNTMAX)%nat →
  ∃ s', OnAddGenerator sub s = Some (tt, s') ∧
    pages s' =
      (pages s ++ [custom_page title cmd (Z.of_nat (length (pages s)))
                     (bool_decide (title = m_DefaultNetFmtName s))])%list ∧
    ∀ fr idx,
      ∃ s2, NETLIST_DIALOG_ctor (new_NETLIST_DIALOG fr (config s') idx) = Some (tt, s2) ∧
        page_setup <$> custom_pages s2 = (kept_setups s ++ [(title, cmd)])%list.
Proof.
  intros Hne Hwf dlg title cmd Hok Hnodup Hfull.
  pose proof (OnAddGenerator_run sub s Hwf) as Hrun. cbv zeta in Hrun.
  fold dlg in Hrun. fold title in Hrun. fold cmd in Hrun.
  destruct (add_ShowModal_OK sub new_NETLIST_DIALOG_ADD_GENERATOR Hne eq_refl Hok)
    as [Htitle _]. fold dlg in Htitle.
  rewrite bool_decide_eq_false_2 in Hrun by (by intros ?).
  rewrite decide_False in Hrun.
  2: { intros Hdup. apply Exists_exists in Hdup as (pg & Hin & Heq).
       rewrite Forall_forall in Hnodup. by apply (Hnodup pg). }
  rewrite decide_True in Hrun by done. cbv zeta in Hrun.
  rewrite (bind_Some _ _ _ _ _ (run_AddOneCustomPage _ _ _ _)) in Hrun.
  cbv zeta in Hrun. revert Hrun. msimpl. intros Hrun.
  cbn [pages set_effects m_PanelNetType set_asFormatSelected set_selection set_pages
       m_DefaultNetFmtName] in Hrun.
  match type of Hrun with context [bind WriteCurrentNetlistSetup _ ?s2] =>
    assert (Hwf2 : wf s2) by (by apply (wf_add_page s));
    destruct (WriteCurrentNetlistSetup_saves s2 Hwf2) as [f Hw];
    assert (Hkept : kept_setups s2 = (kept_setups s ++ [(title, cmd)])%list)
  end.
  { unfold kept_setups, custom_pages.
    cbn [pages set_PanelNetType set_asFormatSelected set_selection set_pages set_effects].
    rewrite drop_app_le by (destruct Hwf as (_ & ? & _); lia).
    rewrite fmap_app, filter_app. f_equal.
    simpl. by rewrite filter_cons_True. }
  rewrite (bind_Some _ _ _ _ _ Hw) in Hrun.
  eexists. split; [exact Hrun|].
  cbn [pages config set_EndModal_code set_config set_frame
       set_PanelNetType set_pages set_asFormatSelected set_selection set_effects].
  split; [done|]. intros fr idx. rewrite <- Hkept.
  by apply saved_config_read_back.
Qed.

(** X8: a plugin removed is not there in the next dialog.  When the
    current page is a custom page, [OnDelGenerator] saves a setup from
    which a dialog is constructed with the custom pages of the other
    setups kept, in their order; [m_DefaultNetFmtName] keeps its value,
    also when the page removed had the default format. *)
Theorem OnDelGenerator_is_read_back s p currPage :
  wf s → selection s = Some p → pages s !! p = Some currPage →
  (PANELCUSTOMBASE ≤ p)%nat →
  ∃ s', OnDelGenerator s = Some (tt, s') ∧
    m_DefaultNetFmtName s' = m_DefaultNetFmtName s ∧
    ∀ fr idx,
      ∃ s2, NETLIST_DIALOG_ctor (new_NETLIST_DIALOG fr (config s') idx) = Some (tt, s2) ∧
        page_setup <$> custom_pages s2 =
          filter (λ tc, tc.1 ≠ "")
            (page_setup <$> delete (p - PANELCUSTOMBASE)%nat (custom_pages s)).
Proof.
  intros Hwf Hsel Hpg Hp.
  destruct (wf_custom s p currPage Hwf Hp Hpg) as (c & t & Hc & Ht).
  assert (Hw : has_custom_widgets currPage) by (split; by eexists).
  destruct (OnDelGenerator_ok s p currPage Hwf Hsel Hpg Hw) as [f Hrun].
  cbv zeta in Hrun. eexists. split; [exact Hrun|].
  cbn [m_DefaultNetFmtName config set_EndModal_code set_config set_frame set_pages].
  split; [done|]. intros fr idx.
  set (s1 := set_pages (pages_after_delete (pages s) p currPage) s).
  assert (Hwf1 : wf s1).
  { apply wf_set_pages; [done|]. by apply pages_after_delete_keeps. }
  destruct (saved_config_read_back s1 fr idx Hwf1) as (s2 & Hctor & Hsetups).
  exists s2. split; [exact Hctor|]. rewrite Hsetups.
  unfold kept_setups, custom_pages. subst s1. cbn [pages set_pages].
  rewrite pages_after_delete_setups by done.
  rewrite filter_insert_delete.
  - by rewrite list_fmap_delete.
  - simpl. by intros ?.
  - rewrite length_fmap, length_drop. apply lookup_lt_Some in Hpg. lia.
Qed.

(** ** The dialog opened and closed *)

Lemma built_pages_checked fr cfg pg :
  pg ∈ built_pages fr cfg →
  m_IsCurrentFormat pg = bool_decide (GetPageNetFmtName pg = NetListFormatName fr).
Proof.
  unfold built_pages. cbv zeta. rewrite elem_of_app. intros [Hin|Hin].
  - repeat (apply elem_of_cons in Hin as [->|Hin]); try done.
    by apply elem_of_nil in Hin.
  - apply list_elem_of_fmap in Hin as (ii & -> & _). done.
Qed.

Lemma built_pages_known fr cfg :
  existsb m_IsCurrentFormat (built_pages fr cfg) = true ↔
  NetListFormatName fr ∈ page_names fr cfg.
Proof.
  unfold page_names. rewrite existsb_exists, list_elem_of_fmap. split.
  - intros (pg & Hin%list_elem_of_In & Hc). exists pg. split; [|done].
    rewrite (built_pages_checked fr cfg pg Hin) in Hc.
    by apply bool_decide_eq_true in Hc.
  - intros (pg & Hname & Hin). exists pg. split; [by apply list_elem_of_In|].
    rewrite (built_pages_checked fr cfg pg Hin). by apply bool_decide_eq_true.
Qed.

(** X9: the static counter of [UserNetlistTypeName] does not reach the
    dialog.  Whatever value an earlier dialog left in it, the constructor
    returns, and it builds the same pages, the same array of page pointers
    and the same default format name. *)
Theorem NETLIST_DIALOG_ctor_ignores_index fr cfg idx1 idx2 :
  ∃ s1 s2,
    NETLIST_DIALOG_ctor (new_NETLIST_DIALOG fr cfg idx1) = Some (tt, s1) ∧
    NETLIST_DIALOG_ctor (new_NETLIST_DIALOG fr cfg idx2) = Some (tt, s2) ∧
    pages s1 = pages s2 ∧ m_PanelNetType s1 = m_PanelNetType s2 ∧
    m_DefaultNetFmtName s1 = m_DefaultNetFmtName s2 ∧
    frame s1 = frame s2 ∧ config s1 = config s2.
Proof.
  destruct (NETLIST_DIALOG_ctor_ok fr cfg idx1) as (s1 & H1 & Hp1 & Hd1 & Hf1 & Hc1 & _ & _ & Hn1).
  destruct (NETLIST_DIALOG_ctor_ok fr cfg idx2) as (s2 & H2 & Hp2 & Hd2 & Hf2 & Hc2 & _ & _ & Hn2).
  exists s1, s2. cbv zeta in *.
  assert (Hp : pages s1 = pages s2) by congruence.
  repeat split; try congruence.
Qed.

Lemma ShowModal_close s :
  EndModal_code s = None →
  ShowModal [EvClose] s = Some (wxID_CANCEL, set_EndModal_code (Some wxID_CANCEL) s).
Proof.
  intros Hnone. simpl. rewrite bind_get, Hnone. unfold dispatch. msimpl.
  reflexivity.
Qed.

(** X10: the dialog opened and closed at once.  When the format name of
    the project is the name of a page, [InvokeDialogNetList] returns
    wxID_CANCEL with the frame as it was and the project settings are not
    saved; when it is the name of no page, the frame gets the format name
    Pcbnew and the project settings are saved, although the user changed
    nothing. *)
Theorem InvokeDialogNetList_closed_at_once fr cfg idx :
  ∃ s2,
    InvokeDialogNetList [EvClose] (new_NETLIST_DIALOG fr cfg idx) = Some (wxID_CANCEL, s2) ∧
    config s2 = cfg ∧
    (NetListFormatName fr ∈ page_names fr cfg → frame s2 = fr ∧ effects s2 = []) ∧
    (NetListFormatName fr ∉ page_names fr cfg →
       frame s2 = SetNetListFormatName "Pcbnew" fr ∧
       NetListFormatName fr ≠ "Pcbnew" ∧ effects s2 = [SaveProjectSettings]).
Proof.
  destruct (NETLIST_DIALOG_ctor_ok fr cfg idx)
    as (s0 & Hctor & _ & Hd & Hf & Hc & Hnone & He & _).
  cbv zeta in Hd.
  pose proof (built_pages_known fr cfg) as Hknown.
  unfold InvokeDialogNetList. rewrite (bind_Some _ _ _ _ _ Hctor).
  rewrite bind_get. rewrite (bind_Some _ _ _ _ _ (ShowModal_close s0 Hnone)). msimpl.
  cbn [m_DefaultNetFmtName set_EndModal_code frame set_frame].
  rewrite Hf, Hd.
  destruct (existsb m_IsCurrentFormat (built_pages fr cfg)) eqn:Hex.
  - rewrite bool_decide_eq_false_2 by (by intros ?). msimpl.
    eexists. split; [reflexivity|]. cbn [config frame effects set_frame set_EndModal_code].
    split; [done|]. split.
    + intros _. split; [by destruct fr|done].
    + intros Hnot. destruct Hnot. by apply Hknown.
  - assert (Hnot : NetListFormatName fr ∉ page_names fr cfg).
    { intros Hin. apply Hknown in Hin. discriminate. }
    assert (Hne : NetListFormatName fr ≠ "Pcbnew").
    { intros Heq. apply Hnot. unfold page_names, built_pages. rewrite Heq.
      apply list_elem_of_fmap. eexists. split; [|apply elem_of_app; left; apply list_elem_of_here].
      done. }
    rewrite bool_decide_eq_true_2 by done. msimpl.
    eexists. split; [reflexivity|].
    cbn [config frame effects set_frame set_EndModal_code set_effects].
    rewrite He. split; [done|]. split; [done|]. done.
Qed.

(** ** The file dialog and the options of GenNetlist *)

Lemma GenNetlist_switch_options currPage fileExt title opt ext' title' s :
  GenNetlist_switch currPage fileExt title s = Some ((opt, ext', title'), s) →
  opt = page_options currPage ∧
  (¬ is_custom_type (m_IdNetType currPage) → ext' = fileExt ∧ title' = title).
Proof.
  unfold GenNetlist_switch, page_options, is_custom_type.
  destruct (decide (m_IdNetType currPage = NET_TYPE_SPICE)) as [Hs|Hs].
  { destruct (m_SpiceAjustPassiveValues currPage) as [[]|]; [| |done].
    all: rewrite bind_deref; intros [= <- <- <-]; done. }
  destruct (decide (m_IdNetType currPage = NET_TYPE_CADSTAR)) as [Hc|Hc].
  { intros [= <- <- <-]. done. }
  destruct (decide (m_IdNetType currPage = NET_TYPE_PCBNEW)) as [Hp|Hp].
  { intros [= <- <- <-]. done. }
  destruct (decide (m_IdNetType currPage = NET_TYPE_ORCADPCB2)) as [Ho|Ho].
  { intros [= <- <- <-]. done. }
  destruct (m_CommandStringCtrl currPage) as [command|]; [|done].
  destruct (m_TitleStringCtrl currPage) as [t|]; [|done].
  msimpl. intros [= <- <- <-]. split; [done|]. intros Hnot. destruct Hnot. done.
Qed.

Lemma FilenamePrms_fixed id :
  ¬ is_custom_type id →
  ∃ ext wildcard, FilenamePrms id (Some "") (Some "") = (true, Some ext, Some wildcard).
Proof.
  intros Hnot. unfold FilenamePrms, is_custom_type in *.
  repeat case_decide; try (by do 2 eexists).
  destruct Hnot. repeat split; tauto.
Qed.

Lemma GenNetlist_run s p currPage answer :
  wf s → selection s = Some p → pages s !! p = Some currPage → page_ready currPage →
  ∃ f ext title wildcard,
    (∀ s0, GenNetlist_switch currPage
       (default "" (FilenamePrms (m_IdNetType currPage) (Some "") (Some "")).1.2)
       "Save Netlist File" s0 = Some ((page_options currPage, ext, title), s0)) ∧
    wildcard = default "" (FilenamePrms (m_IdNetType currPage) (Some "") (Some "")).2 ∧
    let dlg := wxFileDialog title proposed_path (proposed_name ext) wildcard in
    match answer with
    | None =>
        GenNetlist None s = Some (tt, set_effects (effects s ++ [dlg]) (set_frame f s))
    | Some fullpath =>
        ∃ f',
          let fr1 := SetNetListerCommand (default "" (m_CommandStringCtrl currPage)) f in
          let call :=
            match CreateNetlist fr1 with
            | None => wxMessageBox "Schematic netlist not available"
            | Some netlist =>
                CallWriteNetListFile (Some netlist) (m_IdNetType currPage) fullpath
                  (page_options currPage)
            end in
          GenNetlist (Some fullpath) s =
            Some (tt, set_EndModal_code (Some wxID_OK)
                        (set_config (saved_config s)
                           (set_frame f'
                              (set_effects
                                 (effects s ++ [dlg; ClearMsgPanel; CallCreateNetlist; call])
                                 s))))
    end.
Proof.
  intros Hwf Hsel Hpg Hready.
  destruct (NetlistUpdateOpt_ok s Hwf) as [f Hf]. exists f.
  destruct (FilenamePrms (m_IdNetType currPage) (Some "") (Some "")) as [[r aExt] aWildCard] eqn:Hprms.
  destruct (GenNetlist_switch_ok currPage (default "" aExt) "Save Netlist File" Hready)
    as (opt & ext & title & Hsw & _).
  destruct (GenNetlist_switch_options _ _ _ _ _ _ _ (Hsw s)) as [-> _].
  exists ext, title, (default "" aWildCard).
  split; [done|]. split; [done|]. cbv zeta.
  set (fn := if IsEmpty (GetPath (SetExt ext (wxFileName_of RootFileName)))
             then SetPath (wxPathOnly ProjectFullName)
                    (SetExt ext (wxFileName_of RootFileName))
             else SetExt ext (wxFileName_of RootFileName)).
  assert (Hname : GetFullName fn = proposed_name ext).
  { subst fn. by destruct (IsEmpty _). }
  assert (Hpath : GetPath fn = proposed_path).
  { subst fn. unfold proposed_path.
    change (GetPath (SetExt ext (wxFileName_of RootFileName)))
      with (GetPath (wxFileName_of RootFileName)).
    by destruct (IsEmpty _). }
  assert (Hgo : ∀ answer, GenNetlist answer s =
    bind (emit (wxFileDialog title proposed_path (proposed_name ext) (default "" aWildCard)))
      (λ _, match answer with
            | None => pure tt
            | Some fullpath =>
                bind (emit ClearMsgPanel) (λ _,
                bind (update_frame (SetNetListerCommand
                        (default "" (m_CommandStringCtrl currPage)))) (λ _,
                bind get (λ s,
                let netlist := CreateNetlist (frame s) in
                bind (emit CallCreateNetlist) (λ _,
                bind match netlist with
                     | None => emit (wxMessageBox "Schematic netlist not available")
                     | Some _ =>
                         emit (CallWriteNetListFile netlist (m_IdNetType currPage)
                                 fullpath (page_options currPage))
                     end (λ _,
                bind WriteCurrentNetlistSetup (λ _, EndModal wxID_OK))))))
            end) (set_frame f s)).
  { intros a. unfold GenNetlist. rewrite (bind_Some _ _ _ _ _ Hf). msimpl.
    cbn [selection set_frame]. rewrite Hsel. msimpl.
    page_at_with Hpg. rewrite Hprms. cbv beta iota.
    rewrite (bind_Some _ _ _ _ _ (Hsw _)). cbv beta iota. fold fn.
    rewrite Hname, Hpath.
    destruct a; msimpl; reflexivity. }
  destruct answer as [fullpath|]; rewrite Hgo; msimpl; [|reflexivity].
  cbn [frame set_frame set_effects].
  destruct (CreateNetlist _) as [netlist|]; msimpl.
  all: match goal with |- context [bind WriteCurrentNetlistSetup _ ?s3] =>
         destruct (WriteCurrentNetlistSetup_saves s3) as [f' Hw]; [done|] end.
  all: exists f'; rewrite (bind_Some _ _ _ _ _ Hw); msimpl.
  all: cbn [effects set_effects set_frame set_config set_EndModal_code].
  all: rewrite <- !app_assoc; reflexivity.
Qed.

(** X11: the file dialog of a page with a fixed format.  On a page whose
    type is NET_TYPE_SPICE, NET_TYPE_CADSTAR, NET_TYPE_PCBNEW or
    NET_TYPE_ORCADPCB2, [GenNetlist] opens the file dialog with the title
    Save Netlist File, the name of the root sheet with the extension that
    [FilenamePrms] gives for the type, the wildcard of [FilenamePrms], and
    the directory of the root sheet file, or that of the project when the
    root sheet file has none. *)
Theorem GenNetlist_fixed_format_dialog s p currPage answer :
  wf s → selection s = Some p → pages s !! p = Some currPage → page_ready currPage →
  ¬ is_custom_type (m_IdNetType currPage) →
  ∃ s' ext wildcard rest,
    GenNetlist answer s = Some (tt, s') ∧
    FilenamePrms (m_IdNetType currPage) (Some "") (Some "") = (true, Some ext, Some wildcard) ∧
    effects s' =
      (effects s ++
       wxFileDialog "Save Netlist File" proposed_path (proposed_name ext) wildcard :: rest)%list ∧
    (answer = None → rest = []).
Proof.
  intros Hwf Hsel Hpg Hready Hfixed.
  destruct (GenNetlist_run s p currPage answer Hwf Hsel Hpg Hready)
    as (f & ext & title & wildcard & Hsw & Hwild & Hrun).
  destruct (FilenamePrms_fixed _ Hfixed) as (e & w & Hprms).
  rewrite Hprms in Hsw, Hwild. simpl in Hsw, Hwild. subst wildcard.
  destruct (GenNetlist_switch_options _ _ _ _ _ _ _ (Hsw s)) as [_ Heq].
  destruct (Heq Hfixed) as [-> ->]. cbv zeta in Hrun.
  destruct answer as [fullpath|].
  - destruct Hrun as [f' Hrun]. do 4 eexists. split; [exact Hrun|].
    split; [done|]. cbn [effects set_effects set_frame set_config set_EndModal_code].
    split; [reflexivity|]. done.
  - do 4 eexists. split; [exact Hrun|]. split; [done|].
    cbn [effects set_effects set_frame]. split; [reflexivity|]. done.
Qed.

(** X12: the options of the netlist.  When the file dialog is accepted,
    [GenNetlist] gives [WriteNetListFile] the type of the current page, the
    path chosen in the file dialog, and the options
    NET_ADJUST_PASSIVE_VALS on a page of type NET_TYPE_SPICE whose option
    is checked, and no option on any other page; the netlist is the one
    that [CreateNetlist] returned for a frame whose netlister command is
    the command of the page, or empty for a page without a command. *)
Theorem GenNetlist_options s p currPage fullpath :
  wf s → selection s = Some p → pages s !! p = Some currPage → page_ready currPage →
  ∃ s' fr1 dlg call,
    GenNetlist (Some fullpath) s = Some (tt, s') ∧
    effects s' = (effects s ++ [dlg; ClearMsgPanel; CallCreateNetlist; call])%list ∧
    NetListerCommand fr1 = default "" (m_CommandStringCtrl currPage) ∧
    call =
      match CreateNetlist fr1 with
      | None => wxMessageBox "Schematic netlist not available"
      | Some netlist =>
          CallWriteNetListFile (Some netlist) (m_IdNetType currPage) fullpath
            (page_options currPage)
      end ∧
    (m_IdNetType currPage ≠ NET_TYPE_SPICE → page_options currPage = 0) ∧
    (m_SpiceAjustPassiveValues currPage ≠ Some true → page_options currPage = 0) ∧
    (m_IdNetType currPage = NET_TYPE_SPICE →
     m_SpiceAjustPassiveValues currPage = Some true →
     page_options currPage = Z.lor 0 NET_ADJUST_PASSIVE_VALS).
Proof.
  intros Hwf Hsel Hpg Hready.
  destruct (GenNetlist_run s p currPage (Some fullpath) Hwf Hsel Hpg Hready)
    as (f & ext & title & wildcard & Hsw & Hwild & f' & Hrun).
  cbv zeta in Hrun.
  eexists. exists (SetNetListerCommand (default "" (m_CommandStringCtrl currPage)) f).
  do 2 eexists. split; [exact Hrun|].
  cbn [effects set_effects set_frame set_config set_EndModal_code].
  split; [reflexivity|]. split; [done|]. split; [done|].
  unfold page_options. split; [|split].
  - intros Hne. by rewrite decide_False.
  - intros Hne. case_decide; [|done].
    by destruct (m_SpiceAjustPassiveValues currPage) as [[]|].
  - intros Heq ->. by rewrite decide_True.
Qed.

(** ** The command that OnBrowseGenerators proposes *)

(** X13: the default command line of a plugin file.  When no file is
    chosen the dialog is left as it is.  Otherwise the command becomes the
    xsltproc line for the extension xsl, the line with redirections for the
    extension exe and for a file without extension (which never gets the
    python line), the python line for the extension py, and the quoted file
    name for any other extension; the title and the state of the dialog are
    not changed, and the reminder to choose a title is shown exactly when
    the title is empty. *)
Theorem OnBrowseGenerators_command f d :
  let d' := OnBrowseGenerators f d in
  let ext := GetExt (wxFileName_of f) in
  (f = "" → d' = d) ∧
  m_textCtrlName d' = m_textCtrlName d ∧ add_EndModal d' = add_EndModal d ∧
  (f ≠ "" →
     (ext = "xsl" →
        m_textCtrlCommand d' =
          "xsltproc -o " +:+ quoted "%O" +:+ " " +:+ quoted f +:+ " " +:+ quoted "%I") ∧
     (ext = "exe" ∨ ext = "" →
        m_textCtrlCommand d' =
          quoted f +:+ " > " +:+ quoted "%O" +:+ " < " +:+ quoted "%I") ∧
     (ext = "py" →
        m_textCtrlCommand d' =
          "python " +:+ quoted f +:+ " " +:+ quoted "%I" +:+ " " +:+ quoted "%O") ∧
     (ext ≠ "xsl" → ext ≠ "exe" → ext ≠ "" → ext ≠ "py" →
        m_textCtrlCommand d' = quoted f) ∧
     (m_textCtrlName d = "" →
        add_messages d' =
          (add_messages d ++
           ["Do not forget to choose a title for this netlist control page"])%list) ∧
     (m_textCtrlName d ≠ "" → add_messages d' = add_messages d)).
Proof.
  cbv zeta. unfold OnBrowseGenerators.
  destruct (IsEmpty f) eqn:Hf.
  { apply IsEmpty_true in Hf. by repeat split. }
  apply IsEmpty_false in Hf. cbv zeta.
  set (ext := GetExt (wxFileName_of f)).
  set (cmdLine := if bool_decide (ext = "xsl") then _ else _).
  assert (Hc : cmdLine =
    if bool_decide (ext = "xsl") then
      "xsltproc -o " +:+ quoted "%O" +:+ " " +:+ quoted f +:+ " " +:+ quoted "%I"
    else if bool_decide (ext = "exe") || IsEmpty ext then
      quoted f +:+ " > " +:+ quoted "%O" +:+ " < " +:+ quoted "%I"
    else if bool_decide (ext = "py") || IsEmpty ext then
      "python " +:+ quoted f +:+ " " +:+ quoted "%I" +:+ " " +:+ quoted "%O"
    else quoted f) by done.
  clearbody cmdLine.
  change (m_textCtrlName (add_set_Command cmdLine d)) with (m_textCtrlName d).
  destruct (IsEmpty (m_textCtrlName d)) eqn:Ht;
    [apply IsEmpty_true in Ht|apply IsEmpty_false in Ht].
  all: split; [done|]; split; [done|]; split; [done|]; intros _.
  all: cbn [m_textCtrlCommand add_MessageBox add_set_Command add_messages].
  all: rewrite Hc; clear Hc.
  all: split; [by intros ->|].
  all: split; [by intros [Hx|Hx]; rewrite Hx|].
  all: split; [by intros ->|].
  all: split; [intros H1 H2 H3 H4; rewrite !bool_decide_eq_false_2 by done;
               apply IsEmpty_false in H3; by rewrite H3|].
  all: split; intros Hn; done.
Qed.

(** X14: a style sheet chosen by browsing gives its extension to the
    netlist.  When the file chosen in the add-generator dialog has the
    extension xsl and its name ends with a dot, three or four alphanumeric
    characters and .xsl, the command that [OnBrowseGenerators] proposes is
    one that the pattern of [GenNetlist] matches, and the group that
    [GenNetlist] takes as the file extension is a run of three or four
    alphanumeric characters of the command that stands between a dot and
    .xsl followed by a double quote. *)
Theorem browsed_style_sheet_matches pre e d :
  let f := pre +:+ "." +:+ e +:+ ".xsl" in
  GetExt (wxFileName_of f) = "xsl" →
  (String.length e = 3 ∨ String.length e = 4)%nat → all_alnum e = true →
  let command := m_textCtrlCommand (OnBrowseGenerators f d) in
  Matches extRE command = true ∧ xsl_script_ext command (GetMatch1 extRE command).
Proof.
  intros f Hext Hlen Hal command.
  assert (Hf : f ≠ "").
  { subst f. destruct pre; discriminate. }
  assert (Hcmd : command =
    "xsltproc -o " +:+ quoted "%O" +:+ " " +:+ quoted f +:+ " " +:+ quoted "%I").
  { subst command. unfold OnBrowseGenerators.
    apply IsEmpty_false in Hf. rewrite Hf. cbv zeta. rewrite Hext.
    rewrite bool_decide_eq_true_2 by done.
    destruct (IsEmpty (m_textCtrlName _)); reflexivity. }
  assert (Hm : Matches extRE command = true).
  { apply Matches_extRE_iff. exists e.
    exists ("xsltproc -o " +:+ quoted "%O" +:+ " " +:+ String dquote pre), "",
           (" " +:+ quoted "%I").
    split; [|by repeat split; auto].
    rewrite Hcmd. subst f. unfold quoted.
    repeat first [rewrite sapp_assoc | rewrite sapp_cons | rewrite sapp_nil_l].
    reflexivity. }
  split; [done|]. by apply GetMatch1_extRE.
Qed.

(** ** A plugin added when all the slots are taken *)

Lemma NetlistUpdateOpt_loop_runs iis : ∀ s,
  (∀ ii, ii ∈ iis →
     ∃ p pg, m_PanelNetType s !! ii = Some (Some p) ∧ pages s !! p = Some pg) →
  ∃ f, NetlistUpdateOpt_loop iis s = Some (tt, set_frame f s).
Proof.
  induction iis as [|ii iis IH]; intros s Hiis; simpl.
  - exists (frame s). by rewrite set_frame_id.
  - destruct (Hiis ii) as (p & pg & Hp & Hpg); [apply list_elem_of_here|].
    rewrite (bind_Some _ _ _ _ _ (run_panel _ _ _ Hp)).
    rewrite (bind_Some _ _ _ _ _ (run_page_at _ _ _ Hpg)).
    destruct (m_IsCurrentFormat pg); msimpl.
    + destruct (IH (set_frame (SetNetListFormatName (GetPageNetFmtName pg) (frame s)) s))
        as [f Hf]; [|by exists f].
      intros j Hj. apply Hiis. by apply list_elem_of_further.
    + apply IH. intros j Hj. apply Hiis. by apply list_elem_of_further.
Qed.

Lemma NetlistUpdateOpt_runs s :
  (∀ ii, (ii < PANELCUSTOMBASE + CUSTOMPANEL_COUNTMAX)%nat →
     ∃ p pg, m_PanelNetType s !! ii = Some (Some p) ∧ pages s !! p = Some pg) →
  (∀ p pg, m_PanelNetType s !! PANELSPICE = Some (Some p) → pages s !! p = Some pg →
     is_Some (m_SpiceAjustPassiveValues pg) ∧ is_Some (m_CommandStringCtrl pg)) →
  ∃ f, NetlistUpdateOpt s = Some (tt, set_frame f s).
Proof.
  intros Hall Hspice.
  destruct (Hall PANELSPICE) as (p & pg & Hp & Hpg);
    [unfold PANELSPICE, PANELCUSTOMBASE; lia|].
  destruct (Hspice p pg Hp Hpg) as [[chk Hchk] [cmd Hcmd]].
  unfold NetlistUpdateOpt.
  rewrite (bind_Some _ _ _ _ _ (run_panel _ _ _ Hp)). msimpl.
  rewrite (bind_Some _ _ _ _ _ (run_page_at _ _ _ Hpg)).
  rewrite Hchk, Hcmd. msimpl.
  match goal with |- ∃ f, NetlistUpdateOpt_loop _ ?s' = _ =>
    destruct (NetlistUpdateOpt_loop_runs (seq 0 (PANELCUSTOMBASE + CUSTOMPANEL_COUNTMAX)) s')
      as [f Hf]
  end; [|by exists f].
  intros ii Hii%elem_of_seq. apply Hall. lia.
Qed.

Lemma WriteCurrentNetlistSetup_pages_runs pgs : ∀ a jj s,
  (∀ (i : nat) pg, pgs !! i = Some pg →
     ∃ p, m_PanelNetType s !! (a + i + PANELCUSTOMBASE)%nat = Some (Some p) ∧
          pages s !! p = Some pg ∧ has_custom_widgets pg) →
  let part := filter (λ tc, tc.1 ≠ "") (page_setup <$> pgs) in
  WriteCurrentNetlistSetup_pages (seq a (length pgs)) jj s =
    Some ((jj + length part)%nat, set_config (write_setups jj part (config s)) s).
Proof.
  induction pgs as [|pg pgs IH]; intros a jj s Hpgs part.
  - subst part. simpl. by rewrite Nat.add_0_r, set_config_id.
  - simpl. destruct (Hpgs 0%nat pg eq_refl) as (p & Hp & Hpg & [[cmd Hcmd] [title Htitle]]).
    rewrite Nat.add_0_r in Hp.
    rewrite (bind_Some _ _ _ _ _ (run_panel _ _ _ Hp)).
    rewrite (bind_Some _ _ _ _ _ (run_page_at _ _ _ Hpg)).
    assert (Hpart : part = filter (λ tc, tc.1 ≠ "") ((title, cmd) :: (page_setup <$> pgs))).
    { subst part. simpl. unfold page_setup at 1. by rewrite Hcmd, Htitle. }
    rewrite Htitle, Hcmd. msimpl.
    assert (Hrest : ∀ s', m_PanelNetType s' = m_PanelNetType s → pages s' = pages s →
      ∀ (i : nat) pg0, pgs !! i = Some pg0 →
        ∃ p0, m_PanelNetType s' !! (S a + i + PANELCUSTOMBASE)%nat = Some (Some p0) ∧
              pages s' !! p0 = Some pg0 ∧ has_custom_widgets pg0).
    { intros s' Hn Hps i pg0 Hi. destruct (Hpgs (S i) pg0 Hi) as (p0 & Hp0 & ?).
      exists p0. rewrite Hn, Hps. split; [|done]. rewrite <- Hp0. f_equal. lia. }
    destruct (IsEmpty title) eqn:He.
    + apply IsEmpty_true in He as ->.
      rewrite IH by (by apply Hrest). rewrite Hpart.
      by rewrite filter_cons_False by (simpl; auto).
    + apply IsEmpty_false in He. msimpl.
      rewrite IH by (by apply Hrest). rewrite Hpart.
      rewrite filter_cons_True by done. simpl.
      f_equal. f_equal. lia.
Qed.

Lemma wf_replace_last s pg :
  wf s → length (pages s) = (PANELCUSTOMBASE + CUSTOMPANEL_COUNTMAX)%nat →
  has_custom_widgets pg →
  wf (set_pages (take (PANELCUSTOMBASE + CUSTOMPANEL_COUNTMAX - 1) (pages s) ++ [pg]) s).
Proof.
  intros (Hn & Hlen & Hspice & Hcustom) Hfull Hpg.
  assert (Hl : length (take (PANELCUSTOMBASE + CUSTOMPANEL_COUNTMAX - 1) (pages s) ++ [pg])
               = length (pages s)).
  { rewrite length_app, length_take, Hfull. reflexivity. }
  unfold wf. cbn [pages m_PanelNetType set_pages]. rewrite Hl.
  split; [done|]. split; [done|]. split.
  - unfold spice_page_ok in *. cbn [pages set_pages].
    rewrite lookup_app_l
      by (rewrite length_take; unfold PANELSPICE, PANELCUSTOMBASE, CUSTOMPANEL_COUNTMAX in *; lia).
    rewrite lookup_take_lt by (unfold PANELSPICE, PANELCUSTOMBASE, CUSTOMPANEL_COUNTMAX; lia).
    done.
  - unfold custom_pages in *. cbn [pages set_pages].
    rewrite drop_app_le
      by (rewrite length_take; unfold PANELCUSTOMBASE, CUSTOMPANEL_COUNTMAX in *; lia).
    apply Forall_app. split; [|by apply Forall_singleton].
    rewrite Forall_lookup in Hcustom. apply Forall_lookup. intros i x Hx.
    rewrite lookup_drop in Hx. apply lookup_take_Some in Hx as [Hx _].
    apply (Hcustom i). by rewrite lookup_drop.
Qed.

Lemma WriteCurrentNetlistSetup_runs s pgs :
  (∀ ii, (ii < PANELCUSTOMBASE + CUSTOMPANEL_COUNTMAX)%nat →
     ∃ p pg, m_PanelNetType s !! ii = Some (Some p) ∧ pages s !! p = Some pg) →
  (∀ p pg, m_PanelNetType s !! PANELSPICE = Some (Some p) → pages s !! p = Some pg →
     is_Some (m_SpiceAjustPassiveValues pg) ∧ is_Some (m_CommandStringCtrl pg)) →
  length pgs = CUSTOMPANEL_COUNTMAX →
  (∀ (i : nat) pg, pgs !! i = Some pg →
     ∃ p, m_PanelNetType s !! (i + PANELCUSTOMBASE)%nat = Some (Some p) ∧
          pages s !! p = Some pg ∧ has_custom_widgets pg) →
  let part := filter (λ tc, tc.1 ≠ "") (page_setup <$> pgs) in
  ∃ f, WriteCurrentNetlistSetup s =
    Some (tt, set_config
                (write_setups 0
                   (part ++ replicate (CUSTOMPANEL_COUNTMAX - length part) ("", ""))
                   (config s))
                (set_frame f s)).
Proof.
  intros Hall Hspice Hlen Hpgs part.
  destruct (NetlistUpdateOpt_runs s Hall Hspice) as [f Hf]. exists f.
  unfold WriteCurrentNetlistSetup.
  rewrite (bind_Some _ _ _ _ _ Hf).
  pose proof (WriteCurrentNetlistSetup_pages_runs pgs 0 0 (set_frame f s)) as Hp.
  rewrite Hlen in Hp. cbv zeta in Hp. fold part in Hp.
  rewrite (bind_Some _ _ _ _ _ (Hp Hpgs)).
  rewrite WriteCurrentNetlistSetup_void_ok. simpl.
  by rewrite write_setups_app.
Qed.

(** X15: a plugin added when all the slots are taken.  With
    CUSTOMPANEL_COUNTMAX custom pages in the dialog, [OnAddGenerator]
    still adds the page to the notebook, gives it the type of the last
    slot, and stores its pointer in the last slot of [m_PanelNetType] in
    place of the page that was there; the array keeps its length.  The
    setup it saves is that of the first seven custom pages and of the new
    page: a dialog constructed from it has the new plugin and has lost the
    plugin of the last slot. *)
Theorem OnAddGenerator_when_full sub s :
  wxID_OK ≠ wxID_CANCEL → wf s →
  let dlg := add_ShowModal sub new_NETLIST_DIALOG_ADD_GENERATOR in
  let title := GetGeneratorTitle dlg in
  let cmd := GetGeneratorTCommandLine dlg in
  let last := (PANELCUSTOMBASE + CUSTOMPANEL_COUNTMAX - 1)%nat in
  add_EndModal dlg = Some wxID_OK →
  Forall (λ pg, GetPageNetFmtName pg ≠ title) (custom_pages s) →
  length (pages s) = (PANELCUSTOMBASE + CUSTOMPANEL_COUNTMAX)%nat →
  ∃ s', OnAddGenerator sub s = Some (tt, s') ∧
    pages s' =
      (pages s ++ [custom_page title cmd (Z.of_nat last)
                     (bool_decide (title = m_DefaultNetFmtName s))])%list ∧
    m_PanelNetType s' = <[last := Some (length (pages s))]> (m_PanelNetType s) ∧
    length (m_PanelNetType s') = (PANELCUSTOMBASE + CUSTOMPANEL_COUNTMAX)%nat ∧
    EndModal_code s' = Some NET_PLUGIN_CHANGE ∧
    ∀ fr idx,
      ∃ s2, NETLIST_DIALOG_ctor (new_NETLIST_DIALOG fr (config s') idx) = Some (tt, s2) ∧
        page_setup <$> custom_pages s2 =
          (filter (λ tc, tc.1 ≠ "")
             (page_setup <$> take (CUSTOMPANEL_COUNTMAX - 1) (custom_pages s))
           ++ [(title, cmd)])%list.
Proof.
  intros Hne Hwf dlg title cmd last Hok Hnodup Hfull.
  pose proof (OnAddGenerator_run sub s Hwf) as Hrun. cbv zeta in Hrun.
  fold dlg in Hrun. fold title in Hrun. fold cmd in Hrun.
  destruct (add_ShowModal_OK sub new_NETLIST_DIALOG_ADD_GENERATOR Hne eq_refl Hok)
    as [Htitle _]. fold dlg in Htitle. fold title in Htitle.
  rewrite bool_decide_eq_false_2 in Hrun by (by intros ?).
  rewrite decide_False in Hrun.
  2: { intros Hdup. apply Exists_exists in Hdup as (pg & Hin & Heq).
       rewrite Forall_forall in Hnodup. by apply (Hnodup pg). }
  rewrite decide_False in Hrun by lia. cbv zeta in Hrun. fold last in Hrun.
  rewrite (bind_Some _ _ _ _ _ (run_AddOneCustomPage _ _ _ _)) in Hrun.
  cbv zeta in Hrun. revert Hrun. msimpl. intros Hrun.
  cbn [pages set_effects m_PanelNetType set_asFormatSelected set_selection set_pages
       m_DefaultNetFmtName] in Hrun.
  set (new := custom_page title cmd (Z.of_nat last)
                (bool_decide (title = m_DefaultNetFmtName s))) in *.
  assert (Hnew : has_custom_widgets new) by (split; by eexists).
  assert (Hlast : last = 11%nat) by done.
  assert (Hlen12 : length (pages s) = 12%nat) by done.
  match type of Hrun with context [bind WriteCurrentNetlistSetup _ ?st] =>
    set (s1 := st) in *;
    assert (Hpn : m_PanelNetType s1 = <[last := Some (length (pages s))]> (m_PanelNetType s))
      by done;
    assert (Hps : pages s1 = (pages s ++ [new])%list) by done;
    assert (Hcf : config s1 = config s) by done
  end.
  assert (Hslot : ∀ ii : nat, (ii < 12)%nat →
    m_PanelNetType s1 !! ii = Some (Some (if decide (ii = 11%nat) then 12%nat else ii))).
  { intros ii Hii. rewrite Hpn, Hlast, Hlen12. case_decide as Heq.
    - subst ii. apply list_lookup_insert_eq.
      destruct Hwf as (-> & _).
      rewrite length_app, length_fmap, length_seq, length_replicate, Hlen12. simpl. lia.
    - rewrite list_lookup_insert_ne by done. apply wf_panel_page; [done|lia]. }
  assert (Hpage : ∀ ii : nat, (ii < 12)%nat → pages s1 !! ii = pages s !! ii).
  { intros ii Hii. rewrite Hps. apply lookup_app_l. lia. }
  assert (Hpage12 : pages s1 !! 12%nat = Some new).
  { rewrite Hps, <- Hlen12. apply list_lookup_middle. done. }
  set (pgs := (take (CUSTOMPANEL_COUNTMAX - 1) (custom_pages s) ++ [new])%list).
  assert (Hcl : length (custom_pages s) = 8%nat).
  { unfold custom_pages. rewrite length_drop, Hlen12. done. }
  assert (Hpl : length pgs = CUSTOMPANEL_COUNTMAX).
  { subst pgs. rewrite length_app, length_take, Hcl. done. }
  destruct (WriteCurrentNetlistSetup_runs s1 pgs) as [f Hw].
  { intros ii Hii. change (ii < 12)%nat in Hii.
    rewrite (Hslot ii Hii). case_decide.
    - by exists 12%nat, new.
    - destruct (lookup_lt_is_Some_2 (pages s) ii ltac:(lia)) as [pg Hpg].
      exists ii, pg. split; [done|]. by rewrite Hpage.
  }
  { intros p pg Hp Hpg. rewrite (Hslot PANELSPICE) in Hp by (unfold PANELSPICE; lia).
    rewrite decide_False in Hp by done. injection Hp as <-.
    rewrite Hpage in Hpg by (unfold PANELSPICE; lia).
    destruct (wf_spice s Hwf) as (pg' & chk & c & Hpg' & Hchk & Hc).
    rewrite Hpg in Hpg'. injection Hpg' as <-. split; by eexists. }
  { done. }
  { intros i pg Hi. pose proof (lookup_lt_Some _ _ _ Hi) as Hlt. rewrite Hpl in Hlt.
    change (i < 8)%nat in Hlt. unfold PANELCUSTOMBASE.
    rewrite (Hslot (i + 4)%nat) by lia.
    subst pgs. destruct (decide (i = 7%nat)) as [->|Hi7].
    - rewrite lookup_app_r in Hi by (rewrite length_take, Hcl; done).
      rewrite length_take, Hcl in Hi. simpl in Hi. injection Hi as <-.
      exists 12%nat. done.
    - rewrite decide_False by lia.
      rewrite lookup_app_l in Hi by (rewrite length_take, Hcl; simpl; lia).
      apply lookup_take_Some in Hi as [Hi _]. unfold custom_pages in Hi.
      rewrite lookup_drop in Hi. unfold PANELCUSTOMBASE in Hi.
      exists (i + 4)%nat. split; [done|]. rewrite Hpage by lia.
      replace (i + 4)%nat with (4 + i)%nat by lia. split; [done|].
      destruct (wf_custom s (4 + i) pg Hwf ltac:(unfold PANELCUSTOMBASE; lia) Hi)
        as (c & t & Hc & Ht).
      split; by eexists. }
  cbv zeta in Hw. rewrite (bind_Some _ _ _ _ _ Hw) in Hrun.
  eexists. split; [exact Hrun|].
  cbn [pages m_PanelNetType config EndModal_code set_EndModal_code set_config set_frame].
  split; [done|]. split; [done|]. split.
  { rewrite Hpn, length_insert. destruct Hwf as (-> & _).
    rewrite length_app, length_fmap, length_seq, length_replicate, Hlen12. done. }
  split; [done|]. intros fr idx.
  set (s3 := set_pages (take (PANELCUSTOMBASE + CUSTOMPANEL_COUNTMAX - 1) (pages s) ++ [new]) s).
  assert (Hwf3 : wf s3) by (by apply wf_replace_last).
  assert (Hk3 : kept_setups s3 = filter (λ tc, tc.1 ≠ "") (page_setup <$> pgs)).
  { unfold kept_setups, custom_pages. subst s3 pgs. cbn [pages set_pages].
    rewrite drop_app_le by (rewrite length_take, Hlen12; unfold PANELCUSTOMBASE; simpl; lia).
    do 3 f_equal. unfold custom_pages.
    apply list_eq. intros i. rewrite lookup_drop.
    destruct (decide (i < 7)%nat) as [Hi|Hi].
    - rewrite !lookup_take_lt by (unfold PANELCUSTOMBASE, CUSTOMPANEL_COUNTMAX; lia).
      by rewrite lookup_drop.
    - rewrite !lookup_take_ge by (unfold PANELCUSTOMBASE, CUSTOMPANEL_COUNTMAX; lia). done. }
  destruct (saved_config_read_back s3 fr idx Hwf3) as (s2 & Hctor & Hsetups).
  exists s2. split.
  - rewrite <- Hctor. do 2 f_equal. unfold saved_config. rewrite Hk3, Hcf. done.
  - rewrite Hsetups, Hk3. subst pgs. rewrite fmap_app, filter_app. f_equal.
    simpl. by rewrite filter_cons_True.
Qed.

(** ** The default format in the check boxes, in the dialog and in the frame *)

Lemma NetlistUpdateOpt_name s :
  wf s →
  ∃ s', NetlistUpdateOpt s = Some (tt, s') ∧
    NetListFormatName (frame s') = default "" (last (checked_names (pages s))).
Proof.
  intros Hwf. destruct (wf_spice s Hwf) as (pg & chk & cmd & Hpg & Hchk & Hcmd).
  assert (Hlt : (PANELSPICE < length (pages s))%nat) by (by apply lookup_lt_is_Some_1; eexists).
  eexists. split.
  - unfold NetlistUpdateOpt.
    rewrite (bind_Some _ _ _ _ _ (run_panel _ _ _ (wf_panel_page _ _ Hwf Hlt))).
    msimpl. rewrite (bind_Some _ _ _ _ _ (run_page_at _ _ _ Hpg)).
    rewrite Hchk, Hcmd. msimpl.
    rewrite (NetlistUpdateOpt_loop_frame _ 0) by (done || lia). reflexivity.
  - cbn [frame set_frame pages]. rewrite drop_0.
    rewrite take_ge by (destruct Hwf as (_ & ? & _); lia).
    by rewrite note_format_name.
Qed.

Lemma filter_unchecked (l : list NETLIST_PAGE_DIALOG) :
  filter (λ pg, m_IsCurrentFormat pg = true) (set_IsCurrentFormat false <$> l) = [].
Proof.
  induction l as [|pg l IH]; simpl; [done|]. by rewrite filter_cons_False.
Qed.

Lemma checked_names_one (l : list NETLIST_PAGE_DIALOG) (p : nat) pg :
  l !! p = Some pg →
  checked_names
    (<[p := set_IsCurrentFormat true (set_IsCurrentFormat false pg)]>
       (set_IsCurrentFormat false <$> l)) = [GetPageNetFmtName pg].
Proof.
  intros Hp. pose proof (lookup_lt_Some _ _ _ Hp) as Hlt. unfold checked_names.
  rewrite insert_take_drop by (by rewrite length_fmap).
  rewrite filter_app, filter_cons_True by done.
  rewrite <- fmap_take, <- fmap_drop, !filter_unchecked. done.
Qed.

(** X16: the default format chosen in the dialog is the one the frame
    gets.  After [SelectDefaultNetlistType] the current page is the only
    page whose check box is set, [m_DefaultNetFmtName] is its name, and
    [NetlistUpdateOpt], which reads the check boxes, gives the frame the
    same name. *)
Theorem default_format_reaches_frame s p currPage :
  wf s → selection s = Some p → pages s !! p = Some currPage →
  ∃ s1 s2,
    SelectDefaultNetlistType s = Some (tt, s1) ∧
    checked_names (pages s1) = [GetPageNetFmtName currPage] ∧
    m_DefaultNetFmtName s1 = GetPageNetFmtName currPage ∧
    NetlistUpdateOpt s1 = Some (tt, s2) ∧
    NetListFormatName (frame s2) = m_DefaultNetFmtName s1.
Proof.
  intros Hwf Hsel Hpg.
  destruct (SelectDefaultNetlistType_ok s Hwf) as [Hr|(p' & Hp' & Hnone)];
    [|congruence].
  rewrite Hsel, Hpg in Hr.
  pose proof (kept_SelectDefaultNetlistType wf
                (λ s s' Hp _ Hn _, wf_layout s s' Hp Hn) wf_update_page _ _ _ Hwf Hr) as Hwf1.
  destruct (NetlistUpdateOpt_name _ Hwf1) as (s2 & Hu & Hname).
  do 2 eexists. split; [exact Hr|].
  cbn [pages set_pages m_DefaultNetFmtName set_frame set_DefaultNetFmtName] in *.
  rewrite (checked_names_one _ _ _ Hpg) in *.
  split; [done|]. split; [done|]. split; [exact Hu|]. done.
Qed.

(** X17: removing a plugin does not change the format of the project.
    When the user removes the plugin of the current page and nothing
    else, [InvokeDialogNetList] returns NET_PLUGIN_CHANGE and gives the
    frame the default format name that the constructor had found: when the
    format name of the project is the name of a page it stays as it is,
    also when it is the name of the plugin removed, and the project
    settings are not saved. *)
Theorem InvokeDialogNetList_after_delete fr cfg idx s0 p :
  NETLIST_DIALOG_ctor (new_NETLIST_DIALOG fr cfg idx) = Some (tt, s0) →
  selection s0 = Some p → (PANELCUSTOMBASE ≤ p)%nat →
  ∃ s2,
    InvokeDialogNetList [EvDelGenerator] (new_NETLIST_DIALOG fr cfg idx) =
      Some (NET_PLUGIN_CHANGE, s2) ∧
    NetListFormatName (frame s2) = m_DefaultNetFmtName s0 ∧
    (NetListFormatName fr ∈ page_names fr cfg →
       NetListFormatName (frame s2) = NetListFormatName fr ∧ effects s2 = []).
Proof.
  intros Hctor Hsel Hp.
  destruct (NETLIST_DIALOG_ctor_ok fr cfg idx)
    as (s0' & Hctor' & _ & Hd & Hf & Hc & Hnone & He & _).
  rewrite Hctor in Hctor'. injection Hctor' as <-. cbv zeta in Hd.
  pose proof (NETLIST_DIALOG_ctor_wf _ _ _ _ Hctor) as Hwf.
  pose proof (NETLIST_DIALOG_ctor_selection _ _ _ _ Hctor) as Hsok.
  destruct (wf_current_page s0 Hwf Hsok) as (p' & currPage & Hsel' & Hpg).
  rewrite Hsel in Hsel'. injection Hsel' as <-.
  destruct (wf_custom s0 p currPage Hwf Hp Hpg) as (c & t & Hcc & Ht).
  assert (Hw : has_custom_widgets currPage) by (split; by eexists).
  destruct (OnDelGenerator_ok s0 p currPage Hwf Hsel Hpg Hw) as [f Hrun].
  cbv zeta in Hrun.
  unfold InvokeDialogNetList. rewrite (bind_Some _ _ _ _ _ Hctor).
  rewrite bind_get.
  assert (Hshow : ShowModal [EvDelGenerator] s0 =
    Some (NET_PLUGIN_CHANGE,
          set_EndModal_code (Some NET_PLUGIN_CHANGE)
            (set_config (saved_config (set_pages (pages_after_delete (pages s0) p currPage) s0))
               (set_frame f (set_pages (pages_after_delete (pages s0) p currPage) s0))))).
  { simpl. rewrite bind_get, Hnone. unfold dispatch.
    rewrite (bind_Some _ _ _ _ _ Hrun). by rewrite bind_get. }
  rewrite (bind_Some _ _ _ _ _ Hshow). msimpl.
  cbn [m_DefaultNetFmtName set_EndModal_code set_config set_frame set_pages frame].
  rewrite Hf.
  pose proof (built_pages_known fr cfg) as Hknown.
  case_bool_decide as Hchg; msimpl.
  - eexists. split; [reflexivity|].
    cbn [frame effects set_frame set_effects set_EndModal_code set_config set_pages].
    split; [done|]. intros Hin. apply Hknown in Hin. rewrite Hin in Hd. congruence.
  - eexists. split; [reflexivity|].
    cbn [frame effects set_frame set_effects set_EndModal_code set_config set_pages].
    split; [done|]. intros Hin. apply Hknown in Hin. rewrite Hin in Hd.
    split; [by rewrite Hd|done].
Qed.

(** ** A setup read and saved again *)

Lemma filter_all {A} (P : A → Prop) `{∀ x, Decision (P x)} (l : list A) :
  Forall P l → filter P l = l.
Proof.
  induction 1 as [|x l Hx Hl IH]; [done|]. by rewrite filter_cons_True, IH.
Qed.

Lemma NETLIST_DIALOG_ctor_kept fr cfg idx s0 :
  NETLIST_DIALOG_ctor (new_NETLIST_DIALOG fr cfg idx) = Some (tt, s0) →
  kept_setups s0 =
    (λ ii, (stored_title cfg ii, stored_command cfg ii)) <$>
      seq 0 (leading_slots cfg (seq 0 CUSTOMPANEL_COUNTMAX)).
Proof.
  intros Hctor. unfold kept_setups.
  rewrite (NETLIST_DIALOG_ctor_custom _ _ _ _ Hctor).
  rewrite <- list_fmap_compose. apply filter_all.
  apply Forall_fmap, Forall_forall. intros ii Hii%elem_of_seq. simpl.
  destruct (leading_slots_spec cfg CUSTOMPANEL_COUNTMAX 0) as [Hfull _].
  apply Hfull. lia.
Qed.

(** X18: a setup read and saved again.  When a dialog just constructed
    saves its setup, the slots that the constructor showed as pages, those
    before the first slot with an empty title, keep their title and
    command; every later slot up to CUSTOMPANEL_COUNTMAX is emptied, so
    that what was stored behind an empty title is lost; the other keys of
    the configuration are not touched. *)
Theorem setup_read_and_saved fr cfg idx :
  let n := leading_slots cfg (seq 0 CUSTOMPANEL_COUNTMAX) in
  ∃ s0 s',
    NETLIST_DIALOG_ctor (new_NETLIST_DIALOG fr cfg idx) = Some (tt, s0) ∧
    WriteCurrentNetlistSetup s0 = Some (tt, s') ∧
    (∀ ii : nat, (ii < n)%nat →
       stored_title (config s') ii = stored_title cfg ii ∧
       stored_command (config s') ii = stored_command cfg ii) ∧
    (∀ ii : nat, (n ≤ ii < CUSTOMPANEL_COUNTMAX)%nat →
       config s' !! shl_int CUSTOM_NETLIST_TITLE (ii + 1) = Some "" ∧
       config s' !! shl_int CUSTOM_NETLIST_COMMAND (ii + 1) = Some "") ∧
    (∀ key,
       (∀ j : nat, (j < CUSTOMPANEL_COUNTMAX)%nat →
          key ≠ shl_int CUSTOM_NETLIST_TITLE (j + 1) ∧
          key ≠ shl_int CUSTOM_NETLIST_COMMAND (j + 1)) →
       config s' !! key = cfg !! key).
Proof.
  intros n.
  destruct (NETLIST_DIALOG_ctor_ok fr cfg idx) as (s0 & Hctor & _ & _ & _ & Hcfg & _).
  pose proof (NETLIST_DIALOG_ctor_wf _ _ _ _ Hctor) as Hwf.
  destruct (WriteCurrentNetlistSetup_ok s0 Hwf) as [f Hw].
  pose proof (NETLIST_DIALOG_ctor_kept _ _ _ _ Hctor) as Hkept. fold n in Hkept.
  pose proof (leading_slots_le cfg (seq 0 CUSTOMPANEL_COUNTMAX)) as Hn.
  rewrite length_seq in Hn. fold n in Hn.
  assert (Hlen : length (kept_setups s0) = n) by (by rewrite Hkept, length_fmap, length_seq).
  exists s0. eexists. split; [done|]. split; [exact Hw|].
  cbn [config set_config set_frame]. fold (saved_config s0).
  split; [|split].
  - intros ii Hii.
    rewrite saved_config_title, saved_config_command by (done || lia).
    rewrite Hkept, list_lookup_fmap, lookup_seq_lt by done. done.
  - intros ii Hii. unfold saved_config.
    rewrite write_setups_title, write_setups_command.
    rewrite !decide_True by (rewrite length_app, length_replicate; lia).
    rewrite Nat.sub_0_r, lookup_app_r by lia.
    rewrite lookup_replicate_2 by lia. done.
  - intros key Hkey. unfold saved_config. rewrite write_setups_other; [by rewrite Hcfg|].
    intros j Hj. apply Hkey. rewrite length_app, length_replicate in Hj. lia.
Qed.

(** ** The settings of the frame shown and read again *)

Lemma last_all_equal (l : list string) x :
  l ≠ [] → Forall (λ y, y = x) l → last l = Some x.
Proof.
  intros Hne Hall. induction Hall as [|y l -> Hl IH]; [done|].
  rewrite last_cons. destruct l as [|z l]; [done|]. by rewrite IH.
Qed.

Lemma built_pages_checked_names fr cfg :
  existsb m_IsCurrentFormat (built_pages fr cfg) = true →
  last (checked_names (built_pages fr cfg)) = Some (NetListFormatName fr).
Proof.
  intros Hex. apply last_all_equal.
  - apply existsb_exists in Hex as (pg & Hin%list_elem_of_In & Hc).
    unfold checked_names. intros Hnil. apply fmap_nil_inv in Hnil.
    assert (Hpg : pg ∈ filter (λ pg, m_IsCurrentFormat pg = true) (built_pages fr cfg))
      by (by apply list_elem_of_filter).
    rewrite Hnil in Hpg. by apply elem_of_nil in Hpg.
  - unfold checked_names. apply Forall_fmap, Forall_forall.
    intros pg [Hc Hin]%list_elem_of_filter. simpl.
    rewrite (built_pages_checked fr cfg pg Hin) in Hc.
    by apply bool_decide_eq_true in Hc.
Qed.

Lemma built_pages_unchecked fr cfg :
  existsb m_IsCurrentFormat (built_pages fr cfg) = false →
  filter (λ pg, m_IsCurrentFormat pg = true) (built_pages fr cfg) = [].
Proof.
  intros Hex. induction (built_pages fr cfg) as [|pg l IH]; [done|].
  simpl in Hex. apply orb_false_iff in Hex as [Hpg Hl].
  rewrite filter_cons_False by (by rewrite Hpg). by apply IH.
Qed.

Lemma frame_eq (f g : SCH_EDIT_FRAME) :
  NetListFormatName f = NetListFormatName g →
  SimulatorCommand f = SimulatorCommand g →
  SpiceAjustPassiveValues f = SpiceAjustPassiveValues g →
  NetListerCommand f = NetListerCommand g → f = g.
Proof. destruct f, g; simpl; congruence. Qed.

(** X19: the settings of the frame shown and read again.  The Spice page
    is built from the simulator command and the Spice option of the frame,
    and the check boxes from its format name; when [NetlistUpdateOpt] runs
    on the dialog as constructed, the frame gets the same simulator command
    and Spice option back, and the format name [m_DefaultNetFmtName]: its
    own format name when that is the name of a page, so that the frame is
    then unchanged, and Pcbnew otherwise. *)
Theorem frame_settings_shown_and_read fr cfg idx :
  ∃ s0 s1,
    NETLIST_DIALOG_ctor (new_NETLIST_DIALOG fr cfg idx) = Some (tt, s0) ∧
    NetlistUpdateOpt s0 = Some (tt, s1) ∧
    SimulatorCommand (frame s1) = SimulatorCommand fr ∧
    SpiceAjustPassiveValues (frame s1) = SpiceAjustPassiveValues fr ∧
    NetListerCommand (frame s1) = NetListerCommand fr ∧
    NetListFormatName (frame s1) = m_DefaultNetFmtName s0 ∧
    (NetListFormatName fr ∈ page_names fr cfg → frame s1 = fr) ∧
    (NetListFormatName fr ∉ page_names fr cfg → NetListFormatName (frame s1) = "Pcbnew").
Proof.
  destruct (NETLIST_DIALOG_ctor_ok fr cfg idx)
    as (s0 & Hctor & Hp & Hd & Hf & _).
  cbv zeta in Hp, Hd.
  pose proof (NETLIST_DIALOG_ctor_wf _ _ _ _ Hctor) as Hwf.
  pose proof (built_pages_known fr cfg) as Hknown.
  assert (Hlt : (PANELSPICE < length (pages s0))%nat).
  { destruct Hwf as (_ & Hlen & _). unfold PANELSPICE, PANELCUSTOMBASE in *. lia. }
  assert (Hsp : pages s0 !! PANELSPICE = Some (spice_page fr)).
  { rewrite Hp. by destruct (existsb _ _). }
  assert (Hnames : default "" (last (checked_names (pages s0))) = m_DefaultNetFmtName s0).
  { rewrite Hp, Hd. destruct (existsb m_IsCurrentFormat (built_pages fr cfg)) eqn:Hex.
    - by rewrite built_pages_checked_names.
    - unfold checked_names.
      assert (Hb : ∃ p0 rest, built_pages fr cfg = p0 :: rest) by (by do 2 eexists).
      destruct Hb as (p0 & rest & Hb). pose proof (built_pages_unchecked fr cfg Hex) as Hu.
      rewrite Hb in Hu |- *. unfold PANELPCBNEW. cbn [insert list_insert].
      rewrite filter_cons in Hu. case_decide; [done|].
      rewrite filter_cons_True by done. by rewrite Hu. }
  exists s0. eexists. split; [done|]. split.
  - unfold NetlistUpdateOpt.
    rewrite (bind_Some _ _ _ _ _ (run_panel _ _ _ (wf_panel_page _ _ Hwf Hlt))).
    msimpl. rewrite (bind_Some _ _ _ _ _ (run_page_at _ _ _ Hsp)).
    cbn [spice_page m_SpiceAjustPassiveValues m_CommandStringCtrl]. msimpl.
    rewrite (NetlistUpdateOpt_loop_frame _ 0) by (done || lia). reflexivity.
  - cbn [frame set_frame pages]. rewrite drop_0.
    rewrite take_ge by (destruct Hwf as (_ & ? & _); lia).
    rewrite note_format_name.
    match goal with |- context [fold_left note_format (pages s0) ?f0] =>
      destruct (note_format_other (pages s0) f0) as (Hsim & Hadj & Hcmd)
    end.
    rewrite Hf in Hsim, Hadj, Hcmd |- *.
    rewrite Hsim, Hadj, Hcmd. cbn [NetListFormatName SetNetListFormatName].
    rewrite Hnames.
    split; [done|]. split; [done|]. split; [done|]. split; [done|]. split.
    + intros Hin. apply Hknown in Hin. rewrite Hin in Hd.
      apply frame_eq; rewrite ?Hsim, ?Hadj, ?Hcmd; try done.
      rewrite note_format_name. cbn [NetListFormatName SetNetListFormatName].
      by rewrite Hnames.
    + intros Hnot. destruct (existsb m_IsCurrentFormat (built_pages fr cfg)) eqn:Hex; [|done].
      destruct Hnot. by apply Hknown.
Qed.

(** ** The pages marked as default *)

(** C4: when the constructor of the dialog has finished, the check box
    Default format is set on the pages whose name is the stored default
    format name, on each of them when several pages have that name, and on
    no other page, and [m_DefaultNetFmtName] is that name; when the name of
    no page is the stored default, the check box is set on the Pcbnew page
    alone and [m_DefaultNetFmtName] is Pcbnew.  When
    SelectDefaultNetlistType runs with a current page, afterwards the
    check box of the current page is set and that of every other page is
    cleared, so that exactly one page is marked, and m_DefaultNetFmtName
    and the format name of the parent frame are the format name of the
    current page. *)
Theorem default_format_is_marked :
  (∀ fr cfg idx,
     ∃ s, NETLIST_DIALOG_ctor (new_NETLIST_DIALOG fr cfg idx) = Some (tt, s) ∧
       wf s ∧
       (∃ pg, pg ∈ pages s ∧ m_IsCurrentFormat pg = true) ∧
       ((∃ pg, pg ∈ pages s ∧ GetPageNetFmtName pg = NetListFormatName fr) →
        m_DefaultNetFmtName s = NetListFormatName fr ∧
        ∀ pg, pg ∈ pages s →
          (m_IsCurrentFormat pg = true ↔ GetPageNetFmtName pg = NetListFormatName fr)) ∧
       ((∀ pg, pg ∈ pages s → GetPageNetFmtName pg ≠ NetListFormatName fr) →
        (∃ pcbnew, pages s !! PANELPCBNEW = Some pcbnew ∧
           GetPageNetFmtName pcbnew = "Pcbnew" ∧ m_IsCurrentFormat pcbnew = true ∧
           m_DefaultNetFmtName s = "Pcbnew") ∧
        ∀ (q : nat) pg, pages s !! q = Some pg →
          (m_IsCurrentFormat pg = true ↔ q = PANELPCBNEW)))
  ∧ (∀ s p currPage,
       wf s → selection s = Some p → pages s !! p = Some currPage →
       ∃ s', SelectDefaultNetlistType s = Some (tt, s') ∧
         (∀ q : nat, pages s' !! q =
            set_IsCurrentFormat (bool_decide (q = p)) <$> pages s !! q) ∧
         checked_names (pages s') = [GetPageNetFmtName currPage] ∧
         m_DefaultNetFmtName s' = GetPageNetFmtName currPage ∧
         NetListFormatName (frame s') = GetPageNetFmtName currPage).
Proof.
  split.
  - intros fr cfg idx.
    destruct (NETLIST_DIALOG_ctor_ok fr cfg idx) as (s & Hr & Hp & Hd & _).
    exists s. split; [done|]. split; [by eapply NETLIST_DIALOG_ctor_wf|].
    cbv zeta in Hp, Hd.
    pose proof (built_pages_checked fr cfg) as Hname.
    destruct (existsb m_IsCurrentFormat (built_pages fr cfg)) eqn:Hsel.
    + apply existsb_exists in Hsel as (pg & Hin%list_elem_of_In & Hchk).
      split; [|split].
      * exists pg. split; [by rewrite Hp|done].
      * intros _. split; [done|]. intros pg' Hin'. rewrite Hp in Hin'.
        rewrite (Hname _ Hin'). apply bool_decide_eq_true.
      * intros Hno. exfalso. rewrite (Hname _ Hin) in Hchk.
        apply bool_decide_eq_true in Hchk. apply (Hno pg); [by rewrite Hp|done].
    + assert (Hoff : ∀ pg, pg ∈ built_pages fr cfg → m_IsCurrentFormat pg = false).
      { intros pg Hin. destruct (m_IsCurrentFormat pg) eqn:Hc; [|done].
        assert (Hex : existsb m_IsCurrentFormat (built_pages fr cfg) = true).
        { apply existsb_exists. exists pg. split; [by apply list_elem_of_In|done]. }
        congruence. }
      assert (Hhead : built_pages fr cfg !! PANELPCBNEW =
                Some (plain_page "Pcbnew" NET_TYPE_PCBNEW
                        (bool_decide ("Pcbnew" = NetListFormatName fr)))) by done.
      assert (Hlen : (PANELPCBNEW < length (built_pages fr cfg))%nat)
        by (by eapply lookup_lt_Some).
      split; [|split].
      * eexists. split; [|shelve]. rewrite Hp. apply list_elem_of_lookup.
        exists PANELPCBNEW. by apply list_lookup_insert_eq.
      * intros (pg & Hin & Heq). exfalso. rewrite Hp in Hin.
        apply list_elem_of_lookup in Hin as [q Hq].
        destruct (decide (q = PANELPCBNEW)) as [->|Hne].
        -- rewrite list_lookup_insert_eq in Hq by done. injection Hq as <-.
           pose proof (Hoff _ (list_elem_of_lookup_2 _ _ _ Hhead)) as Hc.
           simpl in Hc, Heq. rewrite bool_decide_eq_true_2 in Hc by done. done.
        -- rewrite list_lookup_insert_ne in Hq by done.
           apply list_elem_of_lookup_2 in Hq.
           pose proof (Hoff _ Hq) as Hc. rewrite (Hname _ Hq) in Hc.
           by rewrite bool_decide_eq_true_2 in Hc.
      * intros _. split.
        -- eexists. rewrite Hp. split; [by apply list_lookup_insert_eq|]. by repeat split.
        -- intros q pg Hq. rewrite Hp in Hq.
           destruct (decide (q = PANELPCBNEW)) as [->|Hne].
           ++ rewrite list_lookup_insert_eq in Hq by done. by injection Hq as <-.
           ++ rewrite list_lookup_insert_ne in Hq by done.
              rewrite (Hoff _ (list_elem_of_lookup_2 _ _ _ Hq)). done.
  - intros s p currPage Hwf Hsel Hpg.
    destruct (SelectDefaultNetlistType_ok s Hwf) as [Hr|(p' & Hp' & Hnone)];
      [|congruence].
    rewrite Hsel, Hpg in Hr. eexists. split; [exact Hr|].
    cbn [pages set_pages m_DefaultNetFmtName frame set_frame set_DefaultNetFmtName].
    split; [|split; [by apply checked_names_one|done]]. intros q.
    destruct (decide (q = p)) as [->|Hne].
    + rewrite list_lookup_insert_eq by (rewrite length_fmap; by eapply lookup_lt_Some).
      rewrite Hpg. by rewrite bool_decide_eq_true_2.
    + rewrite list_lookup_insert_ne by done. rewrite list_lookup_fmap.
      by rewrite bool_decide_eq_false_2.
  Unshelve. done.
Qed.

End Properties.

(** * The properties on the sample dialog *)

Section Witnesses.

#[local] Existing Instance sample_headers.
#[local] Existing Instance sample_host.

Ltac by_computation := apply (bool_decide_unpack _); vm_compute; exact I.

Lemma GenNetlist_custom_extension_witness :
  wf sample_dialog ∧ selection sample_dialog = Some 4%nat ∧
  pages sample_dialog !! 4%nat = Some sample_custom_page ∧
  is_custom_type (m_IdNetType sample_custom_page) ∧
  m_CommandStringCtrl sample_custom_page = Some sample_command ∧
  is_Some (m_TitleStringCtrl sample_custom_page) ∧
  ∃ s' ext title path wildcard rest,
    GenNetlist (Some "/home/user/project/board.asc") sample_dialog = Some (tt, s') ∧
    effects s' =
      (effects sample_dialog ++
       wxFileDialog title path (proposed_name ext) wildcard :: rest)%list ∧
    (Matches extRE sample_command = true ↔ ∃ e, xsl_script_ext sample_command e) ∧
    (Matches extRE sample_command = true →
       ext = GetMatch1 extRE sample_command ∧ xsl_script_ext sample_command ext) ∧
    (Matches extRE sample_command = false →
       ext = "" ∧
       ∀ old aWildCard,
         (FilenamePrms (m_IdNetType sample_custom_page) (Some old) aWildCard).1.2 = Some "").
Proof.
  assert (H1 : wf sample_dialog) by by_computation.
  assert (H2 : selection sample_dialog = Some 4%nat) by (vm_compute; reflexivity).
  assert (H3 : pages sample_dialog !! 4%nat = Some sample_custom_page)
    by (vm_compute; reflexivity).
  assert (H4 : is_custom_type (m_IdNetType sample_custom_page)) by by_computation.
  assert (H5 : m_CommandStringCtrl sample_custom_page = Some sample_command)
    by reflexivity.
  assert (H6 : is_Some (m_TitleStringCtrl sample_custom_page)) by by_computation.
  repeat (split; [assumption|]).
  exact (GenNetlist_custom_extension sample_dialog 4 sample_custom_page sample_command
           (Some "/home/user/project/board.asc") H1 H2 H3 H4 H5 H6).
Defined.

Lemma WriteCurrentNetlistSetup_compact_witness :
  wf sample_dialog ∧
  ∃ s', WriteCurrentNetlistSetup sample_dialog = Some (tt, s') ∧
    (length (kept_setups sample_dialog) ≤ CUSTOMPANEL_COUNTMAX)%nat ∧
    (∀ (j : nat) title command,
       kept_setups sample_dialog !! j = Some (title, command) →
       config s' !! shl_int CUSTOM_NETLIST_TITLE (j + 1) = Some title ∧
       config s' !! shl_int CUSTOM_NETLIST_COMMAND (j + 1) = Some command) ∧
    (∀ j : nat, (length (kept_setups sample_dialog) ≤ j < CUSTOMPANEL_COUNTMAX)%nat →
       config s' !! shl_int CUSTOM_NETLIST_TITLE (j + 1) = Some "" ∧
       config s' !! shl_int CUSTOM_NETLIST_COMMAND (j + 1) = Some "") ∧
    (∀ key,
       (∀ j : nat, (j < CUSTOMPANEL_COUNTMAX)%nat →
          key ≠ shl_int CUSTOM_NETLIST_TITLE (j + 1) ∧
          key ≠ shl_int CUSTOM_NETLIST_COMMAND (j + 1)) →
       config s' !! key = config sample_dialog !! key).
Proof.
  assert (H1 : wf sample_dialog) by by_computation.
  split; [assumption|].
  exact (WriteCurrentNetlistSetup_compact sample_dialog H1).
Defined.

Lemma InstallCustomPages_slots_witness :
  length (m_PanelNetType sample_dialog) = (PANELCUSTOMBASE + CUSTOMPANEL_COUNTMAX)%nat ∧
  let s := sample_dialog in
  let n := leading_slots (config s) (seq 0 CUSTOMPANEL_COUNTMAX) in
  ∃ s', InstallCustomPages s = Some (tt, s') ∧
    (n ≤ CUSTOMPANEL_COUNTMAX)%nat ∧
    (∀ ii, (ii < n)%nat → stored_title (config s) ii ≠ "") ∧
    ((n < CUSTOMPANEL_COUNTMAX)%nat → stored_title (config s) n = "") ∧
    pages s' =
      (pages s ++ (stored_page (config s) (m_DefaultNetFmtName s) <$> seq 0 n))%list ∧
    (∀ ii, (ii < n)%nat →
       m_PanelNetType s' !! (PANELCUSTOMBASE + ii)%nat = Some (Some (length (pages s) + ii)%nat) ∧
       m_IdNetType (stored_page (config s) (m_DefaultNetFmtName s) ii) =
         NET_TYPE_CUSTOM1 + Z.of_nat ii) ∧
    (∀ ii, (ii < PANELCUSTOMBASE ∨ PANELCUSTOMBASE + n ≤ ii)%nat →
       m_PanelNetType s' !! ii = m_PanelNetType s !! ii) ∧
    config s' = config s.
Proof.
  assert (H1 : length (m_PanelNetType sample_dialog) =
               (PANELCUSTOMBASE + CUSTOMPANEL_COUNTMAX)%nat) by (vm_compute; reflexivity).
  split; [assumption|].
  exact (InstallCustomPages_slots sample_dialog H1).
Defined.

Lemma default_format_is_marked_witness :
  wf sample_dialog_spice ∧ selection sample_dialog_spice = Some PANELSPICE ∧
  pages sample_dialog_spice !! PANELSPICE = Some sample_spice_page ∧
  ∃ s', SelectDefaultNetlistType sample_dialog_spice = Some (tt, s') ∧
    (∀ q : nat, pages s' !! q =
       set_IsCurrentFormat (bool_decide (q = PANELSPICE)) <$> pages sample_dialog_spice !! q) ∧
    checked_names (pages s') = ["Spice"] ∧
    m_DefaultNetFmtName s' = "Spice" ∧
    NetListFormatName (frame s') = "Spice".
Proof.
  assert (H1 : wf sample_dialog_spice) by by_computation.
  assert (H2 : selection sample_dialog_spice = Some PANELSPICE) by (vm_compute; reflexivity).
  assert (H3 : pages sample_dialog_spice !! PANELSPICE = Some sample_spice_page)
    by (vm_compute; reflexivity).
  repeat (split; [assumption|]).
  exact (proj2 default_format_is_marked sample_dialog_spice PANELSPICE sample_spice_page
           H1 H2 H3).
Defined.

(** The constructor can leave the check box set on two pages: for a
    project whose format is Spice and a stored plugin that is also called
    Spice, it is set on the Spice page and on the page of the plugin. *)
Lemma default_format_marked_twice :
  (λ r, m_IsCurrentFormat <$> pages r.2) <$>
    NETLIST_DIALOG_ctor (new_NETLIST_DIALOG spice_frame spice_plugin_config 0)
  = Some [false; false; false; true; true]
  ∧ (λ r, checked_names (pages r.2)) <$>
      NETLIST_DIALOG_ctor (new_NETLIST_DIALOG spice_frame spice_plugin_config 0)
    = Some ["Spice"; "Spice"].
Proof. split; vm_compute; reflexivity. Qed.

Lemma GenNetlist_delegates_witness :
  wf sample_dialog ∧ selection sample_dialog = Some 4%nat ∧
  pages sample_dialog !! 4%nat = Some sample_custom_page ∧
  page_ready sample_custom_page ∧
  let s := sample_dialog in
  let currPage := sample_custom_page in
  let fullpath := "/home/user/project/board.asc" in
  ∃ s' fr1 title path name wildcard opt,
    GenNetlist (Some fullpath) s = Some (tt, s') ∧
    NetListerCommand fr1 = default "" (m_CommandStringCtrl currPage) ∧
    (CreateNetlist fr1 = None →
       effects s' =
         (effects s ++
          [wxFileDialog title path name wildcard; ClearMsgPanel; CallCreateNetlist;
           wxMessageBox "Schematic netlist not available"])%list) ∧
    (∀ netlist, CreateNetlist fr1 = Some netlist →
       effects s' =
         (effects s ++
          [wxFileDialog title path name wildcard; ClearMsgPanel; CallCreateNetlist;
           CallWriteNetListFile (Some netlist) (m_IdNetType currPage) fullpath opt])%list) ∧
    config s' = saved_config s ∧
    pages s' = pages s ∧
    EndModal_code s' = Some wxID_OK.
Proof.
  assert (H1 : wf sample_dialog) by by_computation.
  assert (H2 : selection sample_dialog = Some 4%nat) by (vm_compute; reflexivity).
  assert (H3 : pages sample_dialog !! 4%nat = Some sample_custom_page)
    by (vm_compute; reflexivity).
  assert (H4 : page_ready sample_custom_page) by by_computation.
  repeat (split; [assumption|]).
  exact (GenNetlist_delegates sample_dialog 4 sample_custom_page
           "/home/user/project/board.asc" H1 H2 H3 H4).
Defined.

Lemma FilenamePrms_extensions_witness :
  case_labels_distinct ∧
  let aExt := Some "old" in
  let aWildCard := @None string in
  FilenamePrms NET_TYPE_SPICE aExt aWildCard =
    (true, (λ _, "cir") <$> aExt, (λ _, SpiceNetlistFileWildcard) <$> aWildCard)
  ∧ FilenamePrms NET_TYPE_CADSTAR aExt aWildCard =
    (true, (λ _, "frp") <$> aExt, (λ _, CadstarNetlistFileWildcard) <$> aWildCard)
  ∧ FilenamePrms NET_TYPE_PCBNEW aExt aWildCard =
    (true, (λ _, NetlistFileExtension) <$> aExt, (λ _, NetlistFileWildcard) <$> aWildCard)
  ∧ FilenamePrms NET_TYPE_ORCADPCB2 aExt aWildCard =
    (true, (λ _, NetlistFileExtension) <$> aExt, (λ _, NetlistFileWildcard) <$> aWildCard)
  ∧ ∀ id, is_custom_type id →
      FilenamePrms id aExt aWildCard =
        (false, (λ _, "") <$> aExt, (λ _, AllFilesWildcard) <$> aWildCard).
Proof.
  assert (H1 : case_labels_distinct) by by_computation.
  split; [assumption|].
  exact (FilenamePrms_extensions (Some "old") None H1).
Defined.

Lemma RunSimulator_command_witness :
  wf sample_dialog_spice ∧ selection sample_dialog_spice = Some PANELSPICE ∧
  pages sample_dialog_spice !! PANELSPICE = Some sample_spice_page ∧
  let s := sample_dialog_spice in
  let currPage := sample_spice_page in
  ∃ spice text fr1 opt s',
    pages s !! PANELSPICE = Some spice ∧ m_CommandStringCtrl spice = Some text ∧
    RunSimulator s = Some (tt, s') ∧
    let tmp := Trim true (Trim false text) in
    let ExecFile := BeforeFirst " " tmp in
    let args := AfterFirst " " tmp in
    let netlist := CreateNetlist fr1 in
    let id := m_IdNetType currPage in
    (∃ l r, text = l +:+ tmp +:+ r ∧ all_space l = true ∧ all_space r = true
            ∧ first_is_space tmp = false ∧ last_is_space tmp = false) ∧
    (contains " " tmp = true →
       tmp = ExecFile +:+ String " " args ∧ contains " " ExecFile = false) ∧
    (contains " " tmp = false → ExecFile = tmp ∧ args = "") ∧
    fn_ext (SetExt "cir" (wxFileName_of RootFileName)) = "cir" ∧
    fn_name (SetExt "cir" (wxFileName_of RootFileName)) = fn_name (wxFileName_of RootFileName) ∧
    (WriteNetListFile fr1 netlist id simulator_netlist opt = true →
       effects s' =
         (effects s ++
          [CallCreateNetlist; CallWriteNetListFile netlist id simulator_netlist opt;
           ExecuteFile ExecFile (args +:+ " " +:+ quoted simulator_netlist)])%list) ∧
    (WriteNetListFile fr1 netlist id simulator_netlist opt = false →
       effects s' =
         (effects s ++
          [CallCreateNetlist; CallWriteNetListFile netlist id simulator_netlist opt])%list).
Proof.
  assert (H1 : wf sample_dialog_spice) by by_computation.
  assert (H2 : selection sample_dialog_spice = Some PANELSPICE) by (vm_compute; reflexivity).
  assert (H3 : pages sample_dialog_spice !! PANELSPICE = Some sample_spice_page)
    by (vm_compute; reflexivity).
  repeat (split; [assumption|]).
  exact (RunSimulator_command sample_dialog_spice PANELSPICE sample_spice_page H1 H2 H3).
Defined.

Lemma OnAddGenerator_validates_witness :
  wxID_OK ≠ wxID_CANCEL ∧ wf sample_dialog ∧
  let sub := [AddTypeName "PADS"; AddTypeCommand "python pads.py"; AddClickOK] in
  let s := sample_dialog in
  let dlg := add_ShowModal sub new_NETLIST_DIALOG_ADD_GENERATOR in
  let title := GetGeneratorTitle dlg in
  let cmd := GetGeneratorTCommandLine dlg in
  (∀ d, m_textCtrlCommand d = "" ∨ m_textCtrlName d = "" →
        add_EndModal (OnOKClick d) = add_EndModal d) ∧
  (add_EndModal dlg = Some wxID_OK → cmd ≠ "" ∧ title ≠ "") ∧
  (add_EndModal dlg = Some wxID_OK →
   Exists (λ pg, GetPageNetFmtName pg = title) (custom_pages s) →
   ∃ s', OnAddGenerator sub s = Some (tt, s') ∧
     effects s' =
       (effects s ++ (wxMessageBox <$> add_messages dlg) ++
        [wxMessageBox "This plugin already exists. Abort"])%list ∧
     m_PanelNetType s' = m_PanelNetType s ∧ pages s' = pages s ∧
     config s' = config s ∧ EndModal_code s' = EndModal_code s) ∧
  (∀ s', OnAddGenerator sub s = Some (tt, s') →
     pages s' ≠ pages s ∨ m_PanelNetType s' ≠ m_PanelNetType s ∨ config s' ≠ config s →
     add_EndModal dlg = Some wxID_OK ∧ cmd ≠ "" ∧ title ≠ "" ∧
     Forall (λ pg, GetPageNetFmtName pg ≠ title) (custom_pages s)) ∧
  (add_EndModal dlg = Some wxID_OK →
   Forall (λ pg, GetPageNetFmtName pg ≠ title) (custom_pages s) →
   (length (pages s) < PANELCUSTOMBASE + CUSTOMPANEL_COUNTMAX)%nat →
   ∃ s' id chk, OnAddGenerator sub s = Some (tt, s') ∧
     pages s' = (pages s ++ [custom_page title cmd id chk])%list ∧
     m_PanelNetType s' !! length (pages s) = Some (Some (length (pages s))) ∧
     EndModal_code s' = Some NET_PLUGIN_CHANGE).
Proof.
  assert (H1 : wxID_OK ≠ wxID_CANCEL) by by_computation.
  assert (H2 : wf sample_dialog) by by_computation.
  repeat (split; [assumption|]).
  exact (OnAddGenerator_validates
           [AddTypeName "PADS"; AddTypeCommand "python pads.py"; AddClickOK]
           sample_dialog H1 H2).
Defined.

Lemma OnDelGenerator_keeps_default_witness :
  wf sample_dialog ∧ selection sample_dialog = Some 4%nat ∧
  pages sample_dialog !! 4%nat = Some sample_custom_page ∧
  has_custom_widgets sample_custom_page ∧
  let s := sample_dialog in
  let p := 4%nat in
  let currPage := sample_custom_page in
  ∃ s', OnDelGenerator s = Some (tt, s') ∧
    (∃ pg, pages s' !! p = Some pg ∧
       m_CommandStringCtrl pg = Some "" ∧ m_TitleStringCtrl pg = Some "") ∧
    (m_IsCurrentFormat currPage = true →
       (∃ pcbnew, pages s' !! PANELPCBNEW = Some pcbnew ∧ m_IsCurrentFormat pcbnew = true) ∧
       (p ≠ PANELPCBNEW → ∃ pg, pages s' !! p = Some pg ∧ m_IsCurrentFormat pg = false)) ∧
    (m_IsCurrentFormat currPage = false →
       ∀ q : nat, m_IsCurrentFormat <$> pages s' !! q = m_IsCurrentFormat <$> pages s !! q) ∧
    ((∃ pg, pg ∈ pages s ∧ m_IsCurrentFormat pg = true) →
     ∃ pg, pg ∈ pages s' ∧ m_IsCurrentFormat pg = true) ∧
    config s' = saved_config (set_pages (pages s') s) ∧
    EndModal_code s' = Some NET_PLUGIN_CHANGE.
Proof.
  assert (H1 : wf sample_dialog) by by_computation.
  assert (H2 : selection sample_dialog = Some 4%nat) by (vm_compute; reflexivity).
  assert (H3 : pages sample_dialog !! 4%nat = Some sample_custom_page)
    by (vm_compute; reflexivity).
  assert (H4 : has_custom_widgets sample_custom_page) by by_computation.
  repeat (split; [assumption|]).
  exact (OnDelGenerator_keeps_default sample_dialog 4 sample_custom_page H1 H2 H3 H4).
Defined.

Lemma InvokeDialogNetList_saves_on_change_witness :
  NETLIST_DIALOG_ctor (new_NETLIST_DIALOG sample_frame sample_config 0) =
    Some (tt, sample_dialog) ∧
  ShowModal sample_events sample_dialog = Some (wxID_CANCEL, sample_dialog_closed) ∧
  ∃ s2, InvokeDialogNetList sample_events (new_NETLIST_DIALOG sample_frame sample_config 0) =
          Some (wxID_CANCEL, s2) ∧
    NetListFormatName (frame s2) = m_DefaultNetFmtName sample_dialog_closed ∧
    (NetListFormatName sample_frame ≠ m_DefaultNetFmtName sample_dialog_closed →
       effects s2 = (effects sample_dialog_closed ++ [SaveProjectSettings])%list) ∧
    (NetListFormatName sample_frame = m_DefaultNetFmtName sample_dialog_closed →
       effects s2 = effects sample_dialog_closed) ∧
    config s2 = config sample_dialog_closed.
Proof.
  assert (H1 : NETLIST_DIALOG_ctor (new_NETLIST_DIALOG sample_frame sample_config 0) =
               Some (tt, sample_dialog)) by (vm_compute; reflexivity).
  assert (H2 : ShowModal sample_events sample_dialog =
               Some (wxID_CANCEL, sample_dialog_closed)) by (vm_compute; reflexivity).
  repeat (split; [assumption|]).
  exact (proj2 (proj2 (proj2 (InvokeDialogNetList_saves_on_change
                                sample_frame sample_config 0 sample_events)
                         sample_dialog H1))
           wxID_CANCEL sample_dialog_closed H2).
Defined.

Lemma event_loop_keeps_dialog_witness :
  let s := set_buttonDelGenerator false (set_selection (Some PANELSPICE) sample_dialog) in
  wf s ∧ ∃ p pg, selection s = Some p ∧ pages s !! p = Some pg.
Proof.
  apply (event_loop_keeps_dialog sample_frame sample_config 0 sample_dialog).
  - vm_compute; reflexivity.
  - apply (dispatched_step _ sample_dialog (EvChangePage PANELSPICE)).
    + apply dispatched_start.
    + vm_compute; reflexivity.
    + vm_compute; reflexivity.
  - vm_compute; reflexivity.
Defined.

Lemma saved_setup_is_read_back_witness :
  ∃ s', WriteCurrentNetlistSetup sample_dialog = Some (tt, s') ∧
    ∀ fr idx,
      ∃ s2, NETLIST_DIALOG_ctor (new_NETLIST_DIALOG fr (config s') idx) = Some (tt, s2) ∧
        page_setup <$> custom_pages s2 = kept_setups sample_dialog ∧
        ∀ (ii : nat) pg, custom_pages s2 !! ii = Some pg →
          m_IdNetType pg = NET_TYPE_CUSTOM1 + Z.of_nat ii ∧
          GetPageNetFmtName pg = (page_setup pg).1.
Proof. apply (saved_setup_is_read_back sample_dialog). by_computation. Defined.

Lemma NetlistUpdateOpt_frame_witness :
  ∃ spice chk cmd s',
    pages sample_dialog !! PANELSPICE = Some spice ∧
    m_SpiceAjustPassiveValues spice = Some chk ∧ m_CommandStringCtrl spice = Some cmd ∧
    NetlistUpdateOpt sample_dialog = Some (tt, s') ∧
    s' = set_frame (frame s') sample_dialog ∧
    SpiceAjustPassiveValues (frame s') = chk ∧
    SimulatorCommand (frame s') = cmd ∧
    NetListerCommand (frame s') = NetListerCommand (frame sample_dialog) ∧
    NetListFormatName (frame s') = default "" (last (checked_names (pages sample_dialog))).
Proof. apply (NetlistUpdateOpt_frame sample_dialog). by_computation. Defined.

Lemma GenNetlist_cancelled_witness :
  ∃ s1 title path name wildcard,
    NetlistUpdateOpt sample_dialog = Some (tt, s1) ∧
    GenNetlist None sample_dialog =
      Some (tt, set_effects (effects sample_dialog ++ [wxFileDialog title path name wildcard]) s1) ∧
    config s1 = config sample_dialog ∧ pages s1 = pages sample_dialog ∧
    EndModal_code s1 = EndModal_code sample_dialog ∧ effects s1 = effects sample_dialog.
Proof.
  apply (GenNetlist_cancelled sample_dialog 4%nat sample_custom_page).
  - by_computation.
  - vm_compute; reflexivity.
  - vm_compute; reflexivity.
  - by_computation.
Defined.

Lemma RunSimulator_keeps_dialog_witness :
  ∃ spice text s1 s',
    pages sample_dialog_spice !! PANELSPICE = Some spice ∧ m_CommandStringCtrl spice = Some text ∧
    NetlistUpdateOpt sample_dialog_spice = Some (tt, s1) ∧
    RunSimulator sample_dialog_spice = Some (tt, s') ∧
    frame s' = SetSimulatorCommand (Trim true (Trim false text)) (frame s1) ∧
    pages s' = pages sample_dialog_spice ∧ config s' = config sample_dialog_spice ∧
    m_DefaultNetFmtName s' = m_DefaultNetFmtName sample_dialog_spice ∧
    EndModal_code s' = EndModal_code sample_dialog_spice.
Proof.
  apply (RunSimulator_keeps_dialog sample_dialog_spice PANELSPICE sample_spice_page).
  - by_computation.
  - vm_compute; reflexivity.
  - vm_compute; reflexivity.
Defined.

Lemma InvokeDialogNetList_codes_witness :
  let s2 :=
    match InvokeDialogNetList sample_events
            (new_NETLIST_DIALOG sample_frame sample_config 0) with
    | Some (_, s) => s
    | None => sample_dialog
    end in
  EndModal_code s2 = Some wxID_CANCEL ∧
  (wxID_CANCEL = wxID_OK ∨ wxID_CANCEL = NET_PLUGIN_CHANGE ∨ wxID_CANCEL = wxID_CANCEL).
Proof.
  apply (InvokeDialogNetList_codes sample_frame sample_config 0 sample_events).
  vm_compute; reflexivity.
Defined.

Lemma OnAddGenerator_is_read_back_witness :
  let sub := [AddTypeName "Cadence"; AddTypeCommand "cadence.exe"; AddClickOK] in
  let s := sample_dialog in
  ∃ s', OnAddGenerator sub s = Some (tt, s') ∧
    pages s' =
      (pages s ++ [custom_page "Cadence" "cadence.exe" (Z.of_nat (length (pages s)))
                     (bool_decide ("Cadence" = m_DefaultNetFmtName s))])%list ∧
    ∀ fr idx,
      ∃ s2, NETLIST_DIALOG_ctor (new_NETLIST_DIALOG fr (config s') idx) = Some (tt, s2) ∧
        page_setup <$> custom_pages s2 =
          (kept_setups s ++ [("Cadence", "cadence.exe")])%list.
Proof.
  apply (OnAddGenerator_is_read_back
           [AddTypeName "Cadence"; AddTypeCommand "cadence.exe"; AddClickOK] sample_dialog).
  - by_computation.
  - by_computation.
  - vm_compute; reflexivity.
  - by_computation.
  - vm_compute; lia.
Defined.

Lemma OnDelGenerator_is_read_back_witness :
  ∃ s', OnDelGenerator sample_dialog = Some (tt, s') ∧
    m_DefaultNetFmtName s' = m_DefaultNetFmtName sample_dialog ∧
    ∀ fr idx,
      ∃ s2, NETLIST_DIALOG_ctor (new_NETLIST_DIALOG fr (config s') idx) = Some (tt, s2) ∧
        page_setup <$> custom_pages s2 =
          filter (λ tc, tc.1 ≠ "")
            (page_setup <$> delete (4 - PANELCUSTOMBASE)%nat (custom_pages sample_dialog)).
Proof.
  apply (OnDelGenerator_is_read_back sample_dialog 4%nat sample_custom_page).
  - by_computation.
  - vm_compute; reflexivity.
  - vm_compute; reflexivity.
  - vm_compute; lia.
Defined.



Lemma GenNetlist_fixed_format_dialog_witness :
  ∃ s' ext wildcard rest,
    GenNetlist None sample_dialog_spice = Some (tt, s') ∧
    FilenamePrms (m_IdNetType sample_spice_page) (Some "") (Some "") =
      (true, Some ext, Some wildcard) ∧
    effects s' =
      (effects sample_dialog_spice ++
       wxFileDialog "Save Netlist File" proposed_path (proposed_name ext) wildcard :: rest)%list ∧
    (@None string = None → rest = []).
Proof.
  apply (GenNetlist_fixed_format_dialog sample_dialog_spice PANELSPICE sample_spice_page None).
  - by_computation.
  - vm_compute; reflexivity.
  - vm_compute; reflexivity.
  - by_computation.
  - by_computation.
Defined.

Lemma GenNetlist_options_witness :
  ∃ s' fr1 dlg call,
    GenNetlist (Some "/home/user/project/board.cir") sample_dialog_spice = Some (tt, s') ∧
    effects s' =
      (effects sample_dialog_spice ++ [dlg; ClearMsgPanel; CallCreateNetlist; call])%list ∧
    NetListerCommand fr1 = default "" (m_CommandStringCtrl sample_spice_page) ∧
    call =
      match CreateNetlist fr1 with
      | None => wxMessageBox "Schematic netlist not available"
      | Some netlist =>
          CallWriteNetListFile (Some netlist) (m_IdNetType sample_spice_page)
            "/home/user/project/board.cir" (page_options sample_spice_page)
      end ∧
    (m_IdNetType sample_spice_page ≠ NET_TYPE_SPICE → page_options sample_spice_page = 0) ∧
    (m_SpiceAjustPassiveValues sample_spice_page ≠ Some true →
     page_options sample_spice_page = 0) ∧
    (m_IdNetType sample_spice_page = NET_TYPE_SPICE →
     m_SpiceAjustPassiveValues sample_spice_page = Some true →
     page_options sample_spice_page = Z.lor 0 NET_ADJUST_PASSIVE_VALS).
Proof.
  apply (GenNetlist_options sample_dialog_spice PANELSPICE sample_spice_page).
  - by_computation.
  - vm_compute; reflexivity.
  - vm_compute; reflexivity.
  - by_computation.
Defined.

Lemma browsed_style_sheet_matches_witness :
  let f := "/usr/share/kicad/plugins/netlist_form_pads-pcb" +:+ "." +:+ "asc" +:+ ".xsl" in
  let command :=
    m_textCtrlCommand
      (@OnBrowseGenerators style_sheet_host f new_NETLIST_DIALOG_ADD_GENERATOR) in
  Matches extRE command = true ∧ xsl_script_ext command (GetMatch1 extRE command).
Proof.
  apply (@browsed_style_sheet_matches style_sheet_host
           "/usr/share/kicad/plugins/netlist_form_pads-pcb" "asc"
           new_NETLIST_DIALOG_ADD_GENERATOR).
  - reflexivity.
  - left; reflexivity.
  - reflexivity.
Defined.

Lemma OnAddGenerator_when_full_witness :
  let sub := [AddTypeName "Cadence"; AddTypeCommand "cadence.exe"; AddClickOK] in
  let s := full_dialog in
  let last := (PANELCUSTOMBASE + CUSTOMPANEL_COUNTMAX - 1)%nat in
  ∃ s', OnAddGenerator sub s = Some (tt, s') ∧
    pages s' =
      (pages s ++ [custom_page "Cadence" "cadence.exe" (Z.of_nat last)
                     (bool_decide ("Cadence" = m_DefaultNetFmtName s))])%list ∧
    m_PanelNetType s' = <[last := Some (length (pages s))]> (m_PanelNetType s) ∧
    length (m_PanelNetType s') = (PANELCUSTOMBASE + CUSTOMPANEL_COUNTMAX)%nat ∧
    EndModal_code s' = Some NET_PLUGIN_CHANGE ∧
    ∀ fr idx,
      ∃ s2, NETLIST_DIALOG_ctor (new_NETLIST_DIALOG fr (config s') idx) = Some (tt, s2) ∧
        page_setup <$> custom_pages s2 =
          (filter (λ tc, tc.1 ≠ "")
             (page_setup <$> take (CUSTOMPANEL_COUNTMAX - 1) (custom_pages s))
           ++ [("Cadence", "cadence.exe")])%list.
Proof.
  apply (OnAddGenerator_when_full
           [AddTypeName "Cadence"; AddTypeCommand "cadence.exe"; AddClickOK] full_dialog).
  - by_computation.
  - by_computation.
  - vm_compute; reflexivity.
  - by_computation.
  - vm_compute; reflexivity.
Defined.

Lemma default_format_reaches_frame_witness :
  ∃ s1 s2,
    SelectDefaultNetlistType sample_dialog_spice = Some (tt, s1) ∧
    checked_names (pages s1) = [GetPageNetFmtName sample_spice_page] ∧
    m_DefaultNetFmtName s1 = GetPageNetFmtName sample_spice_page ∧
    NetlistUpdateOpt s1 = Some (tt, s2) ∧
    NetListFormatName (frame s2) = m_DefaultNetFmtName s1.
Proof.
  apply (default_format_reaches_frame sample_dialog_spice PANELSPICE sample_spice_page).
  - by_computation.
  - vm_compute; reflexivity.
  - vm_compute; reflexivity.
Defined.

Lemma InvokeDialogNetList_after_delete_witness :
  ∃ s2,
    InvokeDialogNetList [EvDelGenerator] (new_NETLIST_DIALOG sample_frame sample_config 0) =
      Some (NET_PLUGIN_CHANGE, s2) ∧
    NetListFormatName (frame s2) = m_DefaultNetFmtName sample_dialog ∧
    (NetListFormatName sample_frame ∈ page_names sample_frame sample_config →
       NetListFormatName (frame s2) = NetListFormatName sample_frame ∧ effects s2 = []).
Proof.
  apply (InvokeDialogNetList_after_delete sample_frame sample_config 0 sample_dialog 4).
  - vm_compute; reflexivity.
  - vm_compute; reflexivity.
  - vm_compute; lia.
Defined.

End Witnesses.
